(** * RIFE frame-rate upsampling filter: scheduling layer of [plugin.cpp]

    A shallow embedding of the VapourSynth RIFE plugin's scheduling code
    ([rifeCreate], [rifeGetFrame], [filter]) together with the properties
    of its timeline arithmetic, skip decision, duration rescaling and
    semaphore discipline.

    Conventions of the embedding:
    - a C++ [int] is a [Z] whose arithmetic wraps to 32 bits ([wrap32]);
      [/] and [%] on [int] are [Z.quot] and [Z.rem] (truncation toward
      zero).  Signed overflow is undefined in C++; wrapping is what the
      usual two's-complement targets do, and every property below that is
      stated for indices under the stored output count is shown free of
      overflow;
    - a C++ [double] is a primitive binary64 [float];
    - a C++ [float] is a binary32 number: a [spec_float] of the standard
      library at precision 24 and maximal exponent 128, whose cast from
      [int] and whose division round to nearest, ties to even;
    - a [VSMap] is a finite map from keys to typed arrays;
    - host calls made by [rifeGetFrame] are recorded in an event log that
      is threaded through a small state-and-failure monad;
    - pixel data and the engine are parameters; frame ownership beyond the
      [freeFrame] calls is left out;
    - the GPU instance counter is followed beside the result of
      [rifeCreate] ([rifeCreate_counted], [rifeFree]). *)

From Stdlib Require Import ZArith Floats Lia Bool List Ascii String.
From stdpp Require Import base option gmap strings pretty.
Import ListNotations.

Local Open Scope string_scope.
Local Open Scope Z_scope.

(* ===================================================================== *)
(** ** 32-bit [int] arithmetic                                            *)
(* ===================================================================== *)

Definition INT_MAX : Z := 2147483647.
Definition INT_MIN : Z := -2147483648.

(** Two's-complement wrap-around of a mathematical integer to [int]. *)
Definition wrap32 (z : Z) : Z := (z + 2 ^ 31) mod 2 ^ 32 - 2 ^ 31.

Definition int_add (a b : Z) : Z := wrap32 (a + b).
Definition int_sub (a b : Z) : Z := wrap32 (a - b).
Definition int_mul (a b : Z) : Z := wrap32 (a * b).
Definition int_div (a b : Z) : Z := wrap32 (Z.quot a b).
Definition int_rem (a b : Z) : Z := Z.rem a b.

(** [mapGetIntSaturated]: an [int64_t] property clamped to the [int] range. *)
Definition saturate_int (v : Z) : Z := Z.max INT_MIN (Z.min INT_MAX v).

(* ===================================================================== *)
(** ** Property maps                                                      *)
(* ===================================================================== *)

Inductive PropValue :=
| PInt (vs : list Z)
| PFloat (vs : list float)
| PData (vs : list string).

Abbreviation VSMap := (gmap string PropValue).

Inductive MapError := peUnset | peType | peIndex.

Definition mapGetInt (m : VSMap) (key : string) (index : nat) : MapError + Z :=
  match m !! key with
  | None => inl peUnset
  | Some (PInt vs) =>
      match vs !! index with Some v => inr v | None => inl peIndex end
  | Some _ => inl peType
  end.

Definition mapGetFloat (m : VSMap) (key : string) (index : nat) : MapError + float :=
  match m !! key with
  | None => inl peUnset
  | Some (PFloat vs) =>
      match vs !! index with Some v => inr v | None => inl peIndex end
  | Some _ => inl peType
  end.

Definition mapGetData (m : VSMap) (key : string) (index : nat) : MapError + string :=
  match m !! key with
  | None => inl peUnset
  | Some (PData vs) =>
      match vs !! index with Some v => inr v | None => inl peIndex end
  | Some _ => inl peType
  end.

Definition mapGetIntSaturated (m : VSMap) (key : string) (index : nat) : MapError + Z :=
  match mapGetInt m key index with
  | inr v => inr (saturate_int v)
  | inl e => inl e
  end.

(** [mapSetInt(map, key, v, maReplace)]. *)
Definition mapSetInt (m : VSMap) (key : string) (v : Z) : VSMap :=
  let value := PInt [v] in <[key := value]> m.

(** [!!vsapi->mapGetInt(map, key, 0, &err)]: an absent or ill-typed key
    reads as 0, hence as [false]. *)
Definition mapGetBool (m : VSMap) (key : string) : bool :=
  match mapGetInt m key 0 with
  | inr v => negb (v =? 0)
  | inl _ => false
  end.

(** [x = mapGet...(in, key, 0, &err); if (err) x = dflt;] *)
Definition orDefault {A} (r : MapError + A) (dflt : A) : A :=
  match r with inr v => v | inl _ => dflt end.

(* ===================================================================== *)
(** ** Rational rescaling helper                                          *)
(* ===================================================================== *)

(** Modelled from the spec: [vsh::muldivRational] lives in the host SDK
    header VSHelper4.h, which is not part of the sources.  The spec
    describes it as an exact rational multiply-divide followed by a
    reduction by the greatest common divisor: [num/den] becomes
    [(num * mul) / (den * div)] in lowest terms. *)
Definition muldivRational (num den mul div : Z) : Z * Z :=
  let a := num * mul in
  let b := den * div in
  let g := Z.gcd a b in
  (a / g, b / g).

(* ===================================================================== *)
(** ** Video info and filter instance data                                *)
(* ===================================================================== *)

Inductive VSColorFamily := cfUndefined | cfGray | cfRGB | cfYUV.
Inductive VSSampleType := stInteger | stFloat.

Record VSVideoFormat := {
  colorFamily : VSColorFamily;
  sampleType : VSSampleType;
  bitsPerSample : Z;
  bytesPerSample : Z
}.

Record VSVideoInfo := {
  format : VSVideoFormat;
  fpsNum : Z;
  fpsDen : Z;
  width : Z;
  height : Z;
  numFrames : Z
}.

(** Constructor arguments and model directory of the [RIFE] engine object. *)
Record RIFE := {
  gpuid : Z;
  tta_mode : bool;
  uhd_mode : bool;
  num_threads : Z;
  rife_v2 : bool;
  rife_v4 : bool;
  modeldir : string
}.

Record RIFEData := {
  vi : VSVideoInfo;
  multiplier : Z;
  divisor : Z;
  sceneChange : bool;
  skip : bool;
  skip_threshold : float;
  rife : RIFE;
  semaphore : Z   (* initial count of the counting semaphore *)
}.

(* ===================================================================== *)
(** ** [rifeCreate]: argument parsing and validation                      *)
(* ===================================================================== *)

(** What [rifeCreate] observes of the host, the GPU runtime and the file
    system.  Line 215 throws [c_str()] of a temporary [std::string], which
    is destroyed before the handler at line 412 reads the message; what
    the handler finds at that address is not determined by the program,
    and [freed_c_str env text] is what it reads where [text] had been. *)
Record Env := {
  isConstantVideoFormat : VSVideoInfo -> bool;   (* vsh helper of VSHelper4.h *)
  create_gpu_instance : Z;                       (* nonzero on failure *)
  get_default_gpu_index : Z;
  get_gpu_count : Z;
  compute_queue_count : Z -> Z;                  (* uint32_t, per device *)
  device_name : Z -> string;
  pluginPath : string;
  ifs_is_open : string -> bool;                  (* can the file be opened *)
  vmaf : bool;                                   (* com.holywu.vmaf loaded *)
  invoke_error : string -> option string;        (* mapGetError of an invoke *)
  freed_c_str : string -> string                 (* a destroyed string, read *)
}.

(** The three ways [rifeCreate] leaves its [out] map. *)
Inductive Out :=
| OutError (msg : string)      (* mapSetError *)
| OutText (text : string)      (* the clip of text.Text, for list_gpu *)
| OutRIFE (d : RIFEData).      (* createVideoFilter *)

(** Early exits of the body: a [throw] caught by the handler at the end,
    or a plain [return] after [out] was written. *)
Inductive Exit :=
| Throw (error : string)
| Return (o : Out).

Definition Create (A : Type) : Type := Exit + A.

Definition throw {A} (error : string) : Create A := inl (Throw error).
Definition return_out {A} (o : Out) : Create A := inl (Return o).

#[export] Instance create_ret : MRet Create := fun A a => inr a.
#[export] Instance create_bind : MBind Create := fun A B k m =>
  match m with inl e => inl e | inr a => k a end.

Definition throw_if (c : bool) (error : string) : Create unit :=
  if c then throw error else mret tt.
(** [ret = invoke(...); if (mapGetError(ret)) { mapSetError(out, ...); return; }] *)
Definition invoke (env : Env) (fn : string) : Create unit :=
  match invoke_error env fn with
  | Some e => return_out (OutError e)
  | None => mret tt
  end.

(** [std::string::rfind(c)]: position of the last occurrence. *)
Fixpoint rfind (c : ascii) (s : string) : option nat :=
  match s with
  | EmptyString => None
  | String a s' =>
      match rfind c s' with
      | Some i => Some (S i)
      | None => if Ascii.eqb a c then Some 0%nat else None
      end
  end.

(** [s.substr(0, s.rfind(c))]; [npos] keeps the whole string. *)
Definition dirname (s : string) : string :=
  match rfind "/"%char s with
  | Some i => String.substring 0 i s
  | None => s
  end.

(** [hay.find(needle) != std::string::npos] *)
Definition contains (hay needle : string) : bool :=
  match String.index 0 needle hay with Some _ => true | None => false end.

Definition model_suffix (model : Z) : string :=
  match model with
  | 0 => "/rife"
  | 1 => "/rife-HD"
  | 2 => "/rife-UHD"
  | 3 => "/rife-anime"
  | 4 => "/rife-v2"
  | 5 => "/rife-v2.3"
  | 6 => "/rife-v2.4"
  | 7 => "/rife-v3.0"
  | 8 => "/rife-v3.1"
  | 9 => "/rife-v4"
  | _ => ""
  end.

(** The listing shown for [list_gpu]: one line per device. *)
Definition list_gpu_text (env : Env) : string :=
  fold_left
    (fun text i =>
       let i := Z.of_nat i in
       text +:+ pretty i +:+ ": " +:+ device_name env i +:+ String "010"%char "")
    (seq 0 (Z.to_nat (get_gpu_count env))) "".

(** Model family detected from the directory name: [(rife_v2, rife_v4)],
    or nothing for a directory that names no known family. *)
Definition model_family (modelPath : string) : option (bool * bool) :=
  if contains modelPath "rife-v2" then Some (true, false)
  else if contains modelPath "rife-v3" then Some (true, false)
  else if contains modelPath "rife-v4" then Some (false, true)
  else if negb (contains modelPath "rife") then None
  else Some (false, false).

Definition rifeCreate_body (args : VSMap) (vi0 : VSVideoInfo) (env : Env)
  : Create RIFEData :=
  (throw_if (negb (isConstantVideoFormat env vi0)
             || negb (match colorFamily (format vi0) with cfRGB => true | _ => false end)
             || negb (match sampleType (format vi0) with stFloat => true | _ => false end)
             || negb (bitsPerSample (format vi0) =? 32))
     "only constant RGB format 32 bit float input supported" ;;
   throw_if (negb (create_gpu_instance env =? 0)) "failed to create GPU instance" ;;
   let model := orDefault (mapGetIntSaturated args "model" 0) 5 in
   let multiplier := orDefault (mapGetIntSaturated args "multiplier" 0) 2 in
   let divisor := orDefault (mapGetIntSaturated args "divisor" 0) 1 in
   let modelPath := orDefault (mapGetData args "model_path" 0) "" in
   let gpuId := orDefault (mapGetIntSaturated args "gpu_id" 0) (get_default_gpu_index env) in
   let gpuThread := orDefault (mapGetIntSaturated args "gpu_thread" 0) 2 in
   let tta := mapGetBool args "tta" in
   let uhd := mapGetBool args "uhd" in
   let sceneChange := mapGetBool args "sc" in
   let skip := mapGetBool args "skip" in
   let skip_threshold := orDefault (mapGetFloat args "skip_threshold" 0) 60%float in
   throw_if ((model <? 0) || (model >? 9)) "model must be between 0 and 9 (inclusive)" ;;
   throw_if (multiplier <? 2) "multiplier must be greater than 1" ;;
   throw_if (divisor <? 1) "divisor must be greater than 0" ;;
   throw_if ((gpuId <? 0) || (gpuId >=? get_gpu_count env)) "invalid GPU device" ;;
   let queue_count := compute_queue_count env gpuId in
   throw_if ((gpuThread <? 1) || (gpuThread >? queue_count))
     (freed_c_str env
        ("gpu_thread must be between 1 and " +:+ pretty queue_count +:+ " (inclusive)")) ;;
   throw_if ((skip_threshold <? 0)%float || (60 <? skip_threshold)%float)
     "skip_threshold must be between 0.0 and 60.0 (inclusive)" ;;
   throw_if (numFrames vi0 <? 2) "clip's number of frames must be at least 2" ;;
   throw_if (int_div (numFrames vi0) divisor >? int_div INT_MAX multiplier)
     "resulting clip is too long" ;;
   (if mapGetBool args "list_gpu"
    then invoke env "Text" ;; return_out (OutText (list_gpu_text env))
    else mret tt) ;;
   let modelPath :=
     if String.eqb modelPath ""
     then dirname (pluginPath env) +:+ "/models" +:+ model_suffix model
     else modelPath in
   throw_if (negb (ifs_is_open env (modelPath +:+ "/flownet.param"))) "failed to load model" ;;
   family ← match model_family modelPath with
             | Some f => mret f
             | None => throw "unknown model dir type"
             end ;
   let '(rife_v2, rife_v4) := family in
   throw_if (negb rife_v4 && (negb (multiplier =? 2) || negb (divisor =? 1)))
     "only rife-v4 model supports custom multiplier" ;;
   throw_if (rife_v4 && tta) "rife-v4 model does not support TTA mode" ;;
   (if skip
    then throw_if (negb (vmaf env)) "VMAF plugin is required when skip=True" ;;
         invoke env "Bicubic" ;;
         invoke env "DuplicateFrames" ;;
         invoke env "Trim" ;;
         invoke env "Metric"
    else mret tt) ;;
   let numFrames' := int_div (int_mul (numFrames vi0) multiplier) divisor in
   let '(fpsNum', fpsDen') := muldivRational (fpsNum vi0) (fpsDen vi0) multiplier divisor in
   mret {| vi := {| format := format vi0; fpsNum := fpsNum'; fpsDen := fpsDen';
                    width := width vi0; height := height vi0;
                    numFrames := numFrames' |};
           multiplier := multiplier;
           divisor := divisor;
           sceneChange := sceneChange;
           skip := skip;
           skip_threshold := skip_threshold;
           rife := {| gpuid := gpuId; tta_mode := tta; uhd_mode := uhd;
                      num_threads := 1; rife_v2 := rife_v2; rife_v4 := rife_v4;
                      modeldir := modelPath |};
           semaphore := gpuThread |}).

(** The [catch] handler prefixes the message of a thrown error. *)
Definition rifeCreate (args : VSMap) (vi0 : VSVideoInfo) (env : Env) : Out :=
  match rifeCreate_body args vi0 env with
  | inl (Throw error) => OutError ("RIFE: " +:+ error)
  | inl (Return o) => o
  | inr d => OutRIFE d
  end.

(** The checks a configuration has passed when [rifeCreate] builds the
    filter, and the frame count it stores. *)
Record Validated (vi0 : VSVideoInfo) (d : RIFEData) : Prop := {
  v_multiplier : 2 <= multiplier d <= INT_MAX;
  v_divisor : 1 <= divisor d <= INT_MAX;
  v_threads : 1 <= semaphore d;
  v_threshold_lo : (skip_threshold d <? 0)%float = false;
  v_threshold_hi : (60 <? skip_threshold d)%float = false;
  v_frames : 2 <= numFrames vi0;
  v_length : int_div (numFrames vi0) (divisor d) <= int_div INT_MAX (multiplier d);
  v_numFrames :
    numFrames (vi d) = int_div (int_mul (numFrames vi0) (multiplier d)) (divisor d);
  v_family : rife_v4 (rife d) = false -> multiplier d = 2 /\ divisor d = 1
}.

(* ===================================================================== *)
(** ** binary32 [float] arithmetic                                        *)
(* ===================================================================== *)

(** A C++ [float]: precision 24, maximal exponent 128. *)
Definition float32 : Type := spec_float.

(** [static_cast<float>(z)] for an [int] [z]: the nearest binary32 number,
    ties to even. *)
Definition float32_of_int (z : Z) : float32 := binary_normalize 24 128 z 0 false.

(** [x / y] on [float]. *)
Definition float32_div (x y : float32) : float32 := SFdiv 24 128 x y.

Definition float32_zero : float32 := S754_zero false.
Definition float32_one : float32 := S754_finite false 8388608 (-23).

(** Notions used to reason about casts and quotients.  A mantissa of
    exactly 24 digits: *)
Definition normal32 (m : positive) : Prop := 2 ^ 23 <= Zpos m < 2 ^ 24.

(** [z] with its [k] low bits rounded away, to nearest and to even on a
    tie: the mantissa kept. *)
Definition round_at (z k : Z) : Z :=
  z / 2 ^ k
  + (if (2 ^ k <? 2 * (z mod 2 ^ k)) || ((2 * (z mod 2 ^ k) =? 2 ^ k) && Z.odd (z / 2 ^ k))
     then 1 else 0).

(** The integer that the cast of a positive [int] stands for. *)
Definition float32_rounded (z : Z) : Z :=
  if z <? 2 ^ 24 then z
  else round_at z (Zdigits2 z - 24) * 2 ^ (Zdigits2 z - 24).

(* ===================================================================== *)
(** ** Timeline mapping (lines 78-81 and 116 of [rifeGetFrame])           *)
(* ===================================================================== *)

(** [static_cast<int>(n * d->divisor / d->multiplier)] *)
Definition frameNum (d : RIFEData) (n : Z) : Z :=
  int_div (int_mul n (divisor d)) (multiplier d).

(** [n * d->divisor % d->multiplier] *)
Definition remainder (d : RIFEData) (n : Z) : Z :=
  int_rem (int_mul n (divisor d)) (multiplier d).

(** [remainder != 0 && n < d->vi.numFrames - d->multiplier]: "should the
    frame be interpolated && can the frame be interpolated". *)
Definition canInterpolate (d : RIFEData) (n : Z) : bool :=
  negb (remainder d n =? 0) && (n <? int_sub (numFrames (vi d)) (multiplier d)).

(** The blend position handed to the engine, line 116:
    [static_cast<float>(remainder) / static_cast<float>(d->multiplier)],
    both casts and the division in binary32 (no wider intermediate
    format, as on targets with [FLT_EVAL_METHOD] 0). *)
Definition timestep (d : RIFEData) (n : Z) : float32 :=
  float32_div (float32_of_int (remainder d n)) (float32_of_int (multiplier d)).

(* ===================================================================== *)
(** ** Frames, host calls and the event log                               *)
(* ===================================================================== *)

Inductive Clip := node | psnr.

Inductive VSActivationReason := arError | arInitial | arAllFramesReady.

(** Host and engine calls, in the order [rifeGetFrame] performs them. *)
Inductive Event :=
| EvRequestFrameFilter (k : Z) (c : Clip)
| EvGetFrameFilter (k : Z) (c : Clip)
| EvCopyFrame
| EvNewVideoFrame
| EvAcquire
| EvProcess (t : float32)
| EvRelease
| EvFreeFrame (f : option (Z * Clip)).

(** A computation of [rifeGetFrame]: it appends to the log, and it may
    abort (a fatal host error or a null frame being dereferenced), in which
    case no value is produced and the log stops at the failing call. *)
Definition GetFrame (A : Type) : Type := list Event -> option A * list Event.

#[export] Instance getframe_ret : MRet GetFrame := fun A a log => (Some a, log).
#[export] Instance getframe_bind : MBind GetFrame := fun A B k m log =>
  match m log with
  | (Some a, log') => k a log'
  | (None, log') => (None, log')
  end.

Definition emit (e : Event) : GetFrame unit := fun log => (Some tt, (log ++ [e])%list).
Definition abort {A} : GetFrame A := fun log => (None, log).

(** Run a computation from the empty log. *)
Definition run {A} (m : GetFrame A) : option A * list Event := m [].

Section Frames.

(** Pixel data of a frame (three planes of 32-bit float samples with
    their dimensions); the embedding never looks inside. *)
Context {Planes : Type}.

Record VSFrame := {
  planes : Planes;
  props : VSMap
}.

(** Contents of a freshly allocated frame. *)
Variable blank : Planes.

(** [RIFE::process]: the external interpolation engine.  Its status code
    is discarded by the caller, so only the written planes matter. *)
Variable process : Planes -> Planes -> float32 -> Planes.

(** The frames the host has materialised for this call, per clip. *)
Variable host : Clip -> Z -> option VSFrame.

Definition requestFrameFilter (k : Z) (c : Clip) : GetFrame unit :=
  emit (EvRequestFrameFilter k c).

Definition getFrameFilter (k : Z) (c : Clip) : GetFrame VSFrame :=
  emit (EvGetFrameFilter k c) ;;
  match host c k with
  | Some f => mret f
  | None => abort
  end.

Definition copyFrame (src : VSFrame) : GetFrame VSFrame :=
  emit EvCopyFrame ;; mret src.

(** [newVideoFrame(format, width, height, propSrc, core)]: the properties
    are copied from [propSrc]. *)
Definition newVideoFrame (propSrc : VSFrame) : GetFrame VSFrame :=
  emit EvNewVideoFrame ;; mret {| planes := blank; props := props propSrc |}.

Definition freeFrame (f : option (Z * Clip)) : GetFrame unit :=
  emit (EvFreeFrame f).

(** [filter]: one engine call between [acquire] and [release]. *)
Definition filter (src0 src1 dst : VSFrame) (t : float32) (d : RIFEData)
  : GetFrame VSFrame :=
  emit EvAcquire ;;
  emit (EvProcess t) ;;
  let dst := {| planes := process (planes src0) (planes src1) t;
                props := props dst |} in
  emit EvRelease ;;
  mret dst.

(** Lines 123-131: rescale the duration attached to [dst]. *)
Definition rescaleDuration (d : RIFEData) (dst : VSFrame) : VSFrame :=
  match mapGetInt (props dst) "_DurationNum" 0,
        mapGetInt (props dst) "_DurationDen" 0 with
  | inr durationNum, inr durationDen =>
      let '(durationNum, durationDen) :=
        muldivRational durationNum durationDen (divisor d) (multiplier d) in
      {| planes := planes dst;
         props := mapSetInt (mapSetInt (props dst) "_DurationNum" durationNum)
                    "_DurationDen" durationDen |}
  | _, _ => dst
  end.

(** Lines 102-103: the scene-change flag, read from the properties of
    [src0] when detection is enabled. *)
Definition read_sceneChange (d : RIFEData) (src0 : VSFrame) : bool :=
  if sceneChange d
  then mapGetBool (props src0) "_SceneChangeNext"
  else false.

(** Lines 99 and 105-108: the score, initially [-1.0], read from the
    metric frame when skip-by-metric is enabled.  Returns the metric frame
    fetched (to be freed at the end) and the score. *)
Definition read_psnr_y (d : RIFEData) (frameNum : Z)
  : GetFrame (option (Z * Clip) * float) :=
  if skip d
  then
    f ← getFrameFilter frameNum psnr ;
    match mapGetFloat (props f) "psnr_y" 0 with
    | inr y => mret (Some (frameNum, psnr), y)
    | inl _ => abort   (* no error pointer: fatal *)
    end
  else mret (None, (-1)%float).

Definition rifeGetFrame (n : Z) (activationReason : VSActivationReason)
    (d : RIFEData) : GetFrame (option VSFrame) :=
  let frameNum := frameNum d n in
  match activationReason with
  | arInitial =>
      requestFrameFilter frameNum node ;;
      (if canInterpolate d n
       then requestFrameFilter (int_add frameNum 1) node
       else mret tt) ;;
      (if skip d then requestFrameFilter frameNum psnr else mret tt) ;;
      mret None
  | arAllFramesReady =>
      src0 ← getFrameFilter frameNum node ;
      '(dst, src1, psnr_frame) ←
        (if canInterpolate d n
         then
           let sceneChange := read_sceneChange d src0 in
           '(psnr_frame, psnr_y) ← read_psnr_y d frameNum ;
           if sceneChange || (skip_threshold d <=? psnr_y)%float
           then
             dst ← copyFrame src0 ;
             mret (dst, None, psnr_frame)
           else
             src1 ← getFrameFilter (int_add frameNum 1) node ;
             dst ← newVideoFrame src0 ;
             dst ← filter src0 src1 dst (timestep d n) d ;
             mret (dst, Some (int_add frameNum 1, node), psnr_frame)
         else
           dst ← copyFrame src0 ;
           mret (dst, None, None)) ;
      let dst := rescaleDuration d dst in
      freeFrame (Some (frameNum, node)) ;;
      freeFrame src1 ;;
      freeFrame psnr_frame ;;
      mret (Some dst)
  | arError => mret None
  end.

End Frames.

Arguments VSFrame Planes : clear implicits.

(* ===================================================================== *)
(** ** The skip decision as the specification words it                    *)
(* ===================================================================== *)

Inductive Decision := PASSTHROUGH | SYNTHESIZE.

(** Written from the specification, for comparison with [rifeGetFrame]:
    a true scene-change flag (when detection is enabled) passes through;
    otherwise a score at or above the threshold (when skip-by-metric is
    enabled) passes through; otherwise the frame is synthesized. *)
Definition SkipDecision_spec (sceneChangeEnabled flag skipEnabled : bool)
    (similarityScore threshold : float) : Decision :=
  if sceneChangeEnabled && flag then PASSTHROUGH
  else if skipEnabled && (threshold <=? similarityScore)%float then PASSTHROUGH
  else SYNTHESIZE.

(** Observations on an event log. *)
Definition is_process (e : Event) : bool :=
  match e with EvProcess _ => true | _ => false end.

Definition engine_called (log : list Event) : bool := existsb is_process log.

Definition requested (k : Z) (c : Clip) (log : list Event) : Prop :=
  In (EvRequestFrameFilter k c) log.

Definition fetched (k : Z) (c : Clip) (log : list Event) : Prop :=
  In (EvGetFrameFilter k c) log.

(** What [arInitial] asks the host for. *)
Definition request_log (d : RIFEData) (n : Z) : list Event :=
  ([EvRequestFrameFilter (frameNum d n) node]
   ++ (if canInterpolate d n
       then [EvRequestFrameFilter (int_add (frameNum d n) 1) node] else [])
   ++ (if skip d then [EvRequestFrameFilter (frameNum d n) psnr] else []))%list.

(** The metric frame of output index [n], fetched only with skip-by-metric. *)
Definition metric_fetch (d : RIFEData) (n : Z) : list Event :=
  if skip d then [EvGetFrameFilter (frameNum d n) psnr] else [].

Definition metric_frame (d : RIFEData) (n : Z) : option (Z * Clip) :=
  if skip d then Some (frameNum d n, psnr) else None.

(** The three shapes the log of [arAllFramesReady] takes: a copy forced by
    the plan, a copy chosen by the skip decision, and a synthesis. *)
Definition plan_copy_log (d : RIFEData) (n : Z) : list Event :=
  [EvGetFrameFilter (frameNum d n) node; EvCopyFrame;
   EvFreeFrame (Some (frameNum d n, node)); EvFreeFrame None; EvFreeFrame None].

Definition skip_copy_log (d : RIFEData) (n : Z) : list Event :=
  ([EvGetFrameFilter (frameNum d n) node]
   ++ metric_fetch d n
   ++ [EvCopyFrame; EvFreeFrame (Some (frameNum d n, node)); EvFreeFrame None;
       EvFreeFrame (metric_frame d n)])%list.

Definition synthesis_log (d : RIFEData) (n : Z) : list Event :=
  ([EvGetFrameFilter (frameNum d n) node]
   ++ metric_fetch d n
   ++ [EvGetFrameFilter (int_add (frameNum d n) 1) node; EvNewVideoFrame;
       EvAcquire; EvProcess (timestep d n); EvRelease;
       EvFreeFrame (Some (frameNum d n, node));
       EvFreeFrame (Some (int_add (frameNum d n) 1, node));
       EvFreeFrame (metric_frame d n)])%list.

(** The frame the engine writes for output index [n]. *)
Definition synthesized {Planes} (process : Planes -> Planes -> float32 -> Planes)
    (d : RIFEData) (n : Z) (src0 src1 : VSFrame Planes) : VSFrame Planes :=
  {| planes := process (planes src0) (planes src1) (timestep d n);
     props := props src0 |}.

(* ===================================================================== *)
(** ** Worker threads sharing the counting semaphore                      *)
(* ===================================================================== *)

(** The host runs [rifeGetFrame] on several worker threads (the filter is
    registered as [fmParallel]).  A worker is represented by the events it
    still has to perform; [held] counts the tokens it has acquired and not
    yet released, and [in_call] tells whether it is inside [RIFE::process]. *)
Record Thread := {
  todo : list Event;
  held : Z;
  in_call : bool
}.

Record Pool := {
  tokens : Z;               (* counter of the [std::counting_semaphore] *)
  threads : list Thread
}.

(** One step of one thread, against the semaphore counter.  [acquire]
    blocks while the counter is zero; an engine call is entered and later
    left, whatever status it reports; every other event just happens. *)
Inductive thread_step : Z -> Thread -> Z -> Thread -> Prop :=
| step_acquire (c : Z) (rest : list Event) (h : Z) :
    0 < c ->
    thread_step c {| todo := EvAcquire :: rest; held := h; in_call := false |}
                (c - 1) {| todo := rest; held := h + 1; in_call := false |}
| step_enter (c : Z) (t : float32) (rest : list Event) (h : Z) :
    thread_step c {| todo := EvProcess t :: rest; held := h; in_call := false |}
                c {| todo := EvProcess t :: rest; held := h; in_call := true |}
| step_leave (status : Z) (c : Z) (t : float32) (rest : list Event) (h : Z) :
    thread_step c {| todo := EvProcess t :: rest; held := h; in_call := true |}
                c {| todo := rest; held := h; in_call := false |}
| step_release (c : Z) (rest : list Event) (h : Z) :
    thread_step c {| todo := EvRelease :: rest; held := h; in_call := false |}
                (c + 1) {| todo := rest; held := h - 1; in_call := false |}
| step_other (c : Z) (e : Event) (rest : list Event) (h : Z) :
    e <> EvAcquire -> e <> EvRelease -> is_process e = false ->
    thread_step c {| todo := e :: rest; held := h; in_call := false |}
                c {| todo := rest; held := h; in_call := false |}.

(** The scheduler picks any thread that can move. *)
Inductive pool_step : Pool -> Pool -> Prop :=
| pool_step_thread (p : Pool) (i : nat) (t t' : Thread) (c' : Z) :
    threads p !! i = Some t ->
    thread_step (tokens p) t c' t' ->
    pool_step p {| tokens := c'; threads := <[i := t']> (threads p) |}.

Definition total (f : Thread -> Z) (ts : list Thread) : Z :=
  fold_right (fun t acc => f t + acc) 0 ts.

(** Engine calls simultaneously in flight. *)
Definition in_flight (p : Pool) : Z :=
  total (fun t => if in_call t then 1 else 0) (threads p).

(** Tokens currently out of the pool. *)
Definition tokens_held (p : Pool) : Z := total held (threads p).

Definition all_done (p : Pool) : Prop :=
  Forall (fun t => todo t = []) (threads p).

(** A list of events that, started with [h] tokens in hand, calls the
    engine and releases only while holding a token and ends with none. *)
Fixpoint guarded (h : Z) (l : list Event) : Prop :=
  match l with
  | [] => h = 0
  | EvAcquire :: r => guarded (h + 1) r
  | EvRelease :: r => 0 < h /\ guarded (h - 1) r
  | EvProcess _ :: r => 0 < h /\ guarded h r
  | _ :: r => guarded h r
  end.

(** What holds of every thread at every moment. *)
Definition thread_ok (t : Thread) : Prop :=
  0 <= held t /\ guarded (held t) (todo t) /\ (in_call t = true -> 0 < held t).

(** The invariant of the pool for a semaphore created with [N] tokens. *)
Definition pool_ok (N : Z) (p : Pool) : Prop :=
  0 <= tokens p /\ tokens p + tokens_held p = N /\ Forall thread_ok (threads p).

Section Workers.

Context {Planes : Type}.
Variable blank : Planes.
Variable process : Planes -> Planes -> float32 -> Planes.

(** One invocation of [rifeGetFrame] by the host. *)
Record Call := {
  call_host : Clip -> Z -> option (VSFrame Planes);
  call_n : Z;
  call_reason : VSActivationReason
}.

Definition call_log (d : RIFEData) (c : Call) : list Event :=
  snd (run (rifeGetFrame blank process (call_host c) (call_n c) (call_reason c) d)).

(** Everything a worker does for the calls it is given, in order. *)
Definition worker_program (d : RIFEData) (calls : list Call) : list Event :=
  flat_map (call_log d) calls.

(** The pool right after [rifeCreate]: the semaphore holds its initial
    count and no worker has started. *)
Definition start_pool (d : RIFEData) (workers : list (list Call)) : Pool :=
  {| tokens := semaphore d;
     threads := map (fun calls => {| todo := worker_program d calls;
                                     held := 0; in_call := false |}) workers |}.

End Workers.

(* ===================================================================== *)
(** ** Test vectors                                                       *)
(* ===================================================================== *)

Definition example_format : VSVideoFormat :=
  {| colorFamily := cfRGB; sampleType := stFloat; bitsPerSample := 32;
     bytesPerSample := 4 |}.

(** A source clip of [frames] frames at 24 fps. *)
Definition example_vi (frames : Z) : VSVideoInfo :=
  {| format := example_format; fpsNum := 24; fpsDen := 1;
     width := 640; height := 480; numFrames := frames |}.

(** One GPU with four compute queues; every model file opens and every
    invoked host function succeeds; a destroyed string reads as empty. *)
Definition example_env : Env :=
  {| isConstantVideoFormat := fun v =>
       (0 <? height v) && (0 <? width v)
       && negb (match colorFamily (format v) with cfUndefined => true | _ => false end);
     create_gpu_instance := 0;
     get_default_gpu_index := 0;
     get_gpu_count := 1;
     compute_queue_count := fun _ => 4;
     device_name := fun _ => "GPU";
     pluginPath := "/usr/lib/vapoursynth/librife.so";
     ifs_is_open := fun _ => true;
     vmaf := true;
     invoke_error := fun _ => None;
     freed_c_str := fun _ => "" |}.

(** [RIFE(clip, model=9, multiplier=m, divisor=dv, gpu_thread=1, sc=sc, skip=sk)] *)
Definition example_args (m dv : Z) (sc sk : bool) : VSMap :=
  <["model" := PInt [9]]>
    (<["multiplier" := PInt [m]]>
       (<["divisor" := PInt [dv]]>
          (<["gpu_thread" := PInt [1]]>
             (<["sc" := PInt [if sc then 1 else 0]]>
                (<["skip" := PInt [if sk then 1 else 0]]> ∅))))).

(** The filter data [rifeCreate] builds for three frames doubled. *)
Definition example_data (sc sk : bool) : RIFEData :=
  {| vi := {| format := example_format; fpsNum := 48; fpsDen := 1;
              width := 640; height := 480; numFrames := 6 |};
     multiplier := 2;
     divisor := 1;
     sceneChange := sc;
     skip := sk;
     skip_threshold := 60%float;
     rife := {| gpuid := 0; tta_mode := false; uhd_mode := false;
                num_threads := 1; rife_v2 := false; rife_v4 := true;
                modeldir := "/usr/lib/vapoursynth/models/rife-v4" |};
     semaphore := 1 |}.

(** Frames whose pixel data is a label; the stand-in engine joins the
    labels of its two inputs. *)
Definition example_process (a b : string) (t : float32) : string := a +:+ b.

Definition duration_24 : VSMap :=
  <["_DurationNum" := PInt [1]]> (<["_DurationDen" := PInt [24]]> ∅).

Definition frame_A : VSFrame string := {| planes := "A"; props := duration_24 |}.
Definition frame_B : VSFrame string := {| planes := "B"; props := duration_24 |}.
Definition frame_C : VSFrame string := {| planes := "C"; props := ∅ |}.

(** A metric frame carrying [psnr_y]. *)
Definition metric (y : float) : VSFrame string :=
  {| planes := "metric"; props := <["psnr_y" := PFloat [y]]> ∅ |}.

(** Source frames [A; B; C]; [A] and [B] score 59.9 against each other
    (the nearest binary64 value), [B] and [C] score exactly 60. *)
Definition example_host (c : Clip) (k : Z) : option (VSFrame string) :=
  match c, k with
  | node, 0 => Some frame_A
  | node, 1 => Some frame_B
  | node, 2 => Some frame_C
  | psnr, 0 => Some (metric 0x1.df33333333333p+5%float)
  | psnr, 1 => Some (metric 60%float)
  | psnr, 2 => Some (metric 60%float)
  | _, _ => None
  end.

(** The same clip with a cut after [A]: the first frame of the pair
    carries [_SceneChangeNext], the second carries no property at all. *)
Definition cut_first : VSFrame string :=
  {| planes := "A"; props := <["_SceneChangeNext" := PInt [1]]> ∅ |}.
Definition cut_second : VSFrame string := {| planes := "B"; props := ∅ |}.

Definition cut_host (c : Clip) (k : Z) : option (VSFrame string) :=
  match c, k with
  | node, 0 => Some cut_first
  | node, 1 => Some cut_second
  | node, 2 => Some frame_C
  | _, _ => None
  end.

(** A long clip retimed by 1000/999: 3,000,000 frames. *)
Definition long_vi : VSVideoInfo := example_vi 3000000.
Definition long_args : VSMap := example_args 1000 999 false false.

(** Two workers, each asked to produce output frame 1; and the pool once
    the first is inside the engine and the second waits at [acquire]. *)
Definition example_call : @Call string :=
  {| call_host := example_host; call_n := 1; call_reason := arAllFramesReady |}.

Definition example_workers : list (list (@Call string)) :=
  [[example_call]; [example_call]].

(** One half, the blend position of output frame 1 of a doubled clip. *)
Definition one_half : float32 := S754_finite false 8388608 (-24).

Definition busy_pool : Pool :=
  {| tokens := 0;
     threads :=
       [ {| todo := [EvProcess one_half; EvRelease;
                     EvFreeFrame (Some (0, node)); EvFreeFrame (Some (1, node));
                     EvFreeFrame None];
            held := 1; in_call := true |};
         {| todo := [EvAcquire; EvProcess one_half; EvRelease;
                     EvFreeFrame (Some (0, node)); EvFreeFrame (Some (1, node));
                     EvFreeFrame None];
            held := 0; in_call := false |} ] |}.

(* ===================================================================== *)
(** ** What else an accepted configuration records                        *)
(* ===================================================================== *)

(** Lines 160-163: the input format [rifeCreate] supports. *)
Definition format_supported (env : Env) (vi0 : VSVideoInfo) : bool :=
  isConstantVideoFormat env vi0
  && (match colorFamily (format vi0) with cfRGB => true | _ => false end)
  && (match sampleType (format vi0) with stFloat => true | _ => false end)
  && (bitsPerSample (format vi0) =? 32).


(** Everything that holds of the arguments, the environment and the
    filter data when [rifeCreate] ends in [createVideoFilter]. *)
Record Accepted (args : VSMap) (vi0 : VSVideoInfo) (env : Env) (d : RIFEData)
  : Prop := {
  a_format : format_supported env vi0 = true;
  a_create : create_gpu_instance env = 0;
  a_model : 0 <= orDefault (mapGetIntSaturated args "model" 0) 5 <= 9;
  a_multiplier : multiplier d = orDefault (mapGetIntSaturated args "multiplier" 0) 2;
  a_divisor : divisor d = orDefault (mapGetIntSaturated args "divisor" 0) 1;
  a_sceneChange : sceneChange d = mapGetBool args "sc";
  a_skip : skip d = mapGetBool args "skip";
  a_threshold :
    skip_threshold d = orDefault (mapGetFloat args "skip_threshold" 0) 60%float;
  a_gpu : 0 <= gpuid (rife d) < get_gpu_count env;
  a_threads : 1 <= semaphore d <= compute_queue_count env (gpuid (rife d));
  a_list_gpu : mapGetBool args "list_gpu" = false;
  a_modeldir :
    modeldir (rife d)
    = (if String.eqb (orDefault (mapGetData args "model_path" 0) "") ""
       then dirname (pluginPath env) +:+ "/models"
            +:+ model_suffix (orDefault (mapGetIntSaturated args "model" 0) 5)
       else orDefault (mapGetData args "model_path" 0) "");
  a_file : ifs_is_open env (modeldir (rife d) +:+ "/flownet.param") = true;
  a_family : model_family (modeldir (rife d)) = Some (rife_v2 (rife d), rife_v4 (rife d));
  a_ratio : rife_v4 (rife d) = false -> multiplier d = 2 /\ divisor d = 1;
  a_tta : rife_v4 (rife d) = true -> tta_mode (rife d) = false;
  a_num_threads : num_threads (rife d) = 1;
  a_vmaf : skip d = true -> vmaf env = true;
  a_video :
    format (vi d) = format vi0 /\ width (vi d) = width vi0 /\ height (vi d) = height vi0
}.

(** The values [rifeCreate] reads from its arguments (lines 170-200 and
    226), each with the default that stands in for an absent key. *)
Definition same_reads (env : Env) (args args' : VSMap) : Prop :=
  orDefault (mapGetIntSaturated args "model" 0) 5
  = orDefault (mapGetIntSaturated args' "model" 0) 5 /\
  orDefault (mapGetIntSaturated args "multiplier" 0) 2
  = orDefault (mapGetIntSaturated args' "multiplier" 0) 2 /\
  orDefault (mapGetIntSaturated args "divisor" 0) 1
  = orDefault (mapGetIntSaturated args' "divisor" 0) 1 /\
  orDefault (mapGetData args "model_path" 0) ""
  = orDefault (mapGetData args' "model_path" 0) "" /\
  orDefault (mapGetIntSaturated args "gpu_id" 0) (get_default_gpu_index env)
  = orDefault (mapGetIntSaturated args' "gpu_id" 0) (get_default_gpu_index env) /\
  orDefault (mapGetIntSaturated args "gpu_thread" 0) 2
  = orDefault (mapGetIntSaturated args' "gpu_thread" 0) 2 /\
  mapGetBool args "tta" = mapGetBool args' "tta" /\
  mapGetBool args "uhd" = mapGetBool args' "uhd" /\
  mapGetBool args "sc" = mapGetBool args' "sc" /\
  mapGetBool args "skip" = mapGetBool args' "skip" /\
  orDefault (mapGetFloat args "skip_threshold" 0) 60%float
  = orDefault (mapGetFloat args' "skip_threshold" 0) 60%float /\
  mapGetBool args "list_gpu" = mapGetBool args' "list_gpu".

(** The defaults of lines 170-200, as an argument map ([gpu_id] has no
    fixed default: it falls back to the runtime's default device). *)
Definition default_arguments : VSMap :=
  <["model" := PInt [5]]>
    (<["multiplier" := PInt [2]]>
       (<["divisor" := PInt [1]]>
          (<["model_path" := PData [""]]>
             (<["gpu_thread" := PInt [2]]>
                (<["tta" := PInt [0]]>
                   (<["uhd" := PInt [0]]>
                      (<["sc" := PInt [0]]>
                         (<["skip" := PInt [0]]>
                            (<["skip_threshold" := PFloat [60%float]]>
                               (<["list_gpu" := PInt [0]]> ∅)))))))))).

(* ===================================================================== *)
(** ** Registration ([VapourSynthPluginInit2])                            *)
(* ===================================================================== *)

(** Lines 436-448: the argument declaration passed to [registerFunction],
    one [name:type[:opt]] entry per parameter, each closed by a semicolon. *)
Definition RIFE_args : string :=
  "clip:vnode;" +:+
  "model:int:opt;" +:+
  "multiplier:int:opt;" +:+
  "divisor:int:opt;" +:+
  "model_path:data:opt;" +:+
  "gpu_id:int:opt;" +:+
  "gpu_thread:int:opt;" +:+
  "tta:int:opt;" +:+
  "uhd:int:opt;" +:+
  "sc:int:opt;" +:+
  "skip:int:opt;" +:+
  "skip_threshold:float:opt;" +:+
  "list_gpu:int:opt;".

(** The pieces of [s] between occurrences of [sep]. *)
Fixpoint split_on (sep : ascii) (s : string) : list string :=
  match s with
  | EmptyString => [EmptyString]
  | String c s' =>
      let pieces := split_on sep s' in
      if Ascii.eqb c sep then EmptyString :: pieces
      else match pieces with
           | piece :: more => String c piece :: more
           | [] => [String c EmptyString]
           end
  end.

(** The declared parameters: name and the fields after it. *)
Definition declarations (decl : string) : list (string * list string) :=
  flat_map (fun entry =>
              match split_on ":"%char entry with
              | name :: fields =>
                  if String.eqb name "" then [] else [(name, fields)]
              | [] => []
              end)
           (split_on ";"%char decl).

Definition parameter_names (decl : string) : list string :=
  map fst (declarations decl).

(* ===================================================================== *)
(** ** The GPU instance counter ([numGPUInstances], [rifeFree])           *)
(* ===================================================================== *)

Inductive GpuCall := CreateGpuInstance | DestroyGpuInstance.

(** The process-wide counter and the calls made to the GPU runtime. *)
Record Instances := {
  numGPUInstances : Z;
  gpu_calls : list GpuCall
}.

(** [if (--numGPUInstances == 0) ncnn::destroy_gpu_instance();] *)
Definition release_gpu (st : Instances) : Instances :=
  let count := numGPUInstances st - 1 in
  {| numGPUInstances := count;
     gpu_calls := (gpu_calls st ++ if count =? 0 then [DestroyGpuInstance] else [])%list |}.

(** [rifeFree] (lines 142-150): the nodes and the data are freed, then the
    counter is released. *)
Definition rifeFree (st : Instances) : Instances := release_gpu st.

(** [rifeCreate] with its effect on the counter.  The format is checked
    first; then [create_gpu_instance] is called and, if it succeeds, the
    counter is incremented (lines 160-168).  Every way out other than
    [createVideoFilter] releases the counter: the [catch] handler (also for
    the two throws that precede the increment) and each early [return]. *)
Definition rifeCreate_counted (args : VSMap) (vi0 : VSVideoInfo) (env : Env)
    (st : Instances) : Out * Instances :=
  let out := rifeCreate args vi0 env in
  if negb (format_supported env vi0) then (out, release_gpu st)
  else
    let st := {| numGPUInstances := numGPUInstances st;
                 gpu_calls := (gpu_calls st ++ [CreateGpuInstance])%list |} in
    if negb (create_gpu_instance env =? 0) then (out, release_gpu st)
    else
      let st := {| numGPUInstances := numGPUInstances st + 1;
                   gpu_calls := gpu_calls st |} in
      match out with
      | OutRIFE _ => (out, st)
      | _ => (out, release_gpu st)
      end.

(** What a script does with the plugin: create a filter, or free one. *)
Inductive Op :=
| OpCreate (args : VSMap) (vi0 : VSVideoInfo) (env : Env)
| OpFree.

(** Run the operations; [live] counts the filters created and not yet
    freed. *)
Fixpoint run_ops (ops : list Op) (st : Instances) (live : Z) : Instances * Z :=
  match ops with
  | [] => (st, live)
  | OpCreate args vi0 env :: rest =>
      let '(out, st') := rifeCreate_counted args vi0 env st in
      run_ops rest st' (match out with OutRIFE _ => live + 1 | _ => live end)
  | OpFree :: rest => run_ops rest (rifeFree st) (live - 1)
  end.

(** A creation that gets past the format check and obtains the GPU. *)
Definition reaches_gpu (op : Op) : Prop :=
  match op with
  | OpCreate args vi0 env =>
      format_supported env vi0 = true /\ create_gpu_instance env = 0
  | OpFree => True
  end.

(* ===================================================================== *)
(** ** Threads that hold at most one token                                *)
(* ===================================================================== *)

(** A list of events in which [acquire] and [release] alternate, starting
    with or without a token in hand, the engine is called only with the
    token, and no token is kept at the end. *)
Fixpoint bracketed (holding : bool) (l : list Event) : Prop :=
  match l with
  | [] => holding = false
  | EvAcquire :: r => holding = false /\ bracketed true r
  | EvRelease :: r => holding = true /\ bracketed false r
  | EvProcess _ :: r => holding = true /\ bracketed true r
  | _ :: r => bracketed holding r
  end.

Definition thread_wf (t : Thread) : Prop :=
  exists holding : bool,
    held t = (if holding then 1 else 0) /\
    bracketed holding (todo t) /\
    (in_call t = true -> exists q rest, todo t = EvProcess q :: rest).

Definition pool_wf (N : Z) (p : Pool) : Prop :=
  0 <= tokens p /\ tokens p + tokens_held p = N /\ Forall thread_wf (threads p).

(* ===================================================================== *)
(** ** Further test vectors                                               *)
(* ===================================================================== *)

(** The filter data [rifeCreate] builds for three frames tripled. *)
Definition tripled_data : RIFEData :=
  {| vi := {| format := example_format; fpsNum := 72; fpsDen := 1;
              width := 640; height := 480; numFrames := 9 |};
     multiplier := 3;
     divisor := 1;
     sceneChange := false;
     skip := false;
     skip_threshold := 60%float;
     rife := {| gpuid := 0; tta_mode := false; uhd_mode := false;
                num_threads := 1; rife_v2 := false; rife_v4 := true;
                modeldir := "/usr/lib/vapoursynth/models/rife-v4" |};
     semaphore := 1 |}.

(** Two frames with [multiplier = 2^24 + 1], the first multiplier that
    binary32 does not represent. *)
Definition wide_data : RIFEData :=
  {| vi := {| format := example_format; fpsNum := 402653208; fpsDen := 1;
              width := 640; height := 480; numFrames := 33554434 |};
     multiplier := 16777217;
     divisor := 1;
     sceneChange := false;
     skip := false;
     skip_threshold := 60%float;
     rife := {| gpuid := 0; tta_mode := false; uhd_mode := false;
                num_threads := 1; rife_v2 := false; rife_v4 := true;
                modeldir := "/usr/lib/vapoursynth/models/rife-v4" |};
     semaphore := 1 |}.

(** The plugin installed below a directory named after the v2 family. *)
Definition v2_env : Env :=
  {| isConstantVideoFormat := isConstantVideoFormat example_env;
     create_gpu_instance := 0;
     get_default_gpu_index := 0;
     get_gpu_count := 1;
     compute_queue_count := fun _ => 4;
     device_name := fun _ => "GPU";
     pluginPath := "/opt/rife-v2/librife.so";
     ifs_is_open := fun _ => true;
     vmaf := true;
     invoke_error := fun _ => None;
     freed_c_str := fun _ => "" |}.

Definition v2_data : RIFEData :=
  {| vi := {| format := example_format; fpsNum := 48; fpsDen := 1;
              width := 640; height := 480; numFrames := 6 |};
     multiplier := 2;
     divisor := 1;
     sceneChange := false;
     skip := false;
     skip_threshold := 60%float;
     rife := {| gpuid := 0; tta_mode := false; uhd_mode := false;
                num_threads := 1; rife_v2 := true; rife_v4 := false;
                modeldir := "/opt/rife-v2/models/rife-v4" |};
     semaphore := 1 |}.

(** A clip of 16-bit integer samples, which [rifeCreate] does not take. *)
Definition integer_vi : VSVideoInfo :=
  {| format := {| colorFamily := cfRGB; sampleType := stInteger;
                  bitsPerSample := 16; bytesPerSample := 2 |};
     fpsNum := 24; fpsDen := 1; width := 640; height := 480; numFrames := 3 |}.

(** The example clip with a metric that is not a number for the first
    pair. *)
Definition nan_host (c : Clip) (k : Z) : option (VSFrame string) :=
  match c, k with
  | psnr, 0 => Some (metric nan)
  | _, _ => example_host c k
  end.

(** The counter before any filter exists, and a script that creates a
    filter, has a second creation refused, and frees the filter. *)
Definition no_instances : Instances := {| numGPUInstances := 0; gpu_calls := [] |}.

Definition example_script : list Op :=
  [OpCreate (example_args 2 1 false false) (example_vi 3) example_env;
   OpCreate (example_args 1 1 false false) (example_vi 3) example_env;
   OpFree].

(* ===================================================================== *)
(** ** Facts about 32-bit arithmetic                                      *)
(* ===================================================================== *)

Lemma wrap32_id (z : Z) : INT_MIN <= z <= INT_MAX -> wrap32 z = z.
Proof.
  unfold wrap32, INT_MIN, INT_MAX. intros Hz.
  rewrite Z.mod_small by lia. lia.
Qed.

Lemma wrap32_range (z : Z) : INT_MIN <= wrap32 z <= INT_MAX.
Proof.
  unfold wrap32, INT_MIN, INT_MAX.
  pose proof (Z.mod_pos_bound (z + 2 ^ 31) (2 ^ 32)). lia.
Qed.

(** Wrapping differs from the exact value by a multiple of [2^32]. *)
Lemma wrap32_spec (z : Z) : exists k, wrap32 z = z - 2 ^ 32 * k.
Proof.
  exists ((z + 2 ^ 31) / 2 ^ 32). unfold wrap32.
  pose proof (Z.div_mod (z + 2 ^ 31) (2 ^ 32)). lia.
Qed.

Lemma quot_nonneg_div (a b : Z) : 0 <= a -> 0 < b -> Z.quot a b = a / b.
Proof. intros. apply Z.quot_div_nonneg; lia. Qed.

Lemma rem_nonneg_mod (a b : Z) : 0 <= a -> 0 < b -> Z.rem a b = a mod b.
Proof. intros. apply Z.rem_mod_nonneg; lia. Qed.

Lemma quot_neg_div (a b : Z) : a <= 0 -> 0 < b -> Z.quot a b = - ((- a) / b).
Proof.
  intros Ha Hb. replace a with (- (- a)) at 1 by lia.
  rewrite Z.quot_opp_l by lia. rewrite quot_nonneg_div by lia. reflexivity.
Qed.

(** Dividing an [int] by a positive [int] never leaves the [int] range. *)
Lemma int_div_pos (a b : Z) :
  INT_MIN <= a <= INT_MAX -> 0 < b -> int_div a b = Z.quot a b.
Proof.
  intros Ha Hb. unfold int_div. apply wrap32_id.
  destruct (Z.le_gt_cases 0 a) as [Hpos | Hneg].
  - rewrite quot_nonneg_div by lia.
    pose proof (Z.div_pos a b Hpos Hb).
    assert (a / b <= a) by (apply Z.div_le_upper_bound; nia).
    unfold INT_MIN, INT_MAX in *. lia.
  - rewrite quot_neg_div by lia.
    assert (0 <= (- a) / b) by (apply Z.div_pos; lia).
    assert ((- a) / b <= - a) by (apply Z.div_le_upper_bound; nia).
    unfold INT_MIN, INT_MAX in *. lia.
Qed.

Lemma saturate_int_range (v : Z) : INT_MIN <= saturate_int v <= INT_MAX.
Proof. unfold saturate_int, INT_MIN, INT_MAX. lia. Qed.

Lemma orDefault_saturated_range (m : VSMap) (key : string) (dflt : Z) :
  INT_MIN <= dflt <= INT_MAX ->
  INT_MIN <= orDefault (mapGetIntSaturated m key 0) dflt <= INT_MAX.
Proof.
  intros Hd. unfold mapGetIntSaturated.
  destruct (mapGetInt m key 0); simpl; [assumption | apply saturate_int_range].
Qed.

(* ===================================================================== *)
(** ** What an accepted configuration guarantees                          *)
(* ===================================================================== *)

Lemma bind_throw_if {A} (c : bool) (e : string) (k : unit -> Create A) (r : Create A) :
  (throw_if c e ≫= k) = r ->
  (c = true /\ r = inl (Throw e)) \/ (c = false /\ k tt = r).
Proof. destruct c; simpl; intros <-; auto. Qed.

Lemma rifeCreate_body_accepts (args : VSMap) (vi0 : VSVideoInfo) (env : Env)
    (d : RIFEData) (r : Create RIFEData) :
  rifeCreate_body args vi0 env = r ->
  r = inr d \/ r = inl (Return (OutRIFE d)) ->
  r = inr d /\ Validated vi0 d.
Proof.
  intros H Hr. unfold rifeCreate_body in H. cbv zeta in H.
  assert (Hne : forall e, r <> inl (Throw e)) by (destruct Hr; congruence).
  assert (Hne' : forall e, r <> inl (Return (OutError e))) by (destruct Hr; congruence).
  assert (Hne'' : forall e, r <> inl (Return (OutText e))) by (destruct Hr; congruence).
  repeat (apply bind_throw_if in H as [[_ H] | [? H]]; [exfalso; eapply Hne; exact H |]).
  destruct (mapGetBool args "list_gpu").
  { simpl in H. unfold invoke in H.
    destruct (invoke_error env "Text"); simpl in H; exfalso;
      [eapply Hne' | eapply Hne'']; symmetry; exact H. }
  simpl in H.
  repeat (apply bind_throw_if in H as [[_ H] | [? H]]; [exfalso; eapply Hne; exact H |]).
  destruct (model_family _) as [[v2 v4] |] eqn:Hfam; cbn [mbind create_bind mret create_ret throw] in H;
    [| exfalso; eapply Hne; symmetry; exact H].
  repeat (apply bind_throw_if in H as [[_ H] | [? H]]; [exfalso; eapply Hne; exact H |]).
  assert (Hrest : forall k : unit -> Create RIFEData,
             ((if mapGetBool args "skip"
               then throw_if (negb (vmaf env)) "VMAF plugin is required when skip=True" ;;
                    invoke env "Bicubic" ;; invoke env "DuplicateFrames" ;;
                    invoke env "Trim" ;; invoke env "Metric"
               else mret tt) ≫= k) = r -> k tt = r).
  { intros k Hk. destruct (mapGetBool args "skip"); [| exact Hk].
    unfold invoke in Hk.
    destruct (vmaf env); simpl in Hk; [| exfalso; eapply Hne; symmetry; exact Hk].
    repeat match type of Hk with
           | context [invoke_error env ?fn] =>
               destruct (invoke_error env fn); simpl in Hk;
               [exfalso; eapply Hne'; symmetry; exact Hk |]
           end.
    exact Hk. }
  apply Hrest in H. clear Hrest.
  change (mret ?x = r) with (inr x = r) in H.
  assert (Hd : r = inr d) by (destruct Hr as [-> | ->]; [reflexivity | discriminate H]).
  split; [exact Hd |].
  rewrite Hd in H. injection H as <-.
  pose proof (orDefault_saturated_range args "multiplier" 2) as Hm.
  pose proof (orDefault_saturated_range args "divisor" 1) as Hdv.
  unfold INT_MIN, INT_MAX in Hm, Hdv.
  constructor; simpl.
  all: repeat match goal with
              | Hc : (_ || _) = false |- _ => apply orb_false_iff in Hc as [? ?]
              end.
  all: unfold INT_MAX in *; try lia; try assumption.
  intros ->. simpl in *.
  repeat match goal with
         | Hc : (_ || _) = false |- _ => apply orb_false_iff in Hc as [? ?]
         | Hc : negb (_ =? _) = false |- _ =>
             apply negb_false_iff, Z.eqb_eq in Hc
         end.
  split; assumption.
Qed.

Lemma rifeCreate_validated (args : VSMap) (vi0 : VSVideoInfo) (env : Env) (d : RIFEData) :
  rifeCreate args vi0 env = OutRIFE d -> Validated vi0 d.
Proof.
  intros H. unfold rifeCreate in H.
  destruct (rifeCreate_body args vi0 env) as [[e | o] | d'] eqn:Hb; [discriminate H | |].
  - subst o.
    destruct (rifeCreate_body_accepts args vi0 env d _ Hb) as [Hd _]; [auto | discriminate Hd].
  - injection H as ->.
    destruct (rifeCreate_body_accepts args vi0 env d _ Hb) as [_ Hv]; [auto | exact Hv].
Qed.

(* ===================================================================== *)
(** ** Timeline mapping                                                   *)
(* ===================================================================== *)

Lemma stored_count (vi0 : VSVideoInfo) (d : RIFEData) :
  Validated vi0 d ->
  numFrames (vi d) = Z.quot (wrap32 (numFrames vi0 * multiplier d)) (divisor d).
Proof.
  intros V. rewrite (v_numFrames _ _ V). unfold int_mul.
  apply int_div_pos; [apply wrap32_range | pose proof (v_divisor _ _ V); lia].
Qed.

(** Below the stored output count the product [n * divisor] is exact. *)
Lemma product_below_count (vi0 : VSVideoInfo) (d : RIFEData) (n : Z) :
  Validated vi0 d ->
  0 <= n < numFrames (vi d) ->
  0 <= wrap32 (numFrames vi0 * multiplier d) /\
  numFrames (vi d) = wrap32 (numFrames vi0 * multiplier d) / divisor d /\
  (n + 1) * divisor d <= wrap32 (numFrames vi0 * multiplier d).
Proof.
  intros V Hn. pose proof (v_divisor _ _ V) as Hd.
  rewrite (stored_count _ _ V) in *.
  set (w := wrap32 (numFrames vi0 * multiplier d)) in *.
  destruct (Z.le_gt_cases 0 w) as [Hw | Hw].
  - rewrite quot_nonneg_div in * by lia.
    split; [exact Hw |]. split; [reflexivity |].
    pose proof (Z.mul_div_le w (divisor d)). nia.
  - exfalso. rewrite quot_neg_div in Hn by lia.
    assert (0 <= (- w) / divisor d) by (apply Z.div_pos; lia). lia.
Qed.

Lemma int_mul_below_count (vi0 : VSVideoInfo) (d : RIFEData) (n : Z) :
  Validated vi0 d ->
  0 <= n < numFrames (vi d) ->
  int_mul n (divisor d) = n * divisor d /\ 0 <= n * divisor d <= INT_MAX.
Proof.
  intros V Hn. pose proof (v_divisor _ _ V) as Hd.
  destruct (product_below_count _ _ _ V Hn) as (Hw & _ & Hle).
  pose proof (wrap32_range (numFrames vi0 * multiplier d)) as Hr.
  assert (0 <= n * divisor d <= INT_MAX) by (unfold INT_MAX, INT_MIN in *; nia).
  split; [| assumption].
  unfold int_mul. apply wrap32_id. unfold INT_MIN, INT_MAX in *. lia.
Qed.

Lemma frameNum_exact (vi0 : VSVideoInfo) (d : RIFEData) (n : Z) :
  Validated vi0 d ->
  0 <= n < numFrames (vi d) ->
  frameNum d n = (n * divisor d) / multiplier d.
Proof.
  intros V Hn. pose proof (v_multiplier _ _ V) as Hm.
  destruct (int_mul_below_count _ _ _ V Hn) as [Heq Hr].
  unfold frameNum. rewrite Heq.
  rewrite int_div_pos by (unfold INT_MIN, INT_MAX in *; lia).
  apply quot_nonneg_div; lia.
Qed.

Lemma remainder_exact (vi0 : VSVideoInfo) (d : RIFEData) (n : Z) :
  Validated vi0 d ->
  0 <= n < numFrames (vi d) ->
  remainder d n = (n * divisor d) mod multiplier d.
Proof.
  intros V Hn. pose proof (v_multiplier _ _ V) as Hm.
  destruct (int_mul_below_count _ _ _ V Hn) as [Heq Hr].
  unfold remainder, int_rem. rewrite Heq.
  apply rem_nonneg_mod; lia.
Qed.

(* ===================================================================== *)
(** ** Facts about binary32 casts and quotients                           *)
(* ===================================================================== *)

Lemma digits2_pos_bounds (p : positive) :
  2 ^ (Zpos (digits2_pos p) - 1) <= Zpos p < 2 ^ Zpos (digits2_pos p).
Proof.
  induction p as [p IH | p IH |]; cbn [digits2_pos].
  - rewrite Pos2Z.inj_succ. replace (Z.succ (Zpos (digits2_pos p)) - 1) with (Zpos (digits2_pos p)) by lia.
    rewrite Z.pow_succ_r by lia.
    replace (2 ^ Zpos (digits2_pos p)) with (2 * 2 ^ (Zpos (digits2_pos p) - 1)) in *
      by (rewrite <- Z.pow_succ_r by lia; f_equal; lia).
    lia.
  - rewrite Pos2Z.inj_succ. replace (Z.succ (Zpos (digits2_pos p)) - 1) with (Zpos (digits2_pos p)) by lia.
    rewrite Z.pow_succ_r by lia.
    replace (2 ^ Zpos (digits2_pos p)) with (2 * 2 ^ (Zpos (digits2_pos p) - 1)) in *
      by (rewrite <- Z.pow_succ_r by lia; f_equal; lia).
    lia.
  - cbn. lia.
Qed.

Lemma digits2_pos_unique (p : positive) (k : Z) :
  2 ^ (k - 1) <= Zpos p < 2 ^ k -> Zpos (digits2_pos p) = k.
Proof.
  intros Hk. pose proof (digits2_pos_bounds p) as Hd.
  set (d := Zpos (digits2_pos p)) in *.
  assert (0 < k).
  { destruct (Z.le_gt_cases k 0) as [H | H]; [| exact H].
    assert (2 ^ k <= 2 ^ 0) by (apply Z.pow_le_mono_r; lia). simpl in *. lia. }
  destruct (Z.lt_trichotomy d k) as [H1 | [H1 | H1]]; [| exact H1 |].
  - assert (2 ^ d <= 2 ^ (k - 1)) by (apply Z.pow_le_mono_r; lia). lia.
  - assert (2 ^ k <= 2 ^ (d - 1)) by (apply Z.pow_le_mono_r; lia). lia.
Qed.

Lemma normal32_digits (m : positive) : normal32 m -> Zpos (digits2_pos m) = 24.
Proof. intros H. apply digits2_pos_unique. exact H. Qed.

Lemma loc_of_shr_record_of_loc (m : Z) (l : location) :
  loc_of_shr_record (shr_record_of_loc m l) = l.
Proof. destruct l as [| []]; reflexivity. Qed.

Lemma shr_m_of_loc (m : Z) (l : location) : shr_m (shr_record_of_loc m l) = m.
Proof. destruct l as [| []]; reflexivity. Qed.

Lemma round_nearest_even_bounds (m : Z) (l : location) :
  m <= round_nearest_even m l <= m + 1.
Proof.
  destruct l as [| []]; simpl; try lia. destruct (Z.even m); lia.
Qed.

Lemma fexp32 (e : Z) : -125 <= e -> fexp 24 128 e = e - 24.
Proof. intros H. unfold fexp, emin. lia. Qed.

(** Rounding a mantissa of 24 digits that stays below [2^24]. *)
Lemma binary_round_aux_24 (s : bool) (m : positive) (e : Z) (l : location) :
  normal32 m -> round_nearest_even (Zpos m) l < 2 ^ 24 ->
  -149 <= e <= 104 ->
  exists mz, normal32 mz /\ Zpos mz = round_nearest_even (Zpos m) l /\
             binary_round_aux 24 128 s (Zpos m) e l = S754_finite s mz e.
Proof.
  intros Hm Hr He.
  pose proof (round_nearest_even_bounds (Zpos m) l) as Hb.
  destruct (round_nearest_even (Zpos m) l) as [| q |] eqn:Hq; try lia.
  assert (Hnq : normal32 q) by (unfold normal32 in *; lia).
  exists q. split; [exact Hnq |]. split; [reflexivity |].
  unfold binary_round_aux, shr_fexp. cbn [Zdigits2].
  rewrite (normal32_digits m Hm), fexp32 by lia.
  replace (24 + e - 24 - e) with 0 by lia.
  cbn [shr]. rewrite shr_m_of_loc, loc_of_shr_record_of_loc, Hq.
  cbn [Zdigits2]. rewrite (normal32_digits q Hnq), fexp32 by lia.
  replace (24 + e - 24 - e) with 0 by lia.
  cbn [shr shr_record_of_loc shr_m].
  replace (e <=? 128 - 24) with true by (symmetry; apply Z.leb_le; lia).
  reflexivity.
Qed.

Lemma round_finish (s : bool) (q : positive) (e : Z) :
  normal32 q -> -149 <= e <= 104 ->
  (let '(mrs, e') := shr_fexp 24 128 (Zpos q) e loc_Exact in
   match shr_m mrs with
   | Z0 => S754_zero s
   | Zpos m => if e' <=? 128 - 24 then S754_finite s m e' else S754_infinity s
   | Zneg _ => S754_nan
   end) = S754_finite s q e.
Proof.
  intros Hq He. unfold shr_fexp. cbn [Zdigits2].
  rewrite (normal32_digits q Hq), fexp32 by lia.
  replace (24 + e - 24 - e) with 0 by lia.
  cbn [shr shr_record_of_loc shr_m].
  replace (e <=? 128 - 24) with true by (symmetry; apply Z.leb_le; lia).
  reflexivity.
Qed.

(** Rounding a mantissa of 25 digits: one bit is shifted out, and the
    result cannot reach [2^24]. *)
Lemma binary_round_aux_25 (s : bool) (m : positive) (e : Z) (l : location) :
  2 ^ 24 <= Zpos m <= 2 ^ 25 - 2 ->
  -149 <= e <= 103 ->
  exists mz, normal32 mz /\
             (Zpos m = 2 ^ 24 -> l = loc_Exact -> Zpos mz = 2 ^ 23) /\
             Zpos m - 1 <= 2 * Zpos mz <= Zpos m + 1 /\
             binary_round_aux 24 128 s (Zpos m) e l = S754_finite s mz (e + 1).
Proof.
  intros Hm He.
  assert (Hd : Zpos (digits2_pos m) = 25) by (apply digits2_pos_unique; lia).
  unfold binary_round_aux. unfold shr_fexp at 1. cbn [Zdigits2].
  rewrite Hd, fexp32 by lia.
  replace (25 + e - 24 - e) with 1 by lia.
  cbn [shr SpecFloat.iter_pos].
  assert (Hcases : exists q, normal32 q /\
            (Zpos m = 2 ^ 24 -> l = loc_Exact -> Zpos q = 2 ^ 23) /\
            Zpos m - 1 <= 2 * Zpos q <= Zpos m + 1 /\
            round_nearest_even (shr_m (shr_1 (shr_record_of_loc (Zpos m) l)))
              (loc_of_shr_record (shr_1 (shr_record_of_loc (Zpos m) l))) = Zpos q).
  { unfold normal32.
    destruct m as [p | p |]; [| | lia].
    - assert (2 ^ 23 <= Zpos p <= 2 ^ 24 - 2) by lia.
      destruct l as [| []]; cbn [shr_record_of_loc shr_1 shr_m loc_of_shr_record orb
                                  round_nearest_even].
      + destruct (Z.even (Zpos p)); [exists p | exists (p + 1)%positive];
          (split; [lia |]); (split; [lia |]); (split; [lia |]); lia.
      + exists (p + 1)%positive. split; [lia |]. split; [lia |]. split; lia.
      + exists (p + 1)%positive. split; [lia |]. split; [lia |]. split; lia.
      + exists (p + 1)%positive. split; [lia |]. split; [lia |]. split; lia.
    - assert (2 ^ 23 <= Zpos p <= 2 ^ 24 - 1) by lia.
      destruct l as [| []]; cbn [shr_record_of_loc shr_1 shr_m loc_of_shr_record orb
                                  round_nearest_even]; exists p;
        (split; [lia |]); (split; [lia |]); (split; [lia |]); reflexivity. }
  destruct Hcases as (q & Hq & Hone & Hclose & ->).
  exists q. split; [exact Hq |]. split; [exact Hone |]. split; [exact Hclose |].
  apply round_finish; [exact Hq | lia].
Qed.

(** Dividing two normal numbers of the same sign. *)
Lemma float32_div_normal (mx my : positive) (ex ey : Z) :
  normal32 mx -> normal32 my -> -100 <= ex - ey <= 100 ->
  exists mz, normal32 mz /\
    (mx = my -> Zpos mz = 2 ^ 23) /\
    Z.abs (Zpos mz * Zpos my - Zpos mx * 2 ^ (if Zpos mx <? Zpos my then 24 else 23))
    <= Zpos my /\
    float32_div (S754_finite false mx ex) (S754_finite false my ey)
    = S754_finite false mz (ex - ey - (if Zpos mx <? Zpos my then 24 else 23)).
Proof.
  intros Hx Hy He. unfold float32_div, SFdiv, SFdiv_core_binary.
  cbn [Zdigits2 xorb]. rewrite (normal32_digits mx Hx), (normal32_digits my Hy).
  replace (24 + ex - (24 + ey)) with (ex - ey) by lia.
  rewrite fexp32 by lia.
  replace (Z.min (ex - ey - 24) (ex - ey)) with (ex - ey - 24) by lia.
  replace (ex - ey - (ex - ey - 24)) with 24 by lia.
  cbv beta iota zeta.
  rewrite Z.shiftl_mul_pow2 by lia.
  pose proof (Z_div_mod (Zpos mx * 2 ^ 24) (Zpos my) ltac:(lia)) as Hdiv.
  destruct (Z.div_eucl (Zpos mx * 2 ^ 24) (Zpos my)) as [q r].
  destruct Hdiv as [Heq Hr]. unfold normal32 in Hx, Hy.
  destruct (Z.ltb_spec (Zpos mx) (Zpos my)) as [Hlt | Hge].
  - (* quotient of 24 digits *)
    assert (Hq : 2 ^ 23 <= q <= 2 ^ 24 - 2) by (clear - Heq Hr Hx Hy Hlt; nia).
    destruct q as [| q |]; try lia.
    destruct (binary_round_aux_24 false q (ex - ey - 24) (new_location (Zpos my) r))
      as (mz & Hmz & Hval & Hres).
    + unfold normal32; lia.
    + pose proof (round_nearest_even_bounds (Zpos q) (new_location (Zpos my) r)). lia.
    + lia.
    + exists mz. split; [exact Hmz |]. split; [intros ->; lia |]. split; [| exact Hres].
      pose proof (round_nearest_even_bounds (Zpos q) (new_location (Zpos my) r)) as Hb.
      rewrite <- Hval in Hb. clear - Heq Hr Hb. nia.
  - assert (Hq : 2 ^ 24 <= q <= 2 ^ 25 - 2) by (clear - Heq Hr Hx Hy Hge; nia).
    destruct q as [| q |]; try lia.
    destruct (binary_round_aux_25 false q (ex - ey - 24) (new_location (Zpos my) r))
      as (mz & Hmz & Hone & Hclose & Hres); [lia | lia |].
    exists mz. split; [exact Hmz |]. split; [| split; [clear - Heq Hr Hclose; nia |]].
    + intros ->.
      assert (Hq24 : Zpos q = 2 ^ 24).
      { clear - Heq Hr Hy.
        destruct (Z.lt_trichotomy (Zpos q) (2 ^ 24)) as [H | [H | H]]; [| exact H |]; nia. }
      assert (r = 0) as -> by (clear - Heq Hq24; nia).
      apply Hone; [exact Hq24 |].
      unfold new_location, new_location_even, new_location_odd.
      destruct (Z.even (Zpos my)); reflexivity.
    + rewrite Hres. f_equal. lia.
Qed.

Lemma Zpos_iter_xO (p k : positive) : Zpos (Pos.iter xO p k) = Zpos p * 2 ^ Zpos k.
Proof.
  induction k as [| k IH] using Pos.peano_ind.
  - cbn [Pos.iter]. lia.
  - rewrite Pos.iter_succ, Pos2Z.inj_xO, IH, Pos2Z.inj_succ, Z.pow_succ_r by lia. lia.
Qed.

(** An [int] below [2^24] in magnitude is cast without rounding. *)
Lemma float32_of_int_exact (z : Z) :
  0 < z < 2 ^ 24 ->
  exists mz ez, normal32 mz /\ -23 <= ez <= 0 /\ Zpos mz = z * 2 ^ (- ez) /\
                float32_of_int z = S754_finite false mz ez.
Proof.
  intros Hz. destruct z as [| p |]; try lia.
  pose proof (digits2_pos_bounds p) as Hd.
  set (d := Zpos (digits2_pos p)) in *.
  assert (Hd24 : 1 <= d <= 24).
  { split; [unfold d; lia |].
    destruct (Z.le_gt_cases d 24) as [H | H]; [exact H |].
    assert (2 ^ 24 <= 2 ^ (d - 1)) by (apply Z.pow_le_mono_r; lia). lia. }
  unfold float32_of_int, binary_normalize, binary_round. fold d.
  rewrite fexp32 by lia. unfold shl_align.
  destruct (d + 0 - 24 - 0) as [| k | k] eqn:Hk; try lia.
  - assert (Hn : normal32 p).
    { unfold normal32. replace 24 with d by lia. replace 23 with (d - 1) by lia. exact Hd. }
    exists p, 0. split; [exact Hn |]. split; [lia |]. split; [simpl; lia |].
    destruct (binary_round_aux_24 false p 0 loc_Exact Hn) as (mz & _ & Hmz & Hres);
      [unfold normal32 in Hn; simpl; lia | lia |].
    simpl in Hmz. injection Hmz as ->. exact Hres.
  - assert (Hv : Zpos (Pos.iter xO p k) = Zpos p * 2 ^ (24 - d)).
    { rewrite Zpos_iter_xO. f_equal. f_equal. lia. }
    assert (Hn : normal32 (Pos.iter xO p k)).
    { unfold normal32. rewrite Hv.
      replace (2 ^ 24) with (2 ^ d * 2 ^ (24 - d))
        by (rewrite <- Z.pow_add_r by lia; f_equal; lia).
      replace (2 ^ 23) with (2 ^ (d - 1) * 2 ^ (24 - d))
        by (rewrite <- Z.pow_add_r by lia; f_equal; lia).
      assert (0 < 2 ^ (24 - d)) by (apply Z.pow_pos_nonneg; lia).
      split; [apply Z.mul_le_mono_nonneg_r | apply Z.mul_lt_mono_pos_r]; lia. }
    exists (Pos.iter xO p k), (d + 0 - 24).
    split; [exact Hn |]. split; [lia |]. split.
    + rewrite Hv. f_equal. f_equal. lia.
    + destruct (binary_round_aux_24 false (Pos.iter xO p k) (d + 0 - 24) loc_Exact Hn)
        as (mz & _ & Hmz & Hres); [unfold normal32 in Hn; simpl; lia | lia |].
      simpl in Hmz. injection Hmz as ->. exact Hres.
Qed.

Lemma iter_pos_nat {A : Type} (f : A -> A) (p : positive) (x : A) :
  SpecFloat.iter_pos f p x = Nat.iter (Pos.to_nat p) f x.
Proof.
  revert x. induction p as [p IH | p IH |]; intros x; cbn [SpecFloat.iter_pos].
  - rewrite !IH, Pos2Nat.inj_xI.
    replace (S (2 * Pos.to_nat p)) with (Pos.to_nat p + (Pos.to_nat p + 1))%nat by lia.
    rewrite !Nat.iter_add. reflexivity.
  - rewrite !IH, Pos2Nat.inj_xO.
    replace (2 * Pos.to_nat p)%nat with (Pos.to_nat p + Pos.to_nat p)%nat by lia.
    rewrite Nat.iter_add. reflexivity.
  - reflexivity.
Qed.

Lemma shr_1_spec (m : Z) (r s : bool) :
  0 <= m ->
  shr_1 {| shr_m := m; shr_r := r; shr_s := s |}
  = {| shr_m := m / 2; shr_r := Z.odd m; shr_s := r || s |}.
Proof.
  intros Hm. destruct m as [| [p | p |] |]; try lia; cbn [shr_1 Z.odd]; f_equal.
  - apply Z.div_unique with (r := 1); lia.
  - apply Z.div_unique with (r := 0); lia.
Qed.

(** [k + 1] bits shifted out of an exact mantissa. *)
Lemma shr_iter_spec (m : Z) (n : nat) :
  0 <= m ->
  Nat.iter (S n) shr_1 {| shr_m := m; shr_r := false; shr_s := false |}
  = {| shr_m := m / 2 ^ (Z.of_nat n + 1);
       shr_r := Z.odd (m / 2 ^ Z.of_nat n);
       shr_s := negb (m mod 2 ^ Z.of_nat n =? 0) |}.
Proof.
  intros Hm. induction n as [| n IH].
  - cbn [Nat.iter]. rewrite shr_1_spec by exact Hm.
    change (2 ^ Z.of_nat 0) with 1. change (2 ^ (Z.of_nat 0 + 1)) with 2.
    rewrite Z.div_1_r, Z.mod_1_r. reflexivity.
  - change (Nat.iter (S (S n)) shr_1 ?x) with (shr_1 (Nat.iter (S n) shr_1 x)).
    rewrite IH, shr_1_spec by (apply Z.div_pos; [exact Hm | apply Z.pow_pos_nonneg; lia]).
    assert (H2n : 0 < 2 ^ Z.of_nat n) by (apply Z.pow_pos_nonneg; lia).
    replace (Z.of_nat (S n)) with (Z.of_nat n + 1) by lia.
    f_equal.
    + rewrite Z.div_div by lia. f_equal.
      rewrite (Z.pow_add_r 2 (Z.of_nat n + 1) 1) by lia. reflexivity.
    + rewrite (Z.pow_add_r 2 (Z.of_nat n) 1) by lia. change (2 ^ 1) with 2.
      rewrite Z.rem_mul_r by lia.
      pose proof (Z.mod_pos_bound m (2 ^ Z.of_nat n) H2n) as Hlow.
      rewrite Zmod_odd.
      destruct (Z.odd (m / 2 ^ Z.of_nat n));
        destruct (Z.eqb_spec (m mod 2 ^ Z.of_nat n) 0) as [E | E];
        match goal with
        | |- context [?a =? 0] => destruct (Z.eqb_spec a 0) as [E2 | E2]
        end;
        try reflexivity; exfalso; nia.
Qed.

Lemma round_shifted (z : Z) (n : nat) :
  0 <= z ->
  let R := Nat.iter (S n) shr_1 {| shr_m := z; shr_r := false; shr_s := false |} in
  shr_m R = z / 2 ^ (Z.of_nat n + 1) /\
  round_nearest_even (shr_m R) (loc_of_shr_record R) = round_at z (Z.of_nat n + 1).
Proof.
  intros Hz R. subst R. rewrite shr_iter_spec by exact Hz. cbn [shr_m].
  split; [reflexivity |].
  unfold round_at.
  assert (H2n : 0 < 2 ^ Z.of_nat n) by (apply Z.pow_pos_nonneg; lia).
  rewrite (Z.pow_add_r 2 (Z.of_nat n) 1) by lia. change (2 ^ 1) with 2.
  rewrite Z.rem_mul_r by lia. rewrite Zmod_odd.
  pose proof (Z.mod_pos_bound z (2 ^ Z.of_nat n) H2n) as Hlow.
  set (low := z mod 2 ^ Z.of_nat n) in *.
  set (m1 := z / (2 ^ Z.of_nat n * 2)).
  destruct (Z.odd (z / 2 ^ Z.of_nat n)); destruct (Z.eqb_spec low 0) as [E | E];
    cbn [negb loc_of_shr_record round_nearest_even].
  - replace (2 ^ Z.of_nat n * 2 <? 2 * (low + 2 ^ Z.of_nat n * 1)) with false
      by (symmetry; apply Z.ltb_ge; lia).
    replace (2 * (low + 2 ^ Z.of_nat n * 1) =? 2 ^ Z.of_nat n * 2) with true
      by (symmetry; apply Z.eqb_eq; lia).
    cbn [orb andb]. rewrite <- Z.negb_odd. destruct (Z.odd m1); cbn [negb]; lia.
  - replace (2 ^ Z.of_nat n * 2 <? 2 * (low + 2 ^ Z.of_nat n * 1)) with true
      by (symmetry; apply Z.ltb_lt; lia).
    cbn [orb]. reflexivity.
  - replace (2 ^ Z.of_nat n * 2 <? 2 * (low + 2 ^ Z.of_nat n * 0)) with false
      by (symmetry; apply Z.ltb_ge; lia).
    replace (2 * (low + 2 ^ Z.of_nat n * 0) =? 2 ^ Z.of_nat n * 2) with false
      by (symmetry; apply Z.eqb_neq; lia).
    cbn [orb andb]. lia.
  - replace (2 ^ Z.of_nat n * 2 <? 2 * (low + 2 ^ Z.of_nat n * 0)) with false
      by (symmetry; apply Z.ltb_ge; lia).
    replace (2 * (low + 2 ^ Z.of_nat n * 0) =? 2 ^ Z.of_nat n * 2) with false
      by (symmetry; apply Z.eqb_neq; lia).
    cbn [orb andb]. lia.
Qed.

Lemma round_at_bounds (z k : Z) : z / 2 ^ k <= round_at z k <= z / 2 ^ k + 1.
Proof.
  unfold round_at.
  destruct ((2 ^ k <? 2 * (z mod 2 ^ k))
            || ((2 * (z mod 2 ^ k) =? 2 ^ k) && Z.odd (z / 2 ^ k))); lia.
Qed.

Lemma round_at_mono (z z' k : Z) : 0 <= k -> z <= z' -> round_at z k <= round_at z' k.
Proof.
  intros Hk Hz.
  assert (H2k : 0 < 2 ^ k) by (apply Z.pow_pos_nonneg; lia).
  pose proof (Z.div_le_mono z z' (2 ^ k) H2k Hz) as Hdiv.
  pose proof (round_at_bounds z k) as Hb. pose proof (round_at_bounds z' k) as Hb'.
  destruct (Z.eq_dec (z / 2 ^ k) (z' / 2 ^ k)) as [E | E]; [| lia].
  assert (Hl : z mod 2 ^ k <= z' mod 2 ^ k).
  { pose proof (Z.div_mod z (2 ^ k) ltac:(lia)). pose proof (Z.div_mod z' (2 ^ k) ltac:(lia)).
    rewrite E in *. lia. }
  unfold round_at. rewrite E.
  destruct (Z.ltb_spec (2 ^ k) (2 * (z mod 2 ^ k)));
    destruct (Z.ltb_spec (2 ^ k) (2 * (z' mod 2 ^ k)));
    destruct (Z.eqb_spec (2 * (z mod 2 ^ k)) (2 ^ k));
    destruct (Z.eqb_spec (2 * (z' mod 2 ^ k)) (2 ^ k));
    destruct (Z.odd (z' / 2 ^ k)); cbn [orb andb]; lia.
Qed.

(** An [int] of [24 + k] digits is cast by rounding its [k] low bits away;
    a mantissa carried to [2^24] is renormalised. *)
Lemma float32_of_int_large (z : Z) :
  2 ^ 24 <= z < 2 ^ 31 ->
  let k := Zdigits2 z - 24 in
  1 <= k <= 7 /\
  2 ^ 23 <= round_at z k <= 2 ^ 24 /\
  exists mz ez, normal32 mz /\ k <= ez <= k + 1 /\
                Zpos mz * 2 ^ ez = round_at z k * 2 ^ k /\
                float32_of_int z = S754_finite false mz ez.
Proof.
  intros Hz. destruct z as [| p |]; try lia. cbn [Zdigits2].
  pose proof (digits2_pos_bounds p) as Hd.
  set (d := Zpos (digits2_pos p)) in *. set (k := d - 24).
  assert (Hk : 1 <= k <= 7).
  { subst k. split.
    - destruct (Z.le_gt_cases 25 d) as [H | H]; [lia |].
      assert (2 ^ d <= 2 ^ 24) by (apply Z.pow_le_mono_r; lia). lia.
    - destruct (Z.le_gt_cases d 31) as [H | H]; [lia |].
      assert (2 ^ 31 <= 2 ^ (d - 1)) by (apply Z.pow_le_mono_r; lia). lia. }
  assert (H2k : 0 < 2 ^ k) by (apply Z.pow_pos_nonneg; lia).
  assert (Hm1 : 2 ^ 23 <= Zpos p / 2 ^ k < 2 ^ 24).
  { replace (2 ^ (d - 1)) with (2 ^ 23 * 2 ^ k) in Hd
      by (rewrite <- Z.pow_add_r by lia; f_equal; lia).
    replace (2 ^ d) with (2 ^ 24 * 2 ^ k) in Hd
      by (rewrite <- Z.pow_add_r by lia; f_equal; lia).
    split; [apply Z.div_le_lower_bound | apply Z.div_lt_upper_bound]; lia. }
  pose proof (round_at_bounds (Zpos p) k) as Hb.
  split; [exact Hk |]. split; [lia |].
  unfold float32_of_int, binary_normalize, binary_round. fold d.
  rewrite fexp32 by lia. unfold shl_align.
  destruct (d + 0 - 24 - 0) as [| k' | k'] eqn:Hk'; try lia.
  unfold binary_round_aux. unfold shr_fexp at 1. cbn [Zdigits2]. fold d.
  rewrite fexp32 by lia.
  replace (d + 0 - 24 - 0) with (Zpos k') by lia.
  cbn [shr shr_record_of_loc]. rewrite iter_pos_nat.
  destruct (Pos.to_nat k') as [| n] eqn:Hn; [lia |].
  destruct (round_shifted (Zpos p) n ltac:(lia)) as [_ Hround].
  cbv zeta in Hround. rewrite Hround.
  replace (Z.of_nat n + 1) with k by lia.
  destruct (Z.eq_dec (round_at (Zpos p) k) (2 ^ 24)) as [E | E].
  - (* the mantissa is carried to 2^24 *)
    rewrite E. exists 8388608%positive, (k + 1).
    split; [unfold normal32; lia |]. split; [lia |]. split.
    + rewrite Z.pow_add_r by lia. lia.
    + unfold shr_fexp. change (Zdigits2 (2 ^ 24)) with 25.
      rewrite fexp32 by lia.
      replace (25 + (0 + Zpos k') - 24 - (0 + Zpos k')) with 1 by lia.
      cbn [shr SpecFloat.iter_pos shr_record_of_loc]. change (2 ^ 24) with 16777216.
      cbn [shr_1 shr_m].
      replace (0 + Zpos k' + 1 <=? 128 - 24) with true by (symmetry; apply Z.leb_le; lia).
      f_equal. lia.
  - destruct (round_at (Zpos p) k) as [| q |] eqn:Hq; try lia.
    assert (Hnq : normal32 q) by (unfold normal32; lia).
    exists q, k. split; [exact Hnq |]. split; [lia |]. split; [reflexivity |].
    rewrite (round_finish false q (0 + Zpos k') Hnq) by lia. f_equal. lia.
Qed.

Lemma float32_of_int_spec (z : Z) :
  0 < z < 2 ^ 31 ->
  exists mz ez, normal32 mz /\ -23 <= ez <= 8 /\
                float32_of_int z = S754_finite false mz ez /\
                Zpos mz * 2 ^ (ez + 23) = float32_rounded z * 2 ^ 23.
Proof.
  intros Hz. unfold float32_rounded.
  destruct (Z.ltb_spec z (2 ^ 24)) as [Hs | Hl].
  - destruct (float32_of_int_exact z ltac:(lia)) as (mz & ez & Hn & He & Hv & Hc).
    exists mz, ez. split; [exact Hn |]. split; [lia |]. split; [exact Hc |].
    rewrite Hv, <- Z.mul_assoc, <- Z.pow_add_r by lia. f_equal. f_equal. lia.
  - destruct (float32_of_int_large z ltac:(lia)) as (Hk & Hr & mz & ez & Hn & He & Hv & Hc).
    exists mz, ez. split; [exact Hn |]. split; [lia |]. split; [exact Hc |].
    rewrite Z.pow_add_r, Z.mul_assoc, Hv by lia. reflexivity.
Qed.

Lemma Zdigits2_mono (z z' : Z) : 0 < z <= z' -> Zdigits2 z <= Zdigits2 z'.
Proof.
  intros Hz. destruct z as [| p |], z' as [| p' |]; try lia. cbn [Zdigits2].
  pose proof (digits2_pos_bounds p). pose proof (digits2_pos_bounds p').
  destruct (Z.le_gt_cases (Zpos (digits2_pos p)) (Zpos (digits2_pos p'))) as [H1 | H1];
    [exact H1 |].
  assert (2 ^ Zpos (digits2_pos p') <= 2 ^ (Zpos (digits2_pos p) - 1))
    by (apply Z.pow_le_mono_r; lia).
  lia.
Qed.

Lemma float32_rounded_mono (z z' : Z) :
  0 < z <= z' -> z' < 2 ^ 31 -> float32_rounded z <= float32_rounded z'.
Proof.
  intros Hz Hz'. unfold float32_rounded.
  destruct (Z.ltb_spec z (2 ^ 24)) as [Hs | Hl];
    destruct (Z.ltb_spec z' (2 ^ 24)) as [Hs' | Hl']; try lia.
  - destruct (float32_of_int_large z' ltac:(lia)) as (Hk & Hr & _).
    cbv zeta in Hk, Hr.
    assert (2 ^ 1 <= 2 ^ (Zdigits2 z' - 24)) by (apply Z.pow_le_mono_r; lia).
    change (2 ^ 1) with 2 in *. nia.
  - destruct (float32_of_int_large z ltac:(lia)) as (Hk & Hr & _).
    destruct (float32_of_int_large z' ltac:(lia)) as (Hk' & Hr' & _).
    cbv zeta in Hk, Hr, Hk', Hr'.
    pose proof (Zdigits2_mono z z' ltac:(lia)) as Hd.
    set (k := Zdigits2 z - 24) in *. set (k' := Zdigits2 z' - 24) in *.
    destruct (Z.eq_dec k k') as [E | E].
    + rewrite <- E. apply Z.mul_le_mono_nonneg_r; [apply Z.pow_nonneg; lia |].
      apply round_at_mono; lia.
    + assert (Hp : 2 ^ (k + 1) <= 2 ^ k') by (apply Z.pow_le_mono_r; lia).
      rewrite Z.pow_add_r in Hp by lia. change (2 ^ 1) with 2 in Hp.
      assert (0 < 2 ^ k) by (apply Z.pow_pos_nonneg; lia).
      nia.
Qed.

Lemma normal32_order (mx my : positive) (ex ey : Z) :
  normal32 mx -> normal32 my -> -23 <= ex -> -23 <= ey ->
  Zpos mx * 2 ^ (ex + 23) <= Zpos my * 2 ^ (ey + 23) ->
  ex < ey \/ (ex = ey /\ Zpos mx <= Zpos my).
Proof.
  unfold normal32. intros Hx Hy Hex Hey Hle.
  destruct (Z.lt_trichotomy ex ey) as [H | [H | H]]; [left; exact H | right | exfalso].
  - subst ey. split; [reflexivity |].
    assert (0 < 2 ^ (ex + 23)) by (apply Z.pow_pos_nonneg; lia). nia.
  - assert (Hp : 2 ^ (ey + 23 + 1) <= 2 ^ (ex + 23)) by (apply Z.pow_le_mono_r; lia).
    rewrite Z.pow_add_r in Hp by lia. change (2 ^ 1) with 2 in Hp.
    assert (0 < 2 ^ (ey + 23)) by (apply Z.pow_pos_nonneg; lia). nia.
Qed.

Lemma float32_below_one (mz : positive) (ez : Z) :
  ez <= -24 ->
  SFltb (S754_finite false mz ez) float32_one = true /\
  SFleb (S754_finite false mz ez) float32_one = true /\
  S754_finite false mz ez <> float32_one.
Proof.
  intros He. unfold SFltb, SFleb, float32_one, SFcompare.
  rewrite (proj2 (Z.compare_lt_iff ez (-23))) by lia.
  repeat split. intros H. injection H as _ H. lia.
Qed.

(** The quotient of two casts, the smaller over the larger: it lies
    between 0 and 1, is 0 only for a zero numerator, and is 1 exactly when
    both casts give the same binary32 number. *)
Lemma float32_quotient (r m : Z) :
  0 <= r < m -> m < 2 ^ 31 ->
  let t := float32_div (float32_of_int r) (float32_of_int m) in
  SFleb float32_zero t = true /\
  SFleb t float32_one = true /\
  (t = float32_zero <-> r = 0) /\
  (0 < r -> SFltb float32_zero t = true) /\
  (t = float32_one <-> float32_of_int r = float32_of_int m) /\
  (SFltb t float32_one = true <-> float32_of_int r <> float32_of_int m) /\
  (m <= 2 ^ 24 -> SFltb t float32_one = true).
Proof.
  intros Hr Hm t.
  destruct (float32_of_int_spec m ltac:(lia)) as (my & ey & Hny & Hey & Hcm & Hvm).
  destruct (Z.eq_dec r 0) as [-> | Hr0].
  - assert (Ht : t = float32_zero) by (subst t; rewrite Hcm; reflexivity).
    rewrite Ht, Hcm. change (float32_of_int 0) with (S754_zero false).
    repeat split; try reflexivity; try discriminate.
  - destruct (float32_of_int_spec r ltac:(lia)) as (mx & ex & Hnx & Hex & Hcr & Hvr).
    pose proof (float32_rounded_mono r m ltac:(lia) Hm) as Hmono.
    destruct (normal32_order mx my ex ey Hnx Hny ltac:(lia) ltac:(lia) ltac:(lia))
      as [Hlt | [Heq Hle]].
    + (* smaller exponent *)
      destruct (float32_div_normal mx my ex ey Hnx Hny ltac:(lia))
        as (mz & Hnz & _ & _ & Hdiv).
      assert (Ht : exists ez, ez <= -24 /\ t = S754_finite false mz ez).
      { eexists. split; [| subst t; rewrite Hcr, Hcm; exact Hdiv].
        destruct (Zpos mx <? Zpos my); lia. }
      destruct Ht as (ez & Hez & ->).
      destruct (float32_below_one mz ez Hez) as (H1 & H2 & H3).
      rewrite Hcr, Hcm.
      repeat split; try assumption; try reflexivity; try discriminate; try tauto.
      * intros H. injection H as _ H. lia.
      * intros _ H. injection H as _ H. lia.
    + subst ey.
      destruct (float32_div_normal mx my ex ex Hnx Hny ltac:(lia))
        as (mz & Hnz & Hone & _ & Hdiv).
      destruct (Z.ltb_spec (Zpos mx) (Zpos my)) as [Hlt | Hge].
      * assert (Ht : t = S754_finite false mz (-24)).
        { subst t. rewrite Hcr, Hcm, Hdiv. f_equal. lia. }
        rewrite Ht. destruct (float32_below_one mz (-24) ltac:(lia)) as (H1 & H2 & H3).
        rewrite Hcr, Hcm.
        repeat split; try assumption; try reflexivity; try discriminate; try tauto.
        -- intros H. injection H as H. lia.
        -- intros _ H. injection H as H. lia.
      * assert (Hxy : mx = my) by lia. subst my.
        assert (Ht : t = float32_one).
        { subst t. rewrite Hcr, Hcm, Hdiv. unfold float32_one.
          specialize (Hone eq_refl). f_equal; lia. }
        rewrite Ht, Hcr, Hcm.
        repeat split; try reflexivity; try discriminate; try tauto.
        intros Hm24. exfalso.
        assert (Hrr : float32_rounded r = r)
          by (unfold float32_rounded; rewrite (proj2 (Z.ltb_lt r (2 ^ 24))) by lia;
              reflexivity).
        assert (Hrm : float32_rounded m = m).
        { destruct (Z.eq_dec m (2 ^ 24)) as [-> | Hne]; [reflexivity |].
          unfold float32_rounded. rewrite (proj2 (Z.ltb_lt m (2 ^ 24))) by lia.
          reflexivity. }
        rewrite Hrr in Hvr. rewrite Hrm in Hvm. lia.
Qed.

(** Up to [2^24] the casts are exact, and the quotient is within one unit
    in the last place of the exact ratio: [t = mz * 2^ez] with
    [|mz * 2^ez - r / m| <= 2^ez <= 2^-24]. *)
Lemma float32_quotient_accuracy (r m : Z) :
  0 < r < m -> m <= 2 ^ 24 ->
  exists mz ez, normal32 mz /\ ez <= -24 /\
    float32_div (float32_of_int r) (float32_of_int m) = S754_finite false mz ez /\
    Z.abs (Zpos mz * m - r * 2 ^ (- ez)) <= m.
Proof.
  intros Hr Hm.
  destruct (float32_of_int_spec m ltac:(lia)) as (my & ey & Hny & Hey & Hcm & Hvm).
  destruct (float32_of_int_spec r ltac:(lia)) as (mx & ex & Hnx & Hex & Hcr & Hvr).
  assert (Hrr : float32_rounded r = r)
    by (unfold float32_rounded; rewrite (proj2 (Z.ltb_lt r (2 ^ 24))) by lia; reflexivity).
  assert (Hrm : float32_rounded m = m).
  { destruct (Z.eq_dec m (2 ^ 24)) as [-> | Hne]; [reflexivity |].
    unfold float32_rounded. rewrite (proj2 (Z.ltb_lt m (2 ^ 24))) by lia. reflexivity. }
  rewrite Hrr in Hvr. rewrite Hrm in Hvm.
  destruct (float32_div_normal mx my ex ey Hnx Hny ltac:(lia))
    as (mz & Hnz & _ & Hacc & Hdiv).
  set (c := if Zpos mx <? Zpos my then 24 else 23) in *.
  assert (Hc : 23 <= c <= 24) by (subst c; destruct (Zpos mx <? Zpos my); lia).
  assert (Hord : ex < ey \/ (ex = ey /\ c = 24)).
  { destruct (normal32_order mx my ex ey Hnx Hny ltac:(lia) ltac:(lia) ltac:(lia))
      as [H | [H Hle]]; [left; exact H | right].
    split; [exact H |]. subst ey c.
    destruct (Z.ltb_spec (Zpos mx) (Zpos my)) as [_ | Hge]; [reflexivity |].
    exfalso. assert (0 < 2 ^ (ex + 23)) by (apply Z.pow_pos_nonneg; lia). nia. }
  exists mz, (ex - ey - c). split; [exact Hnz |]. split; [lia |].
  split; [rewrite Hcr, Hcm; exact Hdiv |].
  replace (- (ex - ey - c)) with (ey - ex + c) by lia.
  (* scale the bound on the mantissas by [2^(ey + 23)] *)
  assert (Hp : 0 < 2 ^ (ey + 23)) by (apply Z.pow_pos_nonneg; lia).
  assert (Hx : Zpos mx * 2 ^ c * 2 ^ (ey + 23) = r * 2 ^ (ey - ex + c) * 2 ^ 23).
  { replace (2 ^ (ey + 23)) with (2 ^ (ex + 23) * 2 ^ (ey - ex))
      by (rewrite <- Z.pow_add_r by lia; f_equal; lia).
    rewrite (Z.pow_add_r 2 (ey - ex) c) by lia.
    replace (Zpos mx * 2 ^ c * (2 ^ (ex + 23) * 2 ^ (ey - ex)))
      with (Zpos mx * 2 ^ (ex + 23) * (2 ^ (ey - ex) * 2 ^ c)) by ring.
    rewrite Hvr. ring. }
  set (X := Zpos mz * Zpos my - Zpos mx * 2 ^ c) in *.
  assert (HX : X * 2 ^ (ey + 23) = (Zpos mz * m - r * 2 ^ (ey - ex + c)) * 2 ^ 23).
  { subst X. rewrite Z.mul_sub_distr_r, Hx.
    replace (Zpos mz * Zpos my * 2 ^ (ey + 23)) with (Zpos mz * (Zpos my * 2 ^ (ey + 23)))
      by ring.
    rewrite Hvm. ring. }
  set (Y := Zpos mz * m - r * 2 ^ (ey - ex + c)) in *.
  assert (Habs : Z.abs X * 2 ^ (ey + 23) = Z.abs Y * 2 ^ 23).
  { transitivity (Z.abs (X * 2 ^ (ey + 23))).
    - rewrite Z.abs_mul, (Z.abs_eq (2 ^ (ey + 23))) by lia. reflexivity.
    - rewrite HX, Z.abs_mul, (Z.abs_eq (2 ^ 23)) by lia. reflexivity. }
  assert (Hmy : Zpos my * 2 ^ (ey + 23) = m * 2 ^ 23) by exact Hvm.
  assert (Z.abs X * 2 ^ (ey + 23) <= Zpos my * 2 ^ (ey + 23))
    by (apply Z.mul_le_mono_nonneg_r; lia).
  lia.
Qed.

(** C1, as amended. For an accepted configuration and every output index
    [n] below the output frame count, the source index is
    [floor (n * divisor / multiplier)] and the remainder is
    [(n * divisor) mod multiplier], in [[0, multiplier)] and zero exactly
    when [multiplier] divides [n * divisor].  The blend fraction is the
    binary32 quotient of the binary32 casts of remainder and multiplier: it
    lies in [[0, 1]], is zero exactly when [multiplier] divides
    [n * divisor], and is below 1 exactly when the two casts differ.  For
    [multiplier <= 2^24] the casts are exact: the fraction is below 1 and
    within one unit in the last place of [remainder / multiplier], that is
    [|mz * 2^ez - remainder / multiplier| <= 2^ez <= 2^-24]. *)
Theorem timeline_mapping (args : VSMap) (vi0 : VSVideoInfo) (env : Env)
    (d : RIFEData) (n : Z) :
  rifeCreate args vi0 env = OutRIFE d ->
  0 <= n < numFrames (vi d) ->
  frameNum d n = (n * divisor d) / multiplier d /\
  remainder d n = (n * divisor d) mod multiplier d /\
  0 <= remainder d n < multiplier d /\
  (remainder d n = 0 <-> (multiplier d | n * divisor d)) /\
  timestep d n
  = float32_div (float32_of_int ((n * divisor d) mod multiplier d))
      (float32_of_int (multiplier d)) /\
  SFleb float32_zero (timestep d n) = true /\
  SFleb (timestep d n) float32_one = true /\
  (timestep d n = float32_zero <-> (multiplier d | n * divisor d)) /\
  (SFltb (timestep d n) float32_one = true
   <-> float32_of_int (remainder d n) <> float32_of_int (multiplier d)) /\
  (multiplier d <= 2 ^ 24 -> SFltb (timestep d n) float32_one = true) /\
  (multiplier d <= 2 ^ 24 -> 0 < remainder d n ->
   exists mz ez, timestep d n = S754_finite false mz ez /\ ez <= -24 /\
                 Z.abs (Zpos mz * multiplier d - remainder d n * 2 ^ (- ez))
                 <= multiplier d).
Proof.
  intros Hc Hn. apply rifeCreate_validated in Hc as V.
  pose proof (v_multiplier _ _ V) as Hm.
  pose proof (frameNum_exact _ _ _ V Hn) as Hf.
  pose proof (remainder_exact _ _ _ V Hn) as Hr.
  pose proof (Z.mod_pos_bound (n * divisor d) (multiplier d) ltac:(lia)) as Hb.
  assert (Hdiv : remainder d n = 0 <-> (multiplier d | n * divisor d)).
  { rewrite Hr. split; intros H; [apply Z.mod_divide | apply Z.mod_divide in H]; lia. }
  destruct (float32_quotient (remainder d n) (multiplier d))
    as (H0 & H1 & Hz & _ & _ & Hlt & H24);
    [lia | unfold INT_MAX in Hm; lia |].
  fold (timestep d n) in H0, H1, Hz, Hlt, H24.
  split; [exact Hf |]. split; [exact Hr |]. split; [lia |]. split; [exact Hdiv |].
  split; [unfold timestep; rewrite Hr; reflexivity |].
  split; [exact H0 |]. split; [exact H1 |].
  split; [rewrite Hz; exact Hdiv |]. split; [exact Hlt |]. split; [exact H24 |].
  intros Hm24 Hpos.
  destruct (float32_quotient_accuracy (remainder d n) (multiplier d))
    as (mz & ez & _ & Hez & Ht & Hacc); [lia | exact Hm24 |].
  exists mz, ez. split; [exact Ht |]. split; [exact Hez | exact Hacc].
Qed.

Lemma frameNum_range (d : RIFEData) (n : Z) :
  0 < multiplier d ->
  INT_MIN <= frameNum d n <= INT_MAX /\ frameNum d n <= INT_MAX / multiplier d.
Proof.
  intros Hm. unfold frameNum, int_mul.
  pose proof (wrap32_range (n * divisor d)) as Hx.
  set (x := wrap32 (n * divisor d)) in *.
  split; [apply wrap32_range |].
  rewrite int_div_pos by (assumption || lia).
  destruct (Z.le_gt_cases 0 x) as [Hpos | Hneg].
  - rewrite quot_nonneg_div by lia. apply Z.div_le_mono; lia.
  - rewrite quot_neg_div by lia.
    assert (0 <= (- x) / multiplier d) by (apply Z.div_pos; lia).
    assert (0 <= INT_MAX / multiplier d) by (apply Z.div_pos; unfold INT_MAX; lia).
    lia.
Qed.

(** When the product [numFrames * multiplier] fits an [int], the stored
    output count is the exact quotient. *)
Lemma stored_count_exact (vi0 : VSVideoInfo) (d : RIFEData) :
  Validated vi0 d ->
  numFrames vi0 * multiplier d <= INT_MAX ->
  numFrames (vi d) = (numFrames vi0 * multiplier d) / divisor d.
Proof.
  intros V Hfit.
  pose proof (v_multiplier _ _ V). pose proof (v_divisor _ _ V).
  pose proof (v_frames _ _ V).
  rewrite (stored_count _ _ V).
  rewrite wrap32_id by (unfold INT_MIN, INT_MAX in *; nia).
  apply quot_nonneg_div; nia.
Qed.

(** A second source frame is never wanted from the last source index. *)
Lemma second_frame_in_range (vi0 : VSVideoInfo) (d : RIFEData) (n : Z) :
  Validated vi0 d ->
  numFrames vi0 <= INT_MAX ->
  0 <= n ->
  canInterpolate d n = true ->
  frameNum d n + 1 < numFrames vi0.
Proof.
  intros V HS Hn Hcan.
  pose proof (v_multiplier _ _ V) as Hm. pose proof (v_divisor _ _ V) as Hd.
  pose proof (v_frames _ _ V) as HS2.
  unfold canInterpolate in Hcan. apply andb_true_iff in Hcan as [_ Hlt].
  apply Z.ltb_lt in Hlt.
  destruct (Z.le_gt_cases (numFrames vi0 * multiplier d) INT_MAX) as [Hfit | Hover].
  - (* no overflow: the stored count is exact *)
    pose proof (stored_count_exact _ _ V Hfit) as Hcount.
    assert (Hc0 : 0 <= numFrames (vi d) <= INT_MAX).
    { rewrite Hcount. split; [apply Z.div_pos; nia |].
      apply Z.div_le_upper_bound; unfold INT_MAX in *; nia. }
    unfold int_sub in Hlt.
    rewrite wrap32_id in Hlt by (unfold INT_MIN, INT_MAX in *; lia).
    assert (Hn' : 0 <= n < numFrames (vi d)) by lia.
    rewrite (frameNum_exact _ _ _ V Hn').
    assert (Hle : (n + multiplier d + 1) * divisor d <= numFrames vi0 * multiplier d).
    { pose proof (Z.mul_div_le (numFrames vi0 * multiplier d) (divisor d)). nia. }
    assert ((n * divisor d) / multiplier d < numFrames vi0 - divisor d); [| lia].
    apply Z.div_lt_upper_bound; nia.
  - (* the product overflows: the request would need the last index *)
    destruct (frameNum_range d n) as [_ Hq]; [lia |].
    destruct (Z.lt_ge_cases (frameNum d n + 1) (numFrames vi0)) as [Hok | Hbad];
      [exact Hok | exfalso].
    assert (Hdiv : INT_MAX / multiplier d < numFrames vi0).
    { apply Z.div_lt_upper_bound; lia. }
    assert (Hlast : INT_MAX / multiplier d = numFrames vi0 - 1) by lia.
    assert (Hmd : multiplier d * (INT_MAX / multiplier d) <= INT_MAX)
      by (apply Z.mul_div_le; lia).
    rewrite Hlast in Hmd.
    assert (HP : numFrames vi0 * multiplier d <= 2 * INT_MAX /\
                 2 * multiplier d <= numFrames vi0 * multiplier d).
    { clear - Hm HS2 Hmd. split; [lia | nia]. }
    set (P := numFrames vi0 * multiplier d) in *.
    (* the divisor is at least two *)
    pose proof (v_length _ _ V) as Hlen.
    rewrite !int_div_pos in Hlen by (unfold INT_MIN, INT_MAX in *; lia).
    rewrite !quot_nonneg_div in Hlen by (unfold INT_MAX in *; lia).
    assert (Hd2 : 2 <= divisor d).
    { destruct (Z.eq_dec (divisor d) 1) as [H1 | H1]; [| lia].
      rewrite H1, Z.div_1_r in Hlen. lia. }
    (* the stored count is negative but small *)
    rewrite (stored_count _ _ V) in Hlt. fold P in Hlt.
    destruct (wrap32_spec P) as [k Hk]. pose proof (wrap32_range P) as Hr.
    set (w := wrap32 P) in *.
    assert (Hw : w = P - 2 ^ 32) by (unfold INT_MIN, INT_MAX in *; lia).
    rewrite quot_neg_div in Hlt by (unfold INT_MAX in *; lia).
    assert (Hhalf : (- w) / divisor d <= (- w) / 2).
    { apply Z.div_le_compat_l; unfold INT_MAX in *; lia. }
    assert (0 <= (- w) / divisor d) by (apply Z.div_pos; unfold INT_MAX in *; lia).
    unfold int_sub in Hlt.
    assert (Hhalf2 : (- w) / 2 <= 2 ^ 31 - multiplier d).
    { apply Z.div_le_upper_bound; unfold INT_MAX in *; lia. }
    rewrite wrap32_id in Hlt; unfold INT_MIN, INT_MAX in *; lia.
Qed.

(* ===================================================================== *)
(** ** The request phase                                                  *)
(* ===================================================================== *)

Section RequestPhase.

Context {Planes : Type}.
Variable blank : Planes.
Variable process : Planes -> Planes -> float32 -> Planes.
Variable host : Clip -> Z -> option (VSFrame Planes).

Lemma request_phase (d : RIFEData) (n : Z) :
  run (rifeGetFrame blank process host n arInitial d) = (Some None, request_log d n).
Proof.
  unfold run, rifeGetFrame, request_log, requestFrameFilter.
  destruct (canInterpolate d n), (skip d); reflexivity.
Qed.

Lemma requested_inv (d : RIFEData) (n k : Z) (c : Clip) :
  requested k c (request_log d n) ->
  (k = frameNum d n /\ c = node) \/
  (canInterpolate d n = true /\ k = int_add (frameNum d n) 1 /\ c = node) \/
  (skip d = true /\ k = frameNum d n /\ c = psnr).
Proof.
  unfold requested, request_log. rewrite !in_app_iff. simpl.
  intros [[H | []] | [H | H]].
  - injection H as <- <-. auto.
  - destruct (canInterpolate d n); simpl in H; [| destruct H].
    destruct H as [H | []]. injection H as <- <-. auto.
  - destruct (skip d); simpl in H; [| destruct H].
    destruct H as [H | []]. injection H as <- <-. auto.
Qed.

End RequestPhase.

(** C7. For an accepted configuration (so [multiplier >= 2] and
    [divisor >= 1]) and every output index [n] below
    [floor (sourceFrameCount * multiplier / divisor)], the source index
    [floor (n * divisor / multiplier)] and the index the code computes are
    below the source frame count; when a second source frame is wanted its
    index [sourceIndex + 1] is below the source frame count too; hence no
    request of the request phase goes past the end of the source. *)
Theorem source_index_in_range (args : VSMap) (vi0 : VSVideoInfo)
    (env : Env) (d : RIFEData) (n : Z) :
  rifeCreate args vi0 env = OutRIFE d ->
  numFrames vi0 <= INT_MAX ->
  0 <= n <= INT_MAX ->
  n < (numFrames vi0 * multiplier d) / divisor d ->
  (n * divisor d) / multiplier d < numFrames vi0 /\
  frameNum d n < numFrames vi0 /\
  (canInterpolate d n = true -> frameNum d n + 1 < numFrames vi0) /\
  (forall (Planes : Type) (blank : Planes) process host k c,
      requested k c (snd (run (rifeGetFrame blank process host n arInitial d))) ->
      k < numFrames vi0).
Proof.
  intros Hc HS Hn Hlt. apply rifeCreate_validated in Hc as V.
  pose proof (v_multiplier _ _ V) as Hm. pose proof (v_divisor _ _ V) as Hd.
  pose proof (v_frames _ _ V) as HS2.
  assert (Hmath : (n * divisor d) / multiplier d < numFrames vi0).
  { apply Z.div_lt_upper_bound; [lia |].
    assert (divisor d * ((numFrames vi0 * multiplier d) / divisor d)
            <= numFrames vi0 * multiplier d) by (apply Z.mul_div_le; lia).
    nia. }
  assert (Hcode : frameNum d n < numFrames vi0).
  { destruct (Z.le_gt_cases (numFrames vi0 * multiplier d) INT_MAX) as [Hfit | Hover].
    - rewrite (frameNum_exact vi0); [exact Hmath | exact V |].
      rewrite (stored_count_exact _ _ V Hfit). lia.
    - destruct (frameNum_range d n) as [_ Hq]; [lia |].
      assert (INT_MAX / multiplier d < numFrames vi0)
        by (apply Z.div_lt_upper_bound; lia).
      lia. }
  pose proof (fun H => second_frame_in_range vi0 d n V HS (proj1 Hn) H) as Hsecond.
  repeat split; try assumption.
  intros Planes blank process host k c Hreq.
  rewrite request_phase in Hreq. cbn [fst snd] in Hreq.
  apply requested_inv in Hreq as [[-> _] | [(Hcan & -> & _) | (_ & -> & _)]];
    try assumption.
  specialize (Hsecond Hcan).
  destruct (frameNum_range d n) as [Hr _]; [lia |].
  unfold int_add. rewrite wrap32_id; unfold INT_MIN, INT_MAX in *; lia.
Qed.

(* ===================================================================== *)
(** ** The resume phase                                                   *)
(* ===================================================================== *)

Lemma rescaleDuration_planes {Planes} (d : RIFEData) (f : VSFrame Planes) :
  planes (rescaleDuration d f) = planes f.
Proof.
  unfold rescaleDuration.
  destruct (mapGetInt (props f) "_DurationNum" 0); [reflexivity |].
  destruct (mapGetInt (props f) "_DurationDen" 0); [reflexivity |].
  destruct (muldivRational _ _ _ _). reflexivity.
Qed.

Lemma rescaleDuration_props {Planes} (d : RIFEData) (f g : VSFrame Planes) :
  props f = props g -> props (rescaleDuration d f) = props (rescaleDuration d g).
Proof.
  unfold rescaleDuration. intros E. rewrite E.
  destruct (mapGetInt (props g) "_DurationNum" 0); [exact E |].
  destruct (mapGetInt (props g) "_DurationDen" 0); [exact E |].
  destruct (muldivRational _ _ _ _). reflexivity.
Qed.

#[local] Arguments mapGetInt : simpl never.
#[local] Arguments mapGetFloat : simpl never.
#[local] Arguments mapGetBool : simpl never.
#[local] Arguments rescaleDuration : simpl never.
#[local] Arguments frameNum : simpl never.
#[local] Arguments remainder : simpl never.
#[local] Arguments canInterpolate : simpl never.
#[local] Arguments timestep : simpl never.
#[local] Arguments int_add : simpl never.

Lemma read_sceneChange_and {Planes} (d : RIFEData) (src0 : VSFrame Planes) :
  read_sceneChange d src0
  = sceneChange d && mapGetBool (props src0) "_SceneChangeNext".
Proof. unfold read_sceneChange. destruct (sceneChange d); reflexivity. Qed.

(** Unfold the monad of [rifeGetFrame] down to the log it builds. *)
Ltac run_log :=
  cbv beta iota zeta delta
    [run rifeGetFrame read_psnr_y requestFrameFilter getFrameFilter copyFrame
     newVideoFrame filter freeFrame emit abort mbind mret getframe_bind
     getframe_ret app].

Section ResumePhase.

Context {Planes : Type}.
Variable blank : Planes.
Variable process : Planes -> Planes -> float32 -> Planes.
Variable host : Clip -> Z -> option (VSFrame Planes).
Variable d : RIFEData.
Variable n : Z.

Let resume := run (rifeGetFrame blank process host n arAllFramesReady d).

(** The plan forces a copy: remainder zero or boundary. *)
Lemma resume_plan_copy (src0 : VSFrame Planes) :
  canInterpolate d n = false ->
  host node (frameNum d n) = Some src0 ->
  resume = (Some (Some (rescaleDuration d src0)), plan_copy_log d n).
Proof.
  intros Hcan H0. unfold resume. run_log. rewrite H0, Hcan. reflexivity.
Qed.

(** A candidate: the metric is scored when skip-by-metric is on, and the
    comparison of line 110 picks the branch. *)
Lemma resume_candidate (src0 : VSFrame Planes) (score : float) :
  canInterpolate d n = true ->
  host node (frameNum d n) = Some src0 ->
  (skip d = true ->
   exists pf, host psnr (frameNum d n) = Some pf /\
              mapGetFloat (props pf) "psnr_y" 0 = inr score) ->
  if read_sceneChange d src0
     || (skip_threshold d <=? (if skip d then score else -1))%float
  then resume = (Some (Some (rescaleDuration d src0)), skip_copy_log d n)
  else forall src1, host node (int_add (frameNum d n) 1) = Some src1 ->
       resume = (Some (Some (rescaleDuration d (synthesized process d n src0 src1))),
                 synthesis_log d n).
Proof.
  intros Hcan H0 Hm.
  unfold resume, skip_copy_log, synthesis_log, metric_fetch, metric_frame,
    synthesized.
  run_log. rewrite H0, Hcan.
  destruct (skip d) eqn:Hs.
  - destruct Hm as (pf & Hpf & Hy); [reflexivity |].
    rewrite Hpf, Hy.
    destruct (read_sceneChange d src0);
      destruct (skip_threshold d <=? score)%float; cbn;
      try reflexivity; intros src1 ->; reflexivity.
  - destruct (read_sceneChange d src0);
      destruct (skip_threshold d <=? -1)%float; cbn;
      try reflexivity; intros src1 ->; reflexivity.
Qed.

End ResumePhase.

(* ===================================================================== *)
(** ** Comparisons on [double]                                            *)
(* ===================================================================== *)

Lemma float_eqb_leb (x y : float) :
  (x =? y)%float = true -> (x <=? y)%float = true.
Proof.
  rewrite FloatAxioms.eqb_spec, FloatAxioms.leb_spec. unfold SFeqb, SFleb.
  destruct (SFcompare (Prim2SF x) (Prim2SF y)) as [[] |]; intros H;
    (reflexivity || discriminate H).
Qed.

(** A threshold that passed the range check of [rifeCreate] is never at or
    below the initial score [-1.0]; a NaN threshold passes the check and
    compares false as well. *)
Lemma sentinel_below_threshold (t : float) :
  (t <? 0)%float = false ->
  (60 <? t)%float = false ->
  (t <=? -1)%float = false.
Proof.
  rewrite !FloatAxioms.ltb_spec, FloatAxioms.leb_spec.
  change (Prim2SF 0) with (S754_zero false).
  change (Prim2SF (-1)) with (S754_finite true 4503599627370496 (-52)).
  change (Prim2SF 60) with (S754_finite false 8444249301319680 (-47)).
  destruct (Prim2SF t) as [s | s | | s m e]; try destruct s;
    cbv [SFltb SFleb SFcompare]; intros H1 H2;
    try reflexivity; try discriminate H1; try discriminate H2.
Qed.

(** For an accepted threshold the comparison of line 110 succeeds only on
    a score that was really read. *)
Lemma comparison_validated (vi0 : VSVideoInfo) (d : RIFEData) (score : float) :
  Validated vi0 d ->
  (skip_threshold d <=? (if skip d then score else -1))%float
  = skip d && (skip_threshold d <=? score)%float.
Proof.
  intros V. destruct (skip d); [reflexivity |].
  apply sentinel_below_threshold; [apply (v_threshold_lo _ _ V) | apply (v_threshold_hi _ _ V)].
Qed.

(* ===================================================================== *)
(** ** Reading the logs                                                   *)
(* ===================================================================== *)

Lemma plan_copy_log_quiet (d : RIFEData) (n : Z) :
  engine_called (plan_copy_log d n) = false /\
  In EvCopyFrame (plan_copy_log d n) /\
  (forall k c, fetched k c (plan_copy_log d n) -> k = frameNum d n /\ c = node).
Proof.
  unfold plan_copy_log, fetched. simpl. repeat split; auto.
  all: destruct H as [H | [H | [H | [H | [H | []]]]]]; try discriminate H;
    injection H; auto.
Qed.

Lemma skip_copy_log_quiet (d : RIFEData) (n : Z) :
  engine_called (skip_copy_log d n) = false /\
  In EvCopyFrame (skip_copy_log d n) /\
  (forall k, fetched k node (skip_copy_log d n) -> k = frameNum d n) /\
  (forall k, fetched k psnr (skip_copy_log d n) -> k = frameNum d n /\ skip d = true).
Proof.
  unfold skip_copy_log, metric_fetch, metric_frame, fetched.
  destruct (skip d); simpl; repeat split; auto.
  all: intros; repeat match goal with
                      | H : _ \/ _ |- _ => destruct H as [H | H]
                      | H : False |- _ => destruct H
                      | H : _ = _ |- _ => (discriminate H) || (injection H as <-)
                      end; auto.
Qed.

Lemma synthesis_log_engine (d : RIFEData) (n : Z) :
  engine_called (synthesis_log d n) = true /\
  In (EvProcess (timestep d n)) (synthesis_log d n) /\
  fetched (int_add (frameNum d n) 1) node (synthesis_log d n).
Proof.
  unfold synthesis_log, metric_fetch, metric_frame, fetched.
  destruct (skip d); simpl; repeat split; auto 10.
Qed.

(* ===================================================================== *)
(** ** Boundary, skip decision and metadata sources                       *)
(* ===================================================================== *)

(** C2. For an accepted configuration and an output index [n] below the
    output count that lies in the boundary region
    [n >= outputCount - multiplier], interpolation is not attempted, be the
    blend fraction nonzero or not: the request phase asks for no source
    frame other than the one at the source index, the resume phase fetches
    no other source frame and never calls the engine, and the frame
    produced is a copy of the source frame at the source index (same
    planes, its properties with the duration rescaled). *)
Theorem boundary_passthrough (args : VSMap) (vi0 : VSVideoInfo) (env : Env)
    (d : RIFEData) (n : Z) {Planes : Type} (blank : Planes)
    (process : Planes -> Planes -> float32 -> Planes)
    (host : Clip -> Z -> option (VSFrame Planes)) :
  rifeCreate args vi0 env = OutRIFE d ->
  0 <= n < numFrames (vi d) ->
  numFrames (vi d) - multiplier d <= n ->
  canInterpolate d n = false /\
  (forall k, requested k node
               (snd (run (rifeGetFrame blank process host n arInitial d))) ->
             k = frameNum d n) /\
  (forall src0, host node (frameNum d n) = Some src0 ->
     let r := run (rifeGetFrame blank process host n arAllFramesReady d) in
     fst r = Some (Some (rescaleDuration d src0)) /\
     planes (rescaleDuration d src0) = planes src0 /\
     In EvCopyFrame (snd r) /\
     engine_called (snd r) = false /\
     (forall k, fetched k node (snd r) -> k = frameNum d n)).
Proof.
  intros Hc Hn Hb. apply rifeCreate_validated in Hc as V.
  pose proof (v_multiplier _ _ V) as Hm.
  assert (Hcan : canInterpolate d n = false).
  { unfold canInterpolate. apply andb_false_iff. right. apply Z.ltb_ge.
    destruct (product_below_count _ _ _ V Hn) as (Hw & Hcount & _).
    pose proof (wrap32_range (numFrames vi0 * multiplier d)) as Hr.
    assert (numFrames (vi d) <= INT_MAX).
    { rewrite Hcount. pose proof (v_divisor _ _ V).
      apply Z.div_le_upper_bound; unfold INT_MAX in *; nia. }
    unfold int_sub. rewrite wrap32_id; unfold INT_MIN, INT_MAX in *; lia. }
  split; [exact Hcan |]. split.
  - intros k Hreq. rewrite request_phase in Hreq. cbn [fst snd] in Hreq.
    apply requested_inv in Hreq as [[-> _] | [(Hcan' & _) | (_ & _ & Hpsnr)]];
      [reflexivity | congruence | discriminate Hpsnr].
  - intros src0 H0 r. subst r. rewrite (resume_plan_copy _ _ _ _ _ _ Hcan H0). cbn [fst snd].
    destruct (plan_copy_log_quiet d n) as (Hq & Hcopy & Hf).
    repeat split; try assumption.
    + apply rescaleDuration_planes.
    + intros k Hk. apply (Hf k node Hk).
Qed.

(** C3. For an accepted configuration, when a candidate interpolation
    point is evaluated the resume phase acts as the specified decision says:
    on PASSTHROUGH it returns a copy of the first source frame of the pair
    (the one at the source index), fetches no other source frame and does
    not call the engine; on SYNTHESIZE it returns the engine's frame.  An
    enabled, true scene-change flag gives PASSTHROUGH whatever the score;
    otherwise, with skip-by-metric enabled, a score at or above the
    threshold, equality included, gives PASSTHROUGH. *)
Theorem skip_decision (args : VSMap) (vi0 : VSVideoInfo) (env : Env)
    (d : RIFEData) (n : Z) {Planes : Type} (blank : Planes)
    (process : Planes -> Planes -> float32 -> Planes)
    (host : Clip -> Z -> option (VSFrame Planes))
    (src0 : VSFrame Planes) (score : float) :
  rifeCreate args vi0 env = OutRIFE d ->
  canInterpolate d n = true ->
  host node (frameNum d n) = Some src0 ->
  (skip d = true ->
   exists pf, host psnr (frameNum d n) = Some pf /\
              mapGetFloat (props pf) "psnr_y" 0 = inr score) ->
  let r := run (rifeGetFrame blank process host n arAllFramesReady d) in
  let flag := mapGetBool (props src0) "_SceneChangeNext" in
  let decision :=
    SkipDecision_spec (sceneChange d) flag (skip d) score (skip_threshold d) in
  match decision with
  | PASSTHROUGH =>
      fst r = Some (Some (rescaleDuration d src0)) /\
      planes (rescaleDuration d src0) = planes src0 /\
      In EvCopyFrame (snd r) /\
      engine_called (snd r) = false /\
      (forall k, fetched k node (snd r) -> k = frameNum d n)
  | SYNTHESIZE =>
      forall src1, host node (int_add (frameNum d n) 1) = Some src1 ->
        fst r = Some (Some (rescaleDuration d (synthesized process d n src0 src1))) /\
        engine_called (snd r) = true
  end /\
  (sceneChange d = true -> flag = true -> decision = PASSTHROUGH) /\
  (sceneChange d && flag = false -> skip d = true ->
   ((skip_threshold d <=? score)%float = true -> decision = PASSTHROUGH) /\
   ((skip_threshold d =? score)%float = true -> decision = PASSTHROUGH) /\
   ((skip_threshold d <=? score)%float = false -> decision = SYNTHESIZE)) /\
  (sceneChange d && flag = false -> skip d = false -> decision = SYNTHESIZE).
Proof.
  intros Hc Hcan H0 Hm r flag decision. apply rifeCreate_validated in Hc as V.
  pose proof (resume_candidate blank process host d n src0 score Hcan H0 Hm) as Hres.
  rewrite (comparison_validated _ _ score V), read_sceneChange_and in Hres.
  fold flag in Hres.
  split.
  - unfold decision, SkipDecision_spec.
    destruct (sceneChange d && flag); simpl in *.
    + subst r. rewrite Hres. cbn [fst snd].
      destruct (skip_copy_log_quiet d n) as (Hq & Hcopy & Hf & _).
      repeat split; try assumption. apply rescaleDuration_planes.
    + destruct (skip d && (skip_threshold d <=? score)%float).
      * subst r. rewrite Hres. cbn [fst snd].
        destruct (skip_copy_log_quiet d n) as (Hq & Hcopy & Hf & _).
        repeat split; try assumption. apply rescaleDuration_planes.
      * intros src1 H1. subst r. rewrite (Hres src1 H1). cbn [fst snd].
        split; [reflexivity | apply synthesis_log_engine].
  - unfold decision, SkipDecision_spec. split; [| split].
    + intros -> ->. reflexivity.
    + intros -> ->. simpl. split; [| split].
      * intros ->. reflexivity.
      * intros Heq. rewrite (float_eqb_leb _ _ Heq). reflexivity.
      * intros ->. reflexivity.
    + intros -> ->. reflexivity.
Qed.

(** C5, as amended. In the request phase the metric frame at the source
    index is requested exactly when skip-by-metric is enabled, whether or
    not a second source frame is needed; no other metric frame is ever
    requested. *)
Theorem metric_requested_iff_skip (d : RIFEData) (n : Z) {Planes : Type}
    (blank : Planes) (process : Planes -> Planes -> float32 -> Planes)
    (host : Clip -> Z -> option (VSFrame Planes)) :
  let log := snd (run (rifeGetFrame blank process host n arInitial d)) in
  (requested (frameNum d n) psnr log <-> skip d = true) /\
  (forall k, requested k psnr log -> k = frameNum d n).
Proof.
  intros log. subst log. rewrite request_phase. cbn [fst snd]. split; [split |].
  - intros H. apply requested_inv in H as [[_ H] | [(_ & _ & H) | (Hs & _)]];
      [discriminate H | discriminate H | exact Hs].
  - intros Hs. unfold requested, request_log. rewrite Hs.
    rewrite !in_app_iff. right. right. left. reflexivity.
  - intros k H. apply requested_inv in H as [[_ H] | [(_ & _ & H) | (_ & Hk & _)]];
      [discriminate H | discriminate H | exact Hk].
Qed.

(** C6, as amended. The scene-change flag consulted for a candidate pair
    is [_SceneChangeNext] attached to the first source frame (the one at
    the source index), and the similarity score is [psnr_y] of the metric
    frame at the same index; the second source frame only supplies pixels
    to the engine, its properties are never read.  The engine is skipped
    exactly when that flag is set (with detection enabled) or that score
    reaches the threshold (with skip-by-metric enabled), whatever the
    second frame is. *)
Theorem decision_reads_first_frame (args : VSMap) (vi0 : VSVideoInfo)
    (env : Env) (d : RIFEData) (n : Z) {Planes : Type} (blank : Planes)
    (process : Planes -> Planes -> float32 -> Planes)
    (host : Clip -> Z -> option (VSFrame Planes))
    (src0 src1 : VSFrame Planes) (score : float) :
  rifeCreate args vi0 env = OutRIFE d ->
  canInterpolate d n = true ->
  host node (frameNum d n) = Some src0 ->
  host node (int_add (frameNum d n) 1) = Some src1 ->
  (skip d = true ->
   exists pf, host psnr (frameNum d n) = Some pf /\
              mapGetFloat (props pf) "psnr_y" 0 = inr score) ->
  let r := run (rifeGetFrame blank process host n arAllFramesReady d) in
  (engine_called (snd r) = false <->
   (sceneChange d = true /\ mapGetBool (props src0) "_SceneChangeNext" = true) \/
   (skip d = true /\ (skip_threshold d <=? score)%float = true)) /\
  (forall k, fetched k psnr (snd r) -> k = frameNum d n) /\
  (exists dst, fst r = Some (Some dst) /\ props dst = props (rescaleDuration d src0)).
Proof.
  intros Hc Hcan H0 H1 Hm r. apply rifeCreate_validated in Hc as V.
  pose proof (resume_candidate blank process host d n src0 score Hcan H0 Hm) as Hres.
  rewrite (comparison_validated _ _ score V), read_sceneChange_and in Hres.
  destruct (sceneChange d && mapGetBool (props src0) "_SceneChangeNext"
            || skip d && (skip_threshold d <=? score)%float) eqn:Hdec.
  - subst r. rewrite Hres. cbn [fst snd].
    destruct (skip_copy_log_quiet d n) as (Hq & _ & _ & Hp).
    split; [| split].
    + split; [intros _ | intros _; exact Hq].
      apply orb_true_iff in Hdec as [Hd | Hd]; apply andb_true_iff in Hd; auto.
    + intros k Hk. apply (Hp k Hk).
    + eexists. split; reflexivity.
  - specialize (Hres src1 H1). subst r. rewrite Hres. cbn [fst snd].
    destruct (synthesis_log_engine d n) as (Hq & _ & _).
    split; [| split].
    + split; [intros Hne; congruence |].
      apply orb_false_iff in Hdec as [Hd1 Hd2].
      intros [[Ha Hb] | [Ha Hb]]; rewrite Ha, Hb in *; discriminate.
    + unfold synthesis_log, metric_fetch, metric_frame, fetched.
      intros k Hk. destruct (skip d); simpl in Hk;
        repeat match goal with
               | H : _ \/ _ |- _ => destruct H as [H | H]
               | H : False |- _ => destruct H
               | H : _ = _ :> Event |- _ => (discriminate H) || (injection H as <-)
               end; reflexivity.
    + eexists. split; [reflexivity |].
      apply rescaleDuration_props. reflexivity.
Qed.

(** C10. With skip-by-metric disabled the score keeps its initial value
    [-1.0] and no metric frame is fetched; a threshold accepted by
    [rifeCreate] never compares at or below [-1.0], so a candidate is
    passed through exactly when scene detection is enabled and the flag of
    the first frame is set, and is synthesized otherwise. *)
Theorem skip_disabled_only_scene_change (args : VSMap) (vi0 : VSVideoInfo)
    (env : Env) (d : RIFEData) (n : Z) {Planes : Type} (blank : Planes)
    (process : Planes -> Planes -> float32 -> Planes)
    (host : Clip -> Z -> option (VSFrame Planes))
    (src0 src1 : VSFrame Planes) :
  rifeCreate args vi0 env = OutRIFE d ->
  skip d = false ->
  canInterpolate d n = true ->
  host node (frameNum d n) = Some src0 ->
  host node (int_add (frameNum d n) 1) = Some src1 ->
  let r := run (rifeGetFrame blank process host n arAllFramesReady d) in
  run (read_psnr_y host d (frameNum d n)) = (Some (None, (-1)%float), []) /\
  (skip_threshold d <=? -1)%float = false /\
  (if sceneChange d && mapGetBool (props src0) "_SceneChangeNext"
   then fst r = Some (Some (rescaleDuration d src0)) /\ engine_called (snd r) = false
   else fst r = Some (Some (rescaleDuration d (synthesized process d n src0 src1))) /\
        engine_called (snd r) = true).
Proof.
  intros Hc Hs Hcan H0 H1 r. apply rifeCreate_validated in Hc as V.
  assert (Hm : skip d = true ->
               exists pf, host psnr (frameNum d n) = Some pf /\
                          mapGetFloat (props pf) "psnr_y" 0 = inr 0%float)
    by (rewrite Hs; discriminate).
  pose proof (resume_candidate blank process host d n src0 _ Hcan H0 Hm) as Hres.
  rewrite (comparison_validated _ _ _ V), read_sceneChange_and, Hs in Hres.
  rewrite andb_false_l, orb_false_r in Hres.
  split; [| split].
  - run_log. rewrite Hs. reflexivity.
  - apply sentinel_below_threshold; [apply (v_threshold_lo _ _ V) | apply (v_threshold_hi _ _ V)].
  - destruct (sceneChange d && mapGetBool (props src0) "_SceneChangeNext").
    + subst r. rewrite Hres. cbn [fst snd]. split; [reflexivity | apply skip_copy_log_quiet].
    + subst r. rewrite (Hres src1 H1). cbn [fst snd].
      split; [reflexivity | apply synthesis_log_engine].
Qed.

(* ===================================================================== *)
(** ** Duration metadata                                                  *)
(* ===================================================================== *)

(** The rescaled rational is the exact product, in lowest terms, with a
    positive denominator. *)
Lemma muldivRational_exact (num den mul div : Z) :
  0 < den -> 0 < div ->
  let '(a, b) := muldivRational num den mul div in
  a * (den * div) = b * (num * mul) /\ Z.gcd a b = 1 /\ 0 < b.
Proof.
  intros Hden Hdiv. unfold muldivRational.
  set (A := num * mul). set (B := den * div).
  assert (HB : 0 < B) by (subst B; nia).
  set (g := Z.gcd A B).
  assert (Hg : 0 < g).
  { pose proof (Z.gcd_nonneg A B) as Hnn. fold g in Hnn.
    destruct (Z.eq_dec g 0) as [Hz | Hz]; [| lia].
    apply Z.gcd_eq_0_r in Hz. lia. }
  assert (HA' : A = g * (A / g)).
  { apply Z.div_exact; [lia |]. apply Z.mod_divide; [lia | apply Z.gcd_divide_l]. }
  assert (HB' : B = g * (B / g)).
  { apply Z.div_exact; [lia |]. apply Z.mod_divide; [lia | apply Z.gcd_divide_r]. }
  split; [| split].
  - rewrite HA' at 2. rewrite HB' at 1. ring.
  - apply Z.gcd_div_gcd; [lia | reflexivity].
  - nia.
Qed.

Lemma mapGetInt_set_same (m : VSMap) (key : string) (v : Z) :
  mapGetInt (mapSetInt m key v) key 0 = inr v.
Proof. unfold mapGetInt, mapSetInt. cbv zeta. rewrite lookup_insert_eq. reflexivity. Qed.

Lemma mapGetInt_set_other (m : VSMap) (key key' : string) (v : Z) :
  key <> key' ->
  mapGetInt (mapSetInt m key v) key' 0 = mapGetInt m key' 0.
Proof.
  intros Hne. unfold mapGetInt, mapSetInt. cbv zeta.
  rewrite lookup_insert_ne by exact Hne. reflexivity.
Qed.

(** Whatever branch produced it, the returned frame is the rescaling of a
    frame that carries the properties of the first source frame. *)
Lemma resume_result {Planes : Type} (blank : Planes)
    (process : Planes -> Planes -> float32 -> Planes)
    (host : Clip -> Z -> option (VSFrame Planes)) (d : RIFEData) (n : Z)
    (dst : VSFrame Planes) (log : list Event) :
  run (rifeGetFrame blank process host n arAllFramesReady d) = (Some (Some dst), log) ->
  exists src0 pre,
    host node (frameNum d n) = Some src0 /\
    dst = rescaleDuration d pre /\
    props pre = props src0.
Proof.
  run_log.
  destruct (host node (frameNum d n)) as [src0 |]; [| discriminate].
  intros H. exists src0.
  destruct (canInterpolate d n).
  - destruct (skip d).
    + destruct (host psnr (frameNum d n)) as [pf |]; [| discriminate H].
      destruct (mapGetFloat (props pf) "psnr_y" 0) as [e | y]; [discriminate H |].
      destruct (read_sceneChange d src0 || (skip_threshold d <=? y)%float).
      * injection H as <- _. eexists. repeat split.
      * destruct (host node (int_add (frameNum d n) 1)) as [src1 |]; [| discriminate H].
        injection H as <- _. eexists. repeat split.
    + destruct (read_sceneChange d src0 || (skip_threshold d <=? -1)%float).
      * injection H as <- _. eexists. repeat split.
      * destruct (host node (int_add (frameNum d n) 1)) as [src1 |]; [| discriminate H].
        injection H as <- _. eexists. repeat split.
  - injection H as <- _. eexists. repeat split.
Qed.

(** C8. For an accepted configuration and every frame the resume phase
    produces, on whichever branch: when the first source frame carries both
    [_DurationNum] and [_DurationDen], the produced frame carries the same
    properties with these two replaced by the rational
    [old * divisor / multiplier] computed over the integers, in lowest
    terms and with a positive denominator (for a positive old denominator);
    when either is absent the properties are those of the source frame,
    unchanged. *)
Theorem duration_rescaled (args : VSMap) (vi0 : VSVideoInfo) (env : Env)
    (d : RIFEData) (n : Z) {Planes : Type} (blank : Planes)
    (process : Planes -> Planes -> float32 -> Planes)
    (host : Clip -> Z -> option (VSFrame Planes))
    (dst : VSFrame Planes) (log : list Event) :
  rifeCreate args vi0 env = OutRIFE d ->
  run (rifeGetFrame blank process host n arAllFramesReady d) = (Some (Some dst), log) ->
  exists src0,
    host node (frameNum d n) = Some src0 /\
    match mapGetInt (props src0) "_DurationNum" 0,
          mapGetInt (props src0) "_DurationDen" 0 with
    | inr num, inr den =>
        exists num' den',
          props dst = mapSetInt (mapSetInt (props src0) "_DurationNum" num')
                        "_DurationDen" den' /\
          mapGetInt (props dst) "_DurationNum" 0 = inr num' /\
          mapGetInt (props dst) "_DurationDen" 0 = inr den' /\
          (0 < den ->
           num' * (den * multiplier d) = den' * (num * divisor d) /\
           Z.gcd num' den' = 1 /\ 0 < den')
    | _, _ => props dst = props src0
    end.
Proof.
  intros Hc Hrun. apply rifeCreate_validated in Hc as V.
  pose proof (v_multiplier _ _ V) as Hm.
  apply resume_result in Hrun as (src0 & pre & H0 & -> & Hp).
  exists src0. split; [exact H0 |].
  unfold rescaleDuration. rewrite Hp.
  destruct (mapGetInt (props src0) "_DurationNum" 0) as [e | num]; [exact Hp |].
  destruct (mapGetInt (props src0) "_DurationDen" 0) as [e | den]; [exact Hp |].
  pose proof (muldivRational_exact num den (divisor d) (multiplier d)) as Hex.
  destruct (muldivRational num den (divisor d) (multiplier d)) as [num' den'].
  exists num', den'. cbn [props]. repeat split.
  - rewrite mapGetInt_set_other by discriminate. apply mapGetInt_set_same.
  - apply mapGetInt_set_same.
  - apply Hex; lia.
  - apply Hex; lia.
  - apply Hex; lia.
Qed.

(* ===================================================================== *)
(** ** The semaphore bounds the engine calls in flight                    *)
(* ===================================================================== *)

Lemma total_insert (f : Thread -> Z) (ts : list Thread) (i : nat) (t t' : Thread) :
  ts !! i = Some t ->
  total f (<[i := t']> ts) = total f ts - f t + f t'.
Proof.
  revert i. induction ts as [| a ts IH]; intros i Hi; [discriminate Hi |].
  destruct i as [| i]; simpl in *.
  - injection Hi as ->. lia.
  - rewrite (IH i Hi). lia.
Qed.

Lemma total_le (f g : Thread -> Z) (ts : list Thread) :
  Forall (fun t => f t <= g t) ts -> total f ts <= total g ts.
Proof. induction 1; simpl; lia. Qed.


Lemma total_zero (f : Thread -> Z) (ts : list Thread) :
  Forall (fun t => f t = 0) ts -> total f ts = 0.
Proof. induction 1; simpl; lia. Qed.

Lemma guarded_app (h : Z) (l1 l2 : list Event) :
  guarded h l1 -> guarded 0 l2 -> guarded h (l1 ++ l2)%list.
Proof.
  revert h. induction l1 as [| e l1 IH]; intros h H1 H2; simpl in *.
  - subst h. exact H2.
  - destruct e; try (apply IH; assumption).
    + destruct H1 as [Hh H1]. split; [exact Hh | apply IH; assumption].
    + destruct H1 as [Hh H1]. split; [exact Hh | apply IH; assumption].
Qed.

(** Every call of [rifeGetFrame], finished or aborted, leaves a log in
    which the engine is called only between an [acquire] and the matching
    [release], and no token is kept. *)
Lemma rifeGetFrame_guarded {Planes : Type} (blank : Planes)
    (process : Planes -> Planes -> float32 -> Planes)
    (host : Clip -> Z -> option (VSFrame Planes))
    (n : Z) (reason : VSActivationReason) (d : RIFEData) :
  guarded 0 (snd (run (rifeGetFrame blank process host n reason d))).
Proof.
  run_log. destruct reason; [reflexivity | |].
  - destruct (canInterpolate d n), (skip d); reflexivity.
  - destruct (host node (frameNum d n)) as [src0 |]; [| reflexivity].
    destruct (canInterpolate d n); [| reflexivity].
    destruct (skip d).
    + destruct (host psnr (frameNum d n)) as [pf |]; [| reflexivity].
      destruct (mapGetFloat (props pf) "psnr_y" 0) as [e | y]; [reflexivity |].
      destruct (read_sceneChange d src0 || (skip_threshold d <=? y)%float);
        [reflexivity |].
      destruct (host node (int_add (frameNum d n) 1)); simpl; [lia | reflexivity].
    + destruct (read_sceneChange d src0 || (skip_threshold d <=? -1)%float);
        [reflexivity |].
      destruct (host node (int_add (frameNum d n) 1)); simpl; [lia | reflexivity].
Qed.

Lemma worker_program_guarded {Planes : Type} (blank : Planes)
    (process : Planes -> Planes -> float32 -> Planes) (d : RIFEData)
    (calls : list (@Call Planes)) :
  guarded 0 (worker_program blank process d calls).
Proof.
  induction calls as [| c calls IH]; simpl; [reflexivity |].
  apply guarded_app; [apply rifeGetFrame_guarded | exact IH].
Qed.

Lemma thread_step_ok (c c' : Z) (t t' : Thread) :
  thread_step c t c' t' ->
  thread_ok t ->
  thread_ok t' /\ c' + held t' = c + held t /\ (0 <= c -> 0 <= c').
Proof.
  unfold thread_ok.
  destruct 1 as [c rest h Hc | c q rest h | status c q rest h | c rest h
                | c e rest h Ha Hr Hp];
    simpl; intros (Hh & Hg & Hi).
  - repeat split; try lia; try assumption; try discriminate.
  - repeat split; try lia; try assumption; try apply Hg.
  - repeat split; try lia; try apply Hg; try discriminate.
  - repeat split; try lia; try apply Hg; try discriminate.
  - repeat split; try lia; try discriminate.
    destruct e; try assumption; try congruence; discriminate Hp.
Qed.

Lemma pool_step_ok (N : Z) (p p' : Pool) :
  pool_step p p' -> pool_ok N p -> pool_ok N p'.
Proof.
  unfold pool_ok, tokens_held.
  destruct 1 as [p i t t' c' Hi Hstep]. simpl. intros (Hc & Hsum & Hall).
  assert (Ht : thread_ok t) by (eapply Forall_lookup_1; eassumption).
  destruct (thread_step_ok _ _ _ _ Hstep Ht) as (Ht' & Heq & Hnn).
  repeat split.
  - auto.
  - rewrite (total_insert held _ _ _ t' Hi). lia.
  - apply Forall_insert; assumption.
Qed.

Lemma pool_ok_steps (N : Z) (p p' : Pool) :
  rtc pool_step p p' -> pool_ok N p -> pool_ok N p'.
Proof. induction 1; eauto using pool_step_ok. Qed.

Lemma start_pool_ok {Planes : Type} (blank : Planes)
    (process : Planes -> Planes -> float32 -> Planes) (d : RIFEData)
    (workers : list (list (@Call Planes))) :
  0 <= semaphore d ->
  pool_ok (semaphore d) (start_pool blank process d workers).
Proof.
  intros HN. unfold pool_ok, start_pool, tokens_held. simpl.
  assert (Hinit : Forall (fun t => thread_ok t /\ held t = 0)
            (map (fun calls => {| todo := worker_program blank process d calls;
                                  held := 0; in_call := false |}) workers)).
  { apply Forall_map, Forall_forall. intros calls _. unfold thread_ok. simpl.
    repeat split; [lia | apply worker_program_guarded | discriminate]. }
  repeat split.
  - exact HN.
  - rewrite total_zero; [lia |]. eapply Forall_impl; [exact Hinit |]. intros t [_ H]; exact H.
  - eapply Forall_impl; [exact Hinit |]. intros t [H _]; exact H.
Qed.


(* ===================================================================== *)
(** ** The test vectors, run                                              *)
(* ===================================================================== *)

(** Discharge a closed arithmetic side condition by evaluation. *)
Ltac by_evaluation :=
  cbv zeta; vm_compute;
  repeat match goal with |- _ /\ _ => split end;
  first [reflexivity | discriminate].

Lemma example_accepted (sc sk : bool) :
  rifeCreate (example_args 2 1 sc sk) (example_vi 3) example_env
  = OutRIFE (example_data sc sk).
Proof. destruct sc, sk; vm_compute; reflexivity. Qed.

(** The length check compares [numFrames / divisor] with
    [INT_MAX / multiplier]; it bounds [floor (numFrames / divisor) * multiplier],
    and bounds [numFrames * multiplier] itself only when [divisor] is 1. *)
Lemma length_check_bounds (vi0 : VSVideoInfo) (d : RIFEData) :
  Validated vi0 d ->
  numFrames vi0 <= INT_MAX ->
  (numFrames vi0 / divisor d) * multiplier d <= INT_MAX /\
  (divisor d = 1 -> numFrames vi0 * multiplier d <= INT_MAX).
Proof.
  intros V HS. pose proof (v_multiplier _ _ V) as Hm.
  pose proof (v_divisor _ _ V) as Hd. pose proof (v_frames _ _ V) as HS2.
  pose proof (v_length _ _ V) as Hlen.
  rewrite !int_div_pos in Hlen by (unfold INT_MIN, INT_MAX in *; lia).
  rewrite !quot_nonneg_div in Hlen by (unfold INT_MAX in *; lia).
  assert (Hmd : multiplier d * (INT_MAX / multiplier d) <= INT_MAX)
    by (apply Z.mul_div_le; lia).
  assert (H : (numFrames vi0 / divisor d) * multiplier d <= INT_MAX).
  { assert (0 <= numFrames vi0 / divisor d) by (apply Z.div_pos; lia).
    set (a := numFrames vi0 / divisor d) in *.
    set (b := INT_MAX / multiplier d) in *. nia. }
  split; [exact H |].
  intros H1. rewrite H1, Z.div_1_r in H. exact H.
Qed.

(** C4, the failing input. [rifeCreate] accepts a clip of 3,000,000 frames
    with [multiplier = 1000] and [divisor = 999]: the length check passes
    (3003 against 2147483), yet [numFrames * multiplier] is 3,000,000,000,
    beyond [INT_MAX]; the stored output count comes out of the wrapped
    product as -1296263 instead of 3003003. *)
Theorem overlong_clip_accepted :
  exists d,
    rifeCreate long_args long_vi example_env = OutRIFE d /\
    multiplier d = 1000 /\ divisor d = 999 /\
    INT_MAX < numFrames long_vi * multiplier d /\
    numFrames (vi d) = -1296263 /\
    (numFrames long_vi * multiplier d) / divisor d = 3003003.
Proof.
  eexists. split; [vm_compute; reflexivity |].
  repeat split; reflexivity.
Qed.

(** The mapping at output index 3 of the doubled three-frame clip. *)
Lemma timeline_mapping_witness :
  let d := example_data false false in
  frameNum d 3 = (3 * divisor d) / multiplier d /\
  remainder d 3 = (3 * divisor d) mod multiplier d /\
  0 <= remainder d 3 < multiplier d /\
  (remainder d 3 = 0 <-> (multiplier d | 3 * divisor d)) /\
  timestep d 3
  = float32_div (float32_of_int ((3 * divisor d) mod multiplier d))
      (float32_of_int (multiplier d)) /\
  SFleb float32_zero (timestep d 3) = true /\
  SFleb (timestep d 3) float32_one = true /\
  (timestep d 3 = float32_zero <-> (multiplier d | 3 * divisor d)) /\
  (SFltb (timestep d 3) float32_one = true
   <-> float32_of_int (remainder d 3) <> float32_of_int (multiplier d)) /\
  (multiplier d <= 2 ^ 24 -> SFltb (timestep d 3) float32_one = true) /\
  (multiplier d <= 2 ^ 24 -> 0 < remainder d 3 ->
   exists mz ez, timestep d 3 = S754_finite false mz ez /\ ez <= -24 /\
                 Z.abs (Zpos mz * multiplier d - remainder d 3 * 2 ^ (- ez))
                 <= multiplier d).
Proof.
  apply (timeline_mapping _ _ _ _ 3 (example_accepted false false)).
  by_evaluation.
Defined.

Lemma wide_accepted :
  rifeCreate (example_args 16777217 1 false false) (example_vi 2) example_env
  = OutRIFE wide_data.
Proof. vm_compute. reflexivity. Qed.

(** C1, the claim as stated fails: with [multiplier = 2^24 + 1] on two
    frames, output index [2^24] is a candidate with remainder [2^24]; the
    multiplier is cast to [2^24] as well, and the blend fraction handed to
    the engine is 1, not a number of [[0, 1)]. *)
Lemma blend_fraction_counterexample :
  let d := wide_data in
  let n := 16777216 in
  ~ (rifeCreate (example_args 16777217 1 false false) (example_vi 2) example_env
     = OutRIFE d ->
     0 <= n < numFrames (vi d) ->
     SFleb float32_zero (timestep d n) = true /\
     SFltb (timestep d n) float32_one = true).
Proof.
  intros d n H.
  destruct (H wide_accepted) as [_ Hlt]; [vm_compute; split; [discriminate | reflexivity] |].
  vm_compute in Hlt. discriminate Hlt.
Qed.

(** The same input, read off: an accepted candidate whose blend fraction
    is exactly 1. *)
Example scenario_blend_is_one :
  canInterpolate wide_data 16777216 = true /\
  remainder wide_data 16777216 = 16777216 /\
  float32_of_int 16777217 = float32_of_int 16777216 /\
  timestep wide_data 16777216 = float32_one.
Proof. vm_compute. repeat split; reflexivity. Qed.

(** Output index 1 of the doubled three-frame clip stays inside the source. *)
Lemma source_index_in_range_witness :
  let d := example_data false false in
  (1 * divisor d) / multiplier d < 3 /\
  frameNum d 1 < 3 /\
  (canInterpolate d 1 = true -> frameNum d 1 + 1 < 3) /\
  (forall (Planes : Type) (blank : Planes) process host k c,
      requested k c (snd (run (rifeGetFrame blank process host 1 arInitial d))) ->
      k < 3).
Proof.
  apply (source_index_in_range _ (example_vi 3) _ _ 1 (example_accepted false false));
    by_evaluation.
Defined.

(** The last output index, 5, has remainder 1 and is copied from frame [C]. *)
Lemma boundary_passthrough_witness :
  let d := example_data false false in
  let r := run (rifeGetFrame "" example_process example_host 5 arAllFramesReady d) in
  fst r = Some (Some (rescaleDuration d frame_C)) /\
  planes (rescaleDuration d frame_C) = "C" /\
  In EvCopyFrame (snd r) /\
  engine_called (snd r) = false /\
  (forall k, fetched k node (snd r) -> k = frameNum d 5).
Proof.
  refine (proj2 (proj2 (boundary_passthrough _ _ _ _ 5 "" example_process example_host
                          (example_accepted false false) _ _)) frame_C eq_refl);
    by_evaluation.
Defined.

(** Output index 3 pairs [B] with [C], which score exactly the threshold:
    the decision is PASSTHROUGH and [B] is copied. *)
Lemma skip_decision_witness :
  let d := example_data true true in
  let r := run (rifeGetFrame "" example_process example_host 3 arAllFramesReady d) in
  SkipDecision_spec (sceneChange d) (mapGetBool (props frame_B) "_SceneChangeNext")
    (skip d) 60%float (skip_threshold d) = PASSTHROUGH /\
  fst r = Some (Some (rescaleDuration d frame_B)) /\
  engine_called (snd r) = false.
Proof.
  pose proof (skip_decision _ _ _ _ 3 "" example_process example_host frame_B 60%float
                (example_accepted true true) eq_refl eq_refl
                (fun _ => ex_intro _ (metric 60%float) (conj eq_refl eq_refl))) as H.
  cbv zeta in H. destruct H as (H & _ & _ & _).
  split; [reflexivity |].
  change (SkipDecision_spec _ _ _ _ _) with PASSTHROUGH in H.
  destruct H as (H1 & _ & _ & H2 & _). split; [exact H1 | exact H2].
Defined.

(** The cut after the first frame is seen on the first frame. *)
Lemma decision_reads_first_frame_witness :
  let d := example_data true false in
  let r := run (rifeGetFrame "" example_process cut_host 1 arAllFramesReady d) in
  (engine_called (snd r) = false <->
   (sceneChange d = true /\ mapGetBool (props cut_first) "_SceneChangeNext" = true) \/
   (skip d = true /\ (skip_threshold d <=? 0)%float = true)) /\
  (forall k, fetched k psnr (snd r) -> k = frameNum d 1) /\
  (exists dst, fst r = Some (Some dst) /\ props dst = props (rescaleDuration d cut_first)).
Proof.
  apply (decision_reads_first_frame _ _ _ _ 1 "" example_process cut_host
           cut_first cut_second 0%float (example_accepted true false));
    try reflexivity.
  intros H. discriminate H.
Defined.

(** With skip-by-metric off, the cut alone decides. *)
Lemma skip_disabled_only_scene_change_witness :
  let d := example_data true false in
  let r := run (rifeGetFrame "" example_process cut_host 1 arAllFramesReady d) in
  run (read_psnr_y cut_host d (frameNum d 1)) = (Some (None, (-1)%float), []) /\
  (skip_threshold d <=? -1)%float = false /\
  (if sceneChange d && mapGetBool (props cut_first) "_SceneChangeNext"
   then fst r = Some (Some (rescaleDuration d cut_first)) /\ engine_called (snd r) = false
   else fst r = Some (Some (rescaleDuration d
                              (synthesized example_process d 1 cut_first cut_second))) /\
        engine_called (snd r) = true).
Proof.
  apply (skip_disabled_only_scene_change _ _ _ _ 1 "" example_process cut_host
           cut_first cut_second (example_accepted true false));
    reflexivity.
Defined.

(** The frame synthesized between [A] and [B] gets the duration of [A],
    rescaled. *)
Lemma duration_rescaled_witness :
  let d := example_data false false in
  exists src0,
    example_host node (frameNum d 1) = Some src0 /\
    match mapGetInt (props src0) "_DurationNum" 0,
          mapGetInt (props src0) "_DurationDen" 0 with
    | inr num, inr den =>
        exists num' den',
          props (rescaleDuration d (synthesized example_process d 1 frame_A frame_B))
          = mapSetInt (mapSetInt (props src0) "_DurationNum" num') "_DurationDen" den' /\
          mapGetInt (props (rescaleDuration d (synthesized example_process d 1 frame_A frame_B)))
            "_DurationNum" 0 = inr num' /\
          mapGetInt (props (rescaleDuration d (synthesized example_process d 1 frame_A frame_B)))
            "_DurationDen" 0 = inr den' /\
          (0 < den ->
           num' * (den * multiplier d) = den' * (num * divisor d) /\
           Z.gcd num' den' = 1 /\ 0 < den')
    | _, _ =>
        props (rescaleDuration d (synthesized example_process d 1 frame_A frame_B))
        = props src0
    end.
Proof.
  apply (duration_rescaled _ _ _ _ 1 "" example_process example_host _
           (synthesis_log (example_data false false) 1)
           (example_accepted false false)).
  vm_compute. reflexivity.
Defined.

(** C5, the claim as stated fails: with skip-by-metric enabled, output
    frame 0 coincides with source frame 0, needs no second source frame,
    and still has its metric frame requested. *)
Lemma metric_request_counterexample :
  let d := example_data false true in
  let log := snd (run (rifeGetFrame "" example_process example_host 0 arInitial d)) in
  ~ (requested (frameNum d 0) psnr log <-> skip d = true /\ canInterpolate d 0 = true).
Proof.
  intros d log [H _].
  assert (Hreq : requested (frameNum d 0) psnr log).
  { vm_compute. right. left. reflexivity. }
  destruct (H Hreq) as [_ Hcan]. vm_compute in Hcan. discriminate Hcan.
Qed.

(** C6, the claim as stated fails: the first frame of the pair carries
    [_SceneChangeNext] and the second frame carries no property at all, so
    no flag can be read from the second frame; the candidate is passed
    through all the same. *)
Lemma scene_flag_counterexample :
  let d := example_data true false in
  let r := run (rifeGetFrame "" example_process cut_host 1 arAllFramesReady d) in
  ~ (exists key,
        engine_called (snd r) = false <-> mapGetBool (props cut_second) key = true).
Proof.
  intros d r [key [H _]].
  assert (Hq : engine_called (snd r) = false) by (vm_compute; reflexivity).
  specialize (H Hq). unfold mapGetBool, mapGetInt, cut_second in H.
  cbn [props] in H. rewrite lookup_empty in H. discriminate H.
Qed.

(** One move of thread [i], its step built by [tac]. *)
Ltac pool_move i tac :=
  eapply rtc_l;
  [ eapply (pool_step_thread _ i); [lazy; reflexivity | lazy; tac] | lazy ].

Ltac move_other i :=
  pool_move i ltac:(apply step_other; [discriminate | discriminate | reflexivity]).

(** The two example workers can reach [busy_pool]: the first takes the only
    token and enters the engine, the second stops before [acquire]. *)
Lemma busy_pool_reachable :
  rtc pool_step
    (start_pool "" example_process (example_data false false) example_workers)
    busy_pool.
Proof.
  do 3 move_other 0%nat.
  pool_move 0%nat ltac:(apply step_acquire; reflexivity).
  pool_move 0%nat ltac:(apply step_enter).
  do 3 move_other 1%nat.
  apply rtc_refl.
Qed.

(** In [busy_pool] the second worker cannot acquire: the only step left to
    the pool is the first worker leaving the engine. *)
Lemma busy_pool_blocks :
  forall p', pool_step busy_pool p' ->
             exists t', p' = {| tokens := 0; threads := <[0%nat := t']> (threads busy_pool) |}.
Proof.
  intros p' Hstep. inversion Hstep as [p i t t' c' Hi Hth]; subst.
  destruct i as [| [| i]]; simpl in Hi.
  - injection Hi as <-. inversion Hth; subst; simpl in *; try discriminate.
    eexists. reflexivity.
  - injection Hi as <-. inversion Hth; subst; simpl in *; try discriminate; try lia.
    congruence.
  - discriminate Hi.
Qed.


(* ===================================================================== *)
(** ** The scenarios of the specification, evaluated                      *)
(* ===================================================================== *)

(** Three frames doubled: output indices 0..5 map to source 0, 0, 1, 1, 2, 2
    with remainders 0, 1, 0, 1, 0, 1; indices 1 and 3 are interpolated and
    index 5 is held back by the boundary test. *)
Example scenario_plan :
  let d := example_data false false in
  map (fun n => (frameNum d n, remainder d n, canInterpolate d n)) [0; 1; 2; 3; 4; 5]
  = [(0, 0, false); (0, 1, true); (1, 0, false); (1, 1, true);
     (2, 0, false); (2, 1, false)].
Proof. reflexivity. Qed.

(** Durations of 1/24 become 1/48, on a copied frame and on a synthesized
    one; a frame without duration properties gets none. *)
Example scenario_durations :
  let d := example_data false false in
  let out n := fst (run (rifeGetFrame "" example_process example_host n
                           arAllFramesReady d)) in
  out 0 = Some (Some {| planes := "A";
                        props := <["_DurationNum" := PInt [1]]>
                                   (<["_DurationDen" := PInt [48]]> ∅) |}) /\
  out 1 = Some (Some {| planes := "AB";
                        props := <["_DurationNum" := PInt [1]]>
                                   (<["_DurationDen" := PInt [48]]> ∅) |}) /\
  out 5 = Some (Some frame_C).
Proof. vm_compute. repeat split; reflexivity. Qed.

(** Threshold 60: a score of 59.9 synthesizes, a score of 60.0 passes the
    first frame through. *)
Example scenario_threshold :
  let d := example_data false true in
  let r n := run (rifeGetFrame "" example_process example_host n
                    arAllFramesReady d) in
  engine_called (snd (r 1)) = true /\
  engine_called (snd (r 3)) = false /\
  (planes <$> fst (r 3) ≫= id) = Some "B".
Proof. vm_compute. repeat split; reflexivity. Qed.

(** Rejected configurations and their messages. *)
Example scenario_rejected :
  rifeCreate (example_args 1 1 false false) (example_vi 3) example_env
  = OutError "RIFE: multiplier must be greater than 1" /\
  rifeCreate (example_args 2 0 false false) (example_vi 3) example_env
  = OutError "RIFE: divisor must be greater than 0" /\
  rifeCreate (<["gpu_thread" := PInt [5]]> (example_args 2 1 false false))
    (example_vi 3) example_env
  = OutError "RIFE: " /\
  rifeCreate (<["skip_threshold" := PFloat [60.5%float]]> (example_args 2 1 false true))
    (example_vi 3) example_env
  = OutError "RIFE: skip_threshold must be between 0.0 and 60.0 (inclusive)" /\
  rifeCreate (example_args 2 1 false false) (example_vi 1) example_env
  = OutError "RIFE: clip's number of frames must be at least 2" /\
  rifeCreate (example_args 2 1 false false) (example_vi 1073741824) example_env
  = OutError "RIFE: resulting clip is too long" /\
  rifeCreate (<["model" := PInt [5]]> (example_args 3 1 false false))
    (example_vi 3) example_env
  = OutError "RIFE: only rife-v4 model supports custom multiplier".
Proof. vm_compute. repeat split; reflexivity. Qed.

(** A NaN threshold passes the range check, both comparisons being false. *)
Example scenario_nan_threshold :
  exists d,
    rifeCreate (<["skip_threshold" := PFloat [nan]]> (example_args 2 1 false true))
      (example_vi 3) example_env = OutRIFE d /\
    PrimFloat.is_nan (skip_threshold d) = true.
Proof. eexists. split; vm_compute; reflexivity. Qed.

(* ===================================================================== *)
(** ** More on [rifeCreate]                                               *)
(* ===================================================================== *)

Lemma rifeCreate_body_accepted (args : VSMap) (vi0 : VSVideoInfo) (env : Env)
    (d : RIFEData) (r : Create RIFEData) :
  rifeCreate_body args vi0 env = r ->
  r = inr d \/ r = inl (Return (OutRIFE d)) ->
  Accepted args vi0 env d.
Proof.
  intros H Hr. unfold rifeCreate_body in H. cbv zeta in H.
  assert (Hne : forall e, r <> inl (Throw e)) by (destruct Hr; congruence).
  assert (Hne' : forall e, r <> inl (Return (OutError e))) by (destruct Hr; congruence).
  assert (Hne'' : forall e, r <> inl (Return (OutText e))) by (destruct Hr; congruence).
  repeat (apply bind_throw_if in H as [[_ H] | [? H]]; [exfalso; eapply Hne; exact H |]).
  destruct (mapGetBool args "list_gpu") eqn:Hlist.
  { simpl in H. unfold invoke in H.
    destruct (invoke_error env "Text"); simpl in H; exfalso;
      [eapply Hne' | eapply Hne'']; symmetry; exact H. }
  simpl in H.
  repeat (apply bind_throw_if in H as [[_ H] | [? H]]; [exfalso; eapply Hne; exact H |]).
  destruct (model_family _) as [[v2 v4] |] eqn:Hfam;
    cbn [mbind create_bind mret create_ret throw] in H;
    [| exfalso; eapply Hne; symmetry; exact H].
  repeat (apply bind_throw_if in H as [[_ H] | [? H]]; [exfalso; eapply Hne; exact H |]).
  assert (Hrest : forall k : unit -> Create RIFEData,
             ((if mapGetBool args "skip"
               then throw_if (negb (vmaf env)) "VMAF plugin is required when skip=True" ;;
                    invoke env "Bicubic" ;; invoke env "DuplicateFrames" ;;
                    invoke env "Trim" ;; invoke env "Metric"
               else mret tt) ≫= k) = r ->
             k tt = r /\ (mapGetBool args "skip" = true -> vmaf env = true)).
  { intros k Hk. destruct (mapGetBool args "skip"); [| split; [exact Hk | discriminate]].
    unfold invoke in Hk.
    destruct (vmaf env); simpl in Hk; [| exfalso; eapply Hne; symmetry; exact Hk].
    repeat match type of Hk with
           | context [invoke_error env ?fn] =>
               destruct (invoke_error env fn); simpl in Hk;
               [exfalso; eapply Hne'; symmetry; exact Hk |]
           end.
    split; [exact Hk | reflexivity]. }
  apply Hrest in H as [H Hvmaf]. clear Hrest.
  change (mret ?x = r) with (inr x = r) in H.
  assert (Hd : r = inr d) by (destruct Hr as [-> | ->]; [reflexivity | discriminate H]).
  rewrite Hd in H. injection H as <-.
  repeat match goal with
         | Hc : (_ || _) = false |- _ => apply orb_false_iff in Hc as [? ?]
         | Hc : negb _ = false |- _ => apply negb_false_iff in Hc
         end.
  constructor; cbn [multiplier divisor sceneChange skip skip_threshold rife semaphore vi
                    gpuid tta_mode uhd_mode num_threads rife_v2 rife_v4 modeldir
                    format width height]; try reflexivity; try assumption; try lia.
  all: lazymatch goal with
       | |- format_supported _ _ = true =>
           unfold format_supported;
           repeat match goal with
                  | Hc : ?x = true |- context [?x] => rewrite Hc
                  end; reflexivity
       | |- create_gpu_instance _ = 0 => apply Z.eqb_eq; assumption
       | |- model_family _ = _ => exact Hfam
       | |- _ = false -> _ /\ _ =>
           intros ->; simpl in *;
           repeat match goal with
                  | Hc : (_ || _) = false |- _ => apply orb_false_iff in Hc as [? ?]
                  | Hc : negb (_ =? _) = false |- _ =>
                      apply negb_false_iff, Z.eqb_eq in Hc
                  end; split; assumption
       | |- _ = true -> _ = false => intros ->; simpl in *; assumption
       | |- _ => repeat split
       end.
Qed.

Lemma rifeCreate_accepted (args : VSMap) (vi0 : VSVideoInfo) (env : Env) (d : RIFEData) :
  rifeCreate args vi0 env = OutRIFE d -> Accepted args vi0 env d.
Proof.
  intros H. unfold rifeCreate in H.
  destruct (rifeCreate_body args vi0 env) as [[e | o] | d'] eqn:Hb; [discriminate H | |].
  - subst o. eapply rifeCreate_body_accepted; [exact Hb | auto].
  - injection H as ->. eapply rifeCreate_body_accepted; [exact Hb | auto].
Qed.

(** How the body of [rifeCreate] can end: a thrown message, the error of an
    invoked host function passed on, the GPU listing, or the filter data. *)
Lemma rifeCreate_body_cases (args : VSMap) (vi0 : VSVideoInfo) (env : Env)
    (r : Create RIFEData) :
  rifeCreate_body args vi0 env = r ->
  (exists e, r = inl (Throw e)) \/
  (exists fn msg, r = inl (Return (OutError msg)) /\
                  In fn ["Text"; "Bicubic"; "DuplicateFrames"; "Trim"; "Metric"] /\
                  invoke_error env fn = Some msg) \/
  (r = inl (Return (OutText (list_gpu_text env))) /\
   mapGetBool args "list_gpu" = true /\
   invoke_error env "Text" = None /\
   format_supported env vi0 = true /\
   create_gpu_instance env = 0 /\
   2 <= orDefault (mapGetIntSaturated args "multiplier" 0) 2 /\
   1 <= orDefault (mapGetIntSaturated args "divisor" 0) 1 /\
   1 <= get_gpu_count env /\
   2 <= numFrames vi0) \/
  (exists d, r = inr d).
Proof.
  intros H. unfold rifeCreate_body in H. cbv zeta in H.
  repeat (apply bind_throw_if in H as [[_ H] | [? H]]; [left; eexists; exact H |]).
  destruct (mapGetBool args "list_gpu") eqn:Hlist.
  { right. cbn [mbind create_bind] in H. unfold invoke in H.
    destruct (invoke_error env "Text") as [msg |] eqn:Htext; simpl in H.
    - left. exists "Text", msg. subst r. simpl. auto.
    - right. left. subst r.
      repeat match goal with
             | Hc : (_ || _) = false |- _ => apply orb_false_iff in Hc as [? ?]
             | Hc : negb _ = false |- _ => apply negb_false_iff in Hc
             end.
      repeat split; try reflexivity; try lia.
      all: lazymatch goal with
           | |- format_supported _ _ = true =>
               unfold format_supported;
               repeat match goal with
                      | Hc : ?x = true |- context [?x] => rewrite Hc
                      end; reflexivity
           | |- create_gpu_instance _ = 0 => apply Z.eqb_eq; assumption
           end. }
  simpl in H.
  repeat (apply bind_throw_if in H as [[_ H] | [? H]]; [left; eexists; exact H |]).
  destruct (model_family _) as [[v2 v4] |] eqn:Hfam;
    cbn [mbind create_bind mret create_ret throw] in H;
    [| left; eexists; symmetry; exact H].
  repeat (apply bind_throw_if in H as [[_ H] | [? H]]; [left; eexists; exact H |]).
  destruct (mapGetBool args "skip").
  - unfold invoke in H.
    destruct (vmaf env); simpl in H; [| left; eexists; symmetry; exact H].
    destruct (invoke_error env "Bicubic") as [msg |] eqn:Hi1; simpl in H;
      [right; left; exists "Bicubic", msg; subst r; simpl; auto 10 |].
    destruct (invoke_error env "DuplicateFrames") as [msg |] eqn:Hi2; simpl in H;
      [right; left; exists "DuplicateFrames", msg; subst r; simpl; auto 10 |].
    destruct (invoke_error env "Trim") as [msg |] eqn:Hi3; simpl in H;
      [right; left; exists "Trim", msg; subst r; simpl; auto 10 |].
    destruct (invoke_error env "Metric") as [msg |] eqn:Hi4; simpl in H;
      [right; left; exists "Metric", msg; subst r; simpl; auto 10 |].
    right. right. right. eexists. symmetry. exact H.
  - right. right. right. eexists. symmetry. exact H.
Qed.



(** X2. Every error [rifeCreate] reports either starts with the prefix the
    handler adds or is, unchanged, the error of a host function it invoked. *)
Theorem error_message_origin (args : VSMap) (vi0 : VSVideoInfo) (env : Env)
    (msg : string) :
  rifeCreate args vi0 env = OutError msg ->
  String.prefix "RIFE: " msg = true \/
  exists fn, In fn ["Text"; "Bicubic"; "DuplicateFrames"; "Trim"; "Metric"] /\
             invoke_error env fn = Some msg.
Proof.
  intros H. unfold rifeCreate in H.
  destruct (rifeCreate_body_cases args vi0 env _ eq_refl)
    as [[e He] | [(fn & msg' & He & Hin & Hfn) | [(He & _) | [d He]]]];
    rewrite He in H; try discriminate H.
  - injection H as <-. left. destruct e; vm_compute; reflexivity.
  - injection H as <-. right. exists fn. split; assumption.
Qed.

(** [rifeCreate] sees its argument map only through the values it reads. *)
Lemma rifeCreate_same_reads (args args' : VSMap) (vi0 : VSVideoInfo) (env : Env) :
  same_reads env args args' ->
  rifeCreate args vi0 env = rifeCreate args' vi0 env.
Proof.
  intros (H1 & H2 & H3 & H4 & H5 & H6 & H7 & H8 & H9 & H10 & H11 & H12).
  unfold rifeCreate, rifeCreate_body. cbv zeta.
  rewrite H1, H2, H3, H4, H5, H6, H7, H8, H9, H10, H11, H12. reflexivity.
Qed.

(** X3. The parameters declared at registration are the only keys of the
    argument map that can influence [rifeCreate]: two maps that agree on
    them give the same result. *)
Theorem reads_only_declared_parameters (args args' : VSMap) (vi0 : VSVideoInfo)
    (env : Env) :
  (forall key, In key (parameter_names RIFE_args) -> args !! key = args' !! key) ->
  rifeCreate args vi0 env = rifeCreate args' vi0 env.
Proof.
  intros H. apply rifeCreate_same_reads.
  assert (Hk : forall key, In key (parameter_names RIFE_args) ->
                 mapGetInt args key 0 = mapGetInt args' key 0 /\
                 mapGetFloat args key 0 = mapGetFloat args' key 0 /\
                 mapGetData args key 0 = mapGetData args' key 0).
  { intros key Hin. unfold mapGetInt, mapGetFloat, mapGetData.
    rewrite (H key Hin). auto. }
  unfold same_reads, mapGetIntSaturated, mapGetBool.
  repeat split;
    match goal with
    | |- context [mapGetInt args ?key 0] =>
        rewrite (proj1 (Hk key ltac:(vm_compute; tauto))); reflexivity
    | |- context [mapGetFloat args ?key 0] =>
        rewrite (proj1 (proj2 (Hk key ltac:(vm_compute; tauto)))); reflexivity
    | |- context [mapGetData args ?key 0] =>
        rewrite (proj2 (proj2 (Hk key ltac:(vm_compute; tauto)))); reflexivity
    end.
Qed.

Lemma lookup_with_defaults (args : VSMap) (key : string) :
  (args ∪ default_arguments) !! key
  = match args !! key with
    | Some v => Some v
    | None => default_arguments !! key
    end.
Proof.
  rewrite lookup_union. destruct (args !! key), (default_arguments !! key); reflexivity.
Qed.

(** X4. Leaving an argument out is the same as passing its default: model 5,
    multiplier 2, divisor 1, no model path, two GPU threads, a threshold of
    60, and every flag off. *)
Theorem omitted_arguments_take_defaults (args : VSMap) (vi0 : VSVideoInfo)
    (env : Env) :
  rifeCreate (args ∪ default_arguments) vi0 env = rifeCreate args vi0 env.
Proof.
  apply rifeCreate_same_reads.
  unfold same_reads, mapGetIntSaturated, mapGetBool, mapGetInt, mapGetFloat, mapGetData.
  rewrite !lookup_with_defaults.
  repeat split;
    match goal with
    | |- context [args !! ?key] =>
        destruct (args !! key); [reflexivity | vm_compute; reflexivity]
    end.
Qed.

(* ===================================================================== *)
(** ** Model directory and model family                                   *)
(* ===================================================================== *)

Lemma prefix_nil (s : string) : String.prefix "" s = true.
Proof. destruct s; reflexivity. Qed.

Lemma prefix_cons (a b : ascii) (s1 s2 : string) :
  String.prefix (String a s1) (String b s2)
  = if Ascii.ascii_dec a b then String.prefix s1 s2 else false.
Proof. reflexivity. Qed.

Lemma prefix_app (n a b : string) :
  String.prefix n a = true -> String.prefix n (a +:+ b) = true.
Proof.
  revert a. induction n as [| c n IH]; intros a H; [apply prefix_nil |].
  destruct a as [| c' a]; [discriminate H |].
  change (String c' a +:+ b) with (String c' (a +:+ b)).
  rewrite prefix_cons in *. destruct (Ascii.ascii_dec c c'); [auto | discriminate H].
Qed.

Lemma index_cons (n : string) (c : ascii) (s : string) :
  String.index 0 n (String c s)
  = if String.prefix n (String c s) then Some 0%nat
    else match String.index 0 n s with Some i => Some (S i) | None => None end.
Proof. reflexivity. Qed.

(** A name found in a path is still found when the path is extended. *)
Lemma contains_app (a b n : string) :
  contains a n = true -> contains (a +:+ b) n = true.
Proof.
  unfold contains. induction a as [| c a IH]; intros H.
  - destruct n as [| c n]; [| discriminate H].
    destruct b; reflexivity.
  - change (String c a +:+ b) with (String c (a +:+ b)).
    rewrite index_cons in *.
    destruct (String.prefix n (String c a)) eqn:Hp.
    + change (String c (a +:+ b)) with (String c a +:+ b).
      rewrite (prefix_app _ _ b Hp). reflexivity.
    + destruct (String.prefix n (String c (a +:+ b))); [reflexivity |].
      destruct (String.index 0 n a); [| discriminate H].
      specialize (IH eq_refl). destruct (String.index 0 n (a +:+ b)); [reflexivity | discriminate IH].
Qed.

Lemma rfind_app (dir file : string) :
  rfind "/"%char file = None ->
  rfind "/"%char (dir +:+ "/" +:+ file) = Some (String.length dir).
Proof.
  intros Hfile. induction dir as [| c dir IH].
  - change (rfind "/"%char (String "/"%char file) = Some 0%nat).
    cbn [rfind]. rewrite Hfile. reflexivity.
  - change (rfind "/"%char (String c (dir +:+ "/" +:+ file))
            = Some (S (String.length dir))).
    cbn [rfind]. rewrite IH. reflexivity.
Qed.

Lemma substring_app (dir rest : string) :
  String.substring 0 (String.length dir) (dir +:+ rest) = dir.
Proof.
  induction dir as [| c dir IH]; simpl.
  - destruct rest; reflexivity.
  - rewrite IH. reflexivity.
Qed.

(** [dirname] drops the file name after the last slash, and keeps a path
    without any slash whole. *)
Lemma dirname_app (dir file : string) :
  rfind "/"%char file = None -> dirname (dir +:+ "/" +:+ file) = dir.
Proof.
  intros Hfile. unfold dirname. rewrite (rfind_app dir file Hfile).
  apply substring_app.
Qed.

(** X5. When no [model_path] is given the model directory is
    [models/<family>] beside the plugin file, and [flownet.param] in that
    directory is the file that was opened; a plugin path without any slash
    is used whole in place of its directory. *)
Theorem builtin_model_directory (args : VSMap) (vi0 : VSVideoInfo) (env : Env)
    (d : RIFEData) :
  rifeCreate args vi0 env = OutRIFE d ->
  orDefault (mapGetData args "model_path" 0) "" = "" ->
  let model := orDefault (mapGetIntSaturated args "model" 0) 5 in
  0 <= model <= 9 /\
  (forall dir file,
      pluginPath env = dir +:+ "/" +:+ file -> rfind "/"%char file = None ->
      modeldir (rife d) = dir +:+ "/models" +:+ model_suffix model /\
      ifs_is_open env ((dir +:+ "/models" +:+ model_suffix model) +:+ "/flownet.param")
      = true) /\
  (rfind "/"%char (pluginPath env) = None ->
   modeldir (rife d) = pluginPath env +:+ "/models" +:+ model_suffix model).
Proof.
  intros Hc Hpath model. apply rifeCreate_accepted in Hc as A.
  pose proof (a_modeldir _ _ _ _ A) as Hdir. pose proof (a_file _ _ _ _ A) as Hfile.
  rewrite Hpath in Hdir. cbn [String.eqb] in Hdir. fold model in Hdir.
  split; [apply (a_model _ _ _ _ A) |]. split.
  - intros dir file Hpp Hnone. rewrite Hpp, (dirname_app _ _ Hnone) in Hdir.
    split; [exact Hdir | rewrite <- Hdir; exact Hfile].
  - intros Hnone. unfold dirname in Hdir. rewrite Hnone in Hdir. exact Hdir.
Qed.

(** X6. The model family is read off the whole directory path, [rife-v2] and
    [rife-v3] first.  So with no [model_path] given, a plugin installed
    under a directory whose path contains [rife-v2] never runs as rife-v4,
    whatever [model] says, and accepts no ratio but 2/1. *)
Theorem plugin_directory_decides_family (args : VSMap) (vi0 : VSVideoInfo)
    (env : Env) (d : RIFEData) :
  rifeCreate args vi0 env = OutRIFE d ->
  orDefault (mapGetData args "model_path" 0) "" = "" ->
  contains (dirname (pluginPath env)) "rife-v2" = true ->
  rife_v2 (rife d) = true /\ rife_v4 (rife d) = false /\
  multiplier d = 2 /\ divisor d = 1.
Proof.
  intros Hc Hpath Hin. apply rifeCreate_accepted in Hc as A.
  pose proof (a_modeldir _ _ _ _ A) as Hdir. pose proof (a_family _ _ _ _ A) as Hfam.
  rewrite Hpath in Hdir. cbn [String.eqb] in Hdir.
  assert (Hc2 : contains (modeldir (rife d)) "rife-v2" = true).
  { rewrite Hdir. apply contains_app. exact Hin. }
  unfold model_family in Hfam. rewrite Hc2 in Hfam. injection Hfam as Hv2 Hv4.
  repeat split; try congruence; apply (a_ratio _ _ _ _ A); congruence.
Qed.

(** X7. A ratio other than 2/1 is accepted only with a model directory whose
    path names [rife-v4] and neither [rife-v2] nor [rife-v3], and then
    without TTA; the engine never runs as both families at once and is
    always built with one thread of its own. *)
Theorem custom_ratio_needs_v4 (args : VSMap) (vi0 : VSVideoInfo) (env : Env)
    (d : RIFEData) :
  rifeCreate args vi0 env = OutRIFE d ->
  (multiplier d <> 2 \/ divisor d <> 1 ->
   contains (modeldir (rife d)) "rife-v4" = true /\
   contains (modeldir (rife d)) "rife-v2" = false /\
   contains (modeldir (rife d)) "rife-v3" = false /\
   rife_v4 (rife d) = true /\ tta_mode (rife d) = false) /\
  rife_v2 (rife d) && rife_v4 (rife d) = false /\
  num_threads (rife d) = 1.
Proof.
  intros Hc. apply rifeCreate_accepted in Hc as A.
  pose proof (a_family _ _ _ _ A) as Hfam. pose proof (a_ratio _ _ _ _ A) as Hratio.
  pose proof (a_tta _ _ _ _ A) as Htta.
  assert (Hcases :
            rife_v4 (rife d) = false \/
            (rife_v4 (rife d) = true /\ rife_v2 (rife d) = false /\
             contains (modeldir (rife d)) "rife-v4" = true /\
             contains (modeldir (rife d)) "rife-v2" = false /\
             contains (modeldir (rife d)) "rife-v3" = false)).
  { unfold model_family in Hfam.
    destruct (contains (modeldir (rife d)) "rife-v2"); [left; congruence |].
    destruct (contains (modeldir (rife d)) "rife-v3"); [left; congruence |].
    destruct (contains (modeldir (rife d)) "rife-v4"); [right; intuition congruence |].
    destruct (negb (contains (modeldir (rife d)) "rife")); [discriminate Hfam |].
    left; congruence. }
  split; [| split; [| apply A]].
  - intros Hr. destruct Hcases as [Hf | (Hv4 & Hv2 & Hc4 & Hc2 & Hc3)].
    + destruct (Hratio Hf). lia.
    + repeat split; auto.
  - destruct Hcases as [-> | (-> & -> & _)]; [apply andb_false_r | reflexivity].
Qed.

(* ===================================================================== *)
(** ** More on [rifeGetFrame]                                             *)
(* ===================================================================== *)

(** The six ways the resume phase can run: abort on a missing source
    frame, copy by plan, abort on a missing metric, copy by decision,
    abort on a missing second frame, or synthesis. *)
Lemma resume_log_cases {Planes : Type} (blank : Planes)
    (process : Planes -> Planes -> float32 -> Planes)
    (host : Clip -> Z -> option (VSFrame Planes)) (d : RIFEData) (n : Z) :
  let r := run (rifeGetFrame blank process host n arAllFramesReady d) in
  let f := frameNum d n in
  (fst r = None /\ snd r = [EvGetFrameFilter f node]) \/
  (canInterpolate d n = false /\ fst r <> None /\ snd r = plan_copy_log d n) \/
  (canInterpolate d n = true /\ skip d = true /\ fst r = None /\
   snd r = [EvGetFrameFilter f node; EvGetFrameFilter f psnr]) \/
  (canInterpolate d n = true /\ fst r <> None /\ snd r = skip_copy_log d n) \/
  (canInterpolate d n = true /\ fst r = None /\
   snd r = ([EvGetFrameFilter f node] ++ metric_fetch d n
            ++ [EvGetFrameFilter (int_add f 1) node])%list) \/
  (canInterpolate d n = true /\ fst r <> None /\ snd r = synthesis_log d n).
Proof.
  unfold plan_copy_log, skip_copy_log, synthesis_log, metric_fetch, metric_frame.
  run_log.
  destruct (host node (frameNum d n)) as [src0 |]; [| left; split; reflexivity].
  right. destruct (canInterpolate d n); [| left; repeat split; discriminate].
  right. destruct (skip d).
  - destruct (host psnr (frameNum d n)) as [pf |]; [| left; repeat split; reflexivity].
    destruct (mapGetFloat (props pf) "psnr_y" 0) as [e | y];
      [left; repeat split; reflexivity |].
    right. destruct (read_sceneChange d src0 || (skip_threshold d <=? y)%float);
      [left; repeat split; discriminate |].
    right. destruct (host node (int_add (frameNum d n) 1));
      [right | left]; repeat split; discriminate.
  - right. destruct (read_sceneChange d src0 || (skip_threshold d <=? -1)%float);
      [left; repeat split; discriminate |].
    right. destruct (host node (int_add (frameNum d n) 1));
      [right | left]; repeat split; discriminate.
Qed.

(** Break membership in an explicit log into its cases. *)
Ltac in_cases :=
  repeat match goal with
         | H : In _ (_ ++ _)%list |- _ => apply in_app_or in H
         | H : In _ (_ :: _) |- _ => destruct H as [H | H]
         | H : In _ [] |- _ => destruct H
         | H : _ \/ _ |- _ => destruct H as [H | H]
         | H : False |- _ => destruct H
         | H : _ = _ :> Event |- _ =>
             (discriminate H) || (injection H as <- <-) || (injection H as <-)
         end.

(** X8. The resume phase only gets frames the request phase asked for: every
    [getFrameFilter] of [arAllFramesReady], also in a call that aborts,
    names a frame that [arInitial] requested for the same output index. *)
Theorem resume_fetches_were_requested {Planes : Type} (blank : Planes)
    (process : Planes -> Planes -> float32 -> Planes)
    (host host' : Clip -> Z -> option (VSFrame Planes)) (d : RIFEData)
    (n k : Z) (c : Clip) :
  fetched k c (snd (run (rifeGetFrame blank process host n arAllFramesReady d))) ->
  requested k c (snd (run (rifeGetFrame blank process host' n arInitial d))).
Proof.
  rewrite request_phase. cbn [snd]. unfold fetched, requested, request_log.
  intros H.
  destruct (resume_log_cases blank process host d n)
    as [[_ E] | [(Hc & _ & E) | [(Hc & Hs & _ & E) | [(Hc & _ & E) |
        [(Hc & _ & E) | (Hc & _ & E)]]]]];
    cbv zeta in E; rewrite E in H; clear E; rewrite Hc || idtac;
    unfold plan_copy_log, skip_copy_log, synthesis_log, metric_fetch in H;
    try rewrite Hs; destruct (skip d); simpl in H |- *; in_cases; auto 6.
Qed.

(** X9. A call that returns a frame has freed every frame it fetched, and
    nothing else: [freeFrame] is called on a fetched frame or on null. *)
Theorem fetched_frames_are_freed {Planes : Type} (blank : Planes)
    (process : Planes -> Planes -> float32 -> Planes)
    (host : Clip -> Z -> option (VSFrame Planes)) (d : RIFEData) (n : Z) :
  let r := run (rifeGetFrame blank process host n arAllFramesReady d) in
  fst r <> None ->
  forall k c, fetched k c (snd r) <-> In (EvFreeFrame (Some (k, c))) (snd r).
Proof.
  intros r Hdone k c. subst r. unfold fetched.
  destruct (resume_log_cases blank process host d n)
    as [[E _] | [(_ & _ & E) | [(_ & _ & E & _) | [(_ & _ & E) |
        [(_ & E & _) | (_ & _ & E)]]]]];
    cbv zeta in E; try contradiction; rewrite E; clear E;
    unfold plan_copy_log, skip_copy_log, synthesis_log, metric_fetch, metric_frame;
    destruct (skip d); simpl; split; intros H; in_cases; auto 12.
Qed.

(** X10. Output indices that fall on a source frame: when [multiplier] divides
    [n * divisor], the frame returned is the source frame
    [n * divisor / multiplier], its pixels untouched; neither another
    source frame nor a metric frame is fetched and the engine is not
    called. *)
Theorem aligned_frame_is_copy (args : VSMap) (vi0 : VSVideoInfo) (env : Env)
    (d : RIFEData) (n : Z) {Planes : Type} (blank : Planes)
    (process : Planes -> Planes -> float32 -> Planes)
    (host : Clip -> Z -> option (VSFrame Planes)) (src0 : VSFrame Planes) :
  rifeCreate args vi0 env = OutRIFE d ->
  0 <= n < numFrames (vi d) ->
  (multiplier d | n * divisor d) ->
  host node (n * divisor d / multiplier d) = Some src0 ->
  let r := run (rifeGetFrame blank process host n arAllFramesReady d) in
  fst r = Some (Some (rescaleDuration d src0)) /\
  planes (rescaleDuration d src0) = planes src0 /\
  engine_called (snd r) = false /\
  (forall k c, fetched k c (snd r) -> k = n * divisor d / multiplier d /\ c = node).
Proof.
  intros Hc Hn Hdiv H0 r. apply rifeCreate_validated in Hc as V.
  pose proof (v_multiplier _ _ V) as Hm.
  rewrite <- (frameNum_exact _ _ _ V Hn) in *.
  assert (Hcan : canInterpolate d n = false).
  { unfold canInterpolate. rewrite (remainder_exact _ _ _ V Hn).
    apply Z.mod_divide in Hdiv; [| lia]. rewrite Hdiv. reflexivity. }
  subst r. rewrite (resume_plan_copy _ _ _ _ _ _ Hcan H0). cbn [fst snd].
  destruct (plan_copy_log_quiet d n) as (Hq & _ & Hf).
  repeat split; try assumption; try apply rescaleDuration_planes; apply (Hf k c); assumption.
Qed.

(** X11. The engine is only called off the source frames, in the resume
    phase: whatever the activation reason and the host's frames, a
    [process] call in the log of an accepted configuration carries the
    binary32 blend fraction of an index with a nonzero remainder; that
    fraction is above 0 and at most 1, and below 1 whenever
    [multiplier <= 2^24]. *)
Theorem engine_blend_range (args : VSMap) (vi0 : VSVideoInfo)
    (env : Env) (d : RIFEData) (n : Z) {Planes : Type} (blank : Planes)
    (process : Planes -> Planes -> float32 -> Planes)
    (host : Clip -> Z -> option (VSFrame Planes))
    (reason : VSActivationReason) (t : float32) :
  rifeCreate args vi0 env = OutRIFE d ->
  0 <= n < numFrames (vi d) ->
  In (EvProcess t) (snd (run (rifeGetFrame blank process host n reason d))) ->
  t = timestep d n /\ reason = arAllFramesReady /\
  0 < remainder d n < multiplier d /\
  SFltb float32_zero t = true /\ SFleb t float32_one = true /\
  (multiplier d <= 2 ^ 24 -> SFltb t float32_one = true).
Proof.
  intros Hc Hn Hin. apply rifeCreate_validated in Hc as V.
  pose proof (v_multiplier _ _ V) as Hm.
  assert (Ht : t = timestep d n /\ canInterpolate d n = true /\ reason = arAllFramesReady).
  { destruct reason.
    - simpl in Hin. destruct Hin.
    - rewrite request_phase in Hin. cbn [snd] in Hin. unfold request_log in Hin.
      destruct (canInterpolate d n), (skip d); simpl in Hin; in_cases.
    - destruct (resume_log_cases blank process host d n)
        as [[_ E] | [(Hcan & _ & E) | [(Hcan & _ & _ & E) | [(Hcan & _ & E) |
            [(Hcan & _ & E) | (Hcan & _ & E)]]]]];
        cbv zeta in E; rewrite E in Hin; clear E;
        unfold plan_copy_log, skip_copy_log, synthesis_log, metric_fetch in Hin;
        destruct (skip d); simpl in Hin; in_cases; auto. }
  destruct Ht as (-> & Hcan & ->).
  unfold canInterpolate in Hcan. apply andb_true_iff in Hcan as [Hr _].
  apply negb_true_iff, Z.eqb_neq in Hr.
  pose proof (remainder_exact _ _ _ V Hn) as He.
  pose proof (Z.mod_pos_bound (n * divisor d) (multiplier d) ltac:(lia)) as Hb.
  destruct (float32_quotient (remainder d n) (multiplier d))
    as (_ & H1 & _ & Hpos & _ & _ & H24);
    [lia | unfold INT_MAX in Hm; lia |].
  fold (timestep d n) in H1, Hpos, H24.
  split; [reflexivity |]. split; [reflexivity |]. split; [lia |].
  split; [apply Hpos; lia |]. split; [exact H1 | exact H24].
Qed.

(** X12. Source indices follow output indices: they never decrease, and when
    the clip is not slowed down ([divisor <= multiplier]) they advance by
    at most as much as the output index does, so neighbouring output
    frames come from the same or from neighbouring source frames. *)
Theorem frameNum_monotone (args : VSMap) (vi0 : VSVideoInfo) (env : Env)
    (d : RIFEData) (n n' : Z) :
  rifeCreate args vi0 env = OutRIFE d ->
  0 <= n <= n' ->
  n' < numFrames (vi d) ->
  0 <= frameNum d n <= frameNum d n' /\
  (divisor d <= multiplier d -> frameNum d n' - frameNum d n <= n' - n).
Proof.
  intros Hc Hn Hn'. apply rifeCreate_validated in Hc as V.
  pose proof (v_multiplier _ _ V) as Hm. pose proof (v_divisor _ _ V) as Hd.
  rewrite (frameNum_exact _ _ _ V) by lia. rewrite (frameNum_exact _ _ _ V) by lia.
  repeat split.
  - apply Z.div_pos; nia.
  - apply Z.div_le_mono; nia.
  - intros Hle.
    assert ((n' * divisor d) / multiplier d
            <= (n * divisor d + (n' - n) * multiplier d) / multiplier d)
      by (apply Z.div_le_mono; nia).
    rewrite Z.div_add in H by lia. lia.
Qed.

(** X13. What line 398 stores when the product fits an [int]: the exact
    quotient; it is never negative, it is zero exactly when [divisor]
    exceeds [numFrames * multiplier] (such a ratio is not rejected), and it
    is at least the source length when [divisor <= multiplier]. *)
Theorem output_count (args : VSMap) (vi0 : VSVideoInfo) (env : Env) (d : RIFEData) :
  rifeCreate args vi0 env = OutRIFE d ->
  numFrames vi0 * multiplier d <= INT_MAX ->
  numFrames (vi d) = (numFrames vi0 * multiplier d) / divisor d /\
  0 <= numFrames (vi d) <= INT_MAX /\
  (numFrames (vi d) = 0 <-> numFrames vi0 * multiplier d < divisor d) /\
  (divisor d <= multiplier d -> numFrames vi0 <= numFrames (vi d)) /\
  (divisor d = 1 -> numFrames (vi d) = numFrames vi0 * multiplier d).
Proof.
  intros Hc Hfit. apply rifeCreate_validated in Hc as V.
  pose proof (v_multiplier _ _ V) as Hm. pose proof (v_divisor _ _ V) as Hd.
  pose proof (v_frames _ _ V) as HS.
  rewrite (stored_count_exact _ _ V Hfit).
  set (P := numFrames vi0 * multiplier d) in *.
  assert (HP : 0 <= P) by (subst P; nia).
  repeat split.
  - apply Z.div_pos; lia.
  - apply Z.div_le_upper_bound; [lia |]. unfold INT_MAX in *. nia.
  - intros H0. apply Z.div_small_iff in H0; lia.
  - intros Hlt. apply Z.div_small. lia.
  - intros Hle. apply Z.div_le_lower_bound; [lia |]. subst P. nia.
  - intros ->. apply Z.div_1_r.
Qed.

(** X14. When the clip is not slowed down and the product fits an [int], every
    source index but possibly the last is the source index of some output
    index; the last one is too when [2 * divisor - 1 <= multiplier], in
    particular for a whole multiplier ([divisor = 1]). *)
Theorem source_frames_used (args : VSMap) (vi0 : VSVideoInfo) (env : Env)
    (d : RIFEData) (k : Z) :
  rifeCreate args vi0 env = OutRIFE d ->
  numFrames vi0 * multiplier d <= INT_MAX ->
  divisor d <= multiplier d ->
  0 <= k < numFrames vi0 ->
  k < numFrames vi0 - 1 \/ 2 * divisor d - 1 <= multiplier d ->
  exists n, 0 <= n < numFrames (vi d) /\ frameNum d n = k.
Proof.
  intros Hc Hfit Hle Hk Hlast. apply rifeCreate_validated in Hc as V.
  pose proof (v_multiplier _ _ V) as Hm. pose proof (v_divisor _ _ V) as Hd.
  pose proof (stored_count_exact _ _ V Hfit) as Hcount.
  set (m := multiplier d) in *. set (dv := divisor d) in *.
  set (n := (k * m + dv - 1) / dv).
  assert (Hn1 : k * m <= n * dv).
  { pose proof (Z.mod_pos_bound (k * m + dv - 1) dv).
    pose proof (Z.div_mod (k * m + dv - 1) dv). subst n. nia. }
  assert (Hn2 : n * dv <= k * m + dv - 1).
  { pose proof (Z.mul_div_le (k * m + dv - 1) dv). subst n. nia. }
  assert (Hn0 : 0 <= n) by (subst n; apply Z.div_pos; nia).
  assert (Hlt : n + 1 <= numFrames (vi d)).
  { rewrite Hcount. apply Z.div_le_lower_bound; [lia |]. nia. }
  exists n. split; [lia |].
  rewrite (frameNum_exact _ _ _ V) by lia. fold m dv.
  symmetry. apply Z.div_unique with (r := n * dv - k * m); nia.
Qed.

(* ===================================================================== *)
(** ** The GPU instance counter                                           *)
(* ===================================================================== *)

Lemma rifeCreate_unsupported (args : VSMap) (vi0 : VSVideoInfo) (env : Env) :
  format_supported env vi0 = false ->
  rifeCreate args vi0 env
  = OutError "RIFE: only constant RGB format 32 bit float input supported".
Proof.
  intros H. unfold rifeCreate, rifeCreate_body.
  unfold format_supported in H.
  assert (Hc : negb (isConstantVideoFormat env vi0)
               || negb (match colorFamily (format vi0) with cfRGB => true | _ => false end)
               || negb (match sampleType (format vi0) with stFloat => true | _ => false end)
               || negb (bitsPerSample (format vi0) =? 32) = true).
  { destruct (isConstantVideoFormat env vi0); [| reflexivity].
    destruct (match colorFamily (format vi0) with cfRGB => true | _ => false end);
      [| reflexivity].
    destruct (match sampleType (format vi0) with stFloat => true | _ => false end);
      [| reflexivity].
    destruct (bitsPerSample (format vi0) =? 32); [discriminate H | reflexivity]. }
  rewrite Hc. reflexivity.
Qed.

Lemma rifeCreate_no_gpu (args : VSMap) (vi0 : VSVideoInfo) (env : Env) :
  format_supported env vi0 = true ->
  create_gpu_instance env <> 0 ->
  rifeCreate args vi0 env = OutError "RIFE: failed to create GPU instance".
Proof.
  intros Hf Hg. unfold rifeCreate, rifeCreate_body.
  unfold format_supported in Hf.
  apply andb_true_iff in Hf as [Hf H4]. apply andb_true_iff in Hf as [Hf H3].
  apply andb_true_iff in Hf as [H1 H2].
  rewrite H1, H2, H3, H4. apply Z.eqb_neq in Hg. rewrite Hg. reflexivity.
Qed.

(** X15. As long as every creation gets past the format check and obtains the
    GPU, the counter moves with the number of live filters: after any
    sequence of creations (accepted or not) and frees, the counter has
    changed by exactly as much as the number of filters alive. *)
Theorem gpu_counter_tracks_filters (ops : list Op) (st : Instances) (live : Z) :
  Forall reaches_gpu ops ->
  let '(st', live') := run_ops ops st live in
  numGPUInstances st' - live' = numGPUInstances st - live.
Proof.
  intros Hall. revert st live.
  induction Hall as [| op ops Hop _ IH]; intros st live; [reflexivity |].
  destruct op as [args vi0 env |]; cbn [run_ops].
  - destruct Hop as [Hf Hg].
    unfold rifeCreate_counted. rewrite Hf, Hg. cbn [negb Z.eqb].
    destruct (rifeCreate args vi0 env) as [msg | text | d];
      match goal with
      | |- context [run_ops ops ?s ?l] =>
          specialize (IH s l); destruct (run_ops ops s l) as [st' live']
      end; cbn [release_gpu numGPUInstances] in IH; lia.
  - specialize (IH (rifeFree st) (live - 1)).
    destruct (run_ops ops (rifeFree st) (live - 1)) as [st' live'].
    cbn [rifeFree release_gpu numGPUInstances] in IH. lia.
Qed.

(** X16. When a filter is created, the GPU runtime is initialised and the
    counter goes up by one; freeing that filter puts the counter back, and
    tears the GPU runtime down exactly when no other filter was counted. *)
Theorem create_then_free_restores (args : VSMap) (vi0 : VSVideoInfo) (env : Env)
    (st : Instances) (d : RIFEData) :
  rifeCreate args vi0 env = OutRIFE d ->
  let st1 := snd (rifeCreate_counted args vi0 env st) in
  let st2 := rifeFree st1 in
  numGPUInstances st1 = numGPUInstances st + 1 /\
  gpu_calls st1 = (gpu_calls st ++ [CreateGpuInstance])%list /\
  numGPUInstances st2 = numGPUInstances st /\
  gpu_calls st2
  = (gpu_calls st1
     ++ if numGPUInstances st =? 0 then [DestroyGpuInstance] else [])%list.
Proof.
  intros Hc. pose proof (rifeCreate_accepted _ _ _ _ Hc) as A.
  pose proof (a_format _ _ _ _ A) as Hf. pose proof (a_create _ _ _ _ A) as Hg.
  unfold rifeCreate_counted. rewrite Hf, Hg, Hc. cbn [negb Z.eqb].
  cbn zeta. cbn [snd rifeFree release_gpu numGPUInstances gpu_calls].
  replace (numGPUInstances st + 1 - 1) with (numGPUInstances st) by lia.
  repeat split; lia.
Qed.

(** X17. A creation refused before the counter was incremented (unsupported
    format, or no GPU instance) still goes through the handler that
    decrements it: the counter ends one lower than it started, and the GPU
    runtime is torn down when exactly one filter was counted. *)
Theorem early_rejection_decrements (args : VSMap) (vi0 : VSVideoInfo) (env : Env)
    (st : Instances) :
  format_supported env vi0 = false \/ create_gpu_instance env <> 0 ->
  let '(out, st') := rifeCreate_counted args vi0 env st in
  (exists msg, out = OutError msg) /\
  numGPUInstances st' = numGPUInstances st - 1 /\
  (In DestroyGpuInstance (gpu_calls st')
   <-> In DestroyGpuInstance (gpu_calls st) \/ numGPUInstances st = 1).
Proof.
  intros H. unfold rifeCreate_counted.
  destruct (format_supported env vi0) eqn:Hf; cbn [negb].
  - destruct H as [H | H]; [discriminate H |].
    rewrite (rifeCreate_no_gpu args _ _ Hf H).
    apply Z.eqb_neq in H. rewrite H. cbn [negb release_gpu numGPUInstances gpu_calls].
    split; [eexists; reflexivity |]. split; [reflexivity |].
    rewrite !in_app_iff.
    destruct (numGPUInstances st - 1 =? 0) eqn:E; cbn [In];
      [apply Z.eqb_eq in E | apply Z.eqb_neq in E].
    + split; [intros _; right; lia |]. intros _. right. left. reflexivity.
    + split.
      * intros [[Hi | [Hi | []]] | []]; [left; exact Hi | discriminate Hi].
      * intros [Hi | Hi]; [left; left; exact Hi | lia].
  - rewrite (rifeCreate_unsupported args _ _ Hf).
    cbn [release_gpu numGPUInstances gpu_calls].
    split; [eexists; reflexivity |]. split; [reflexivity |].
    rewrite !in_app_iff.
    destruct (numGPUInstances st - 1 =? 0) eqn:E; cbn [In];
      [apply Z.eqb_eq in E | apply Z.eqb_neq in E].
    + split; [intros _; right; lia |]. intros _. right. left. reflexivity.
    + split.
      * intros [Hi | []]; left; exact Hi.
      * intros [Hi | Hi]; [left; exact Hi | lia].
Qed.

(* ===================================================================== *)
(** ** Workers against the validated semaphore                            *)
(* ===================================================================== *)

Lemma bracketed_app (b : bool) (l1 l2 : list Event) :
  bracketed b l1 -> bracketed false l2 -> bracketed b (l1 ++ l2)%list.
Proof.
  revert b. induction l1 as [| e l1 IH]; intros b H1 H2; simpl in *.
  - subst b. exact H2.
  - destruct e; try (apply IH; assumption);
      destruct H1 as [Hb H1]; (split; [exact Hb | apply IH; assumption]).
Qed.

Lemma rifeGetFrame_bracketed {Planes : Type} (blank : Planes)
    (process : Planes -> Planes -> float32 -> Planes)
    (host : Clip -> Z -> option (VSFrame Planes))
    (n : Z) (reason : VSActivationReason) (d : RIFEData) :
  bracketed false (snd (run (rifeGetFrame blank process host n reason d))).
Proof.
  run_log. destruct reason; [reflexivity | |].
  - destruct (canInterpolate d n), (skip d); reflexivity.
  - destruct (host node (frameNum d n)) as [src0 |]; [| reflexivity].
    destruct (canInterpolate d n); [| reflexivity].
    destruct (skip d).
    + destruct (host psnr (frameNum d n)) as [pf |]; [| reflexivity].
      destruct (mapGetFloat (props pf) "psnr_y" 0) as [e | y]; [reflexivity |].
      destruct (read_sceneChange d src0 || (skip_threshold d <=? y)%float);
        [reflexivity |].
      destruct (host node (int_add (frameNum d n) 1)); simpl;
        [repeat split | reflexivity].
    + destruct (read_sceneChange d src0 || (skip_threshold d <=? -1)%float);
        [reflexivity |].
      destruct (host node (int_add (frameNum d n) 1)); simpl;
        [repeat split | reflexivity].
Qed.

Lemma worker_program_bracketed {Planes : Type} (blank : Planes)
    (process : Planes -> Planes -> float32 -> Planes) (d : RIFEData)
    (calls : list (@Call Planes)) :
  bracketed false (worker_program blank process d calls).
Proof.
  induction calls as [| c calls IH]; simpl; [reflexivity |].
  apply bracketed_app; [apply rifeGetFrame_bracketed | exact IH].
Qed.

Lemma thread_step_wf (c c' : Z) (t t' : Thread) :
  thread_step c t c' t' ->
  thread_wf t ->
  thread_wf t' /\ c' + held t' = c + held t /\ (0 <= c -> 0 <= c').
Proof.
  unfold thread_wf.
  destruct 1 as [c rest h Hc | c q rest h | status c q rest h | c rest h
                | c e rest h Ha Hr Hp];
    simpl; intros (b & Hh & Hb & Hi).
  - destruct Hb as [-> Hb]. split; [| lia].
    exists true. split; [lia |]. split; [exact Hb | discriminate].
  - split; [| lia]. exists b. split; [exact Hh |]. split; [exact Hb | eauto].
  - destruct Hb as [-> Hb]. split; [| lia].
    exists true. split; [exact Hh |]. split; [exact Hb | discriminate].
  - destruct Hb as [-> Hb]. split; [| lia].
    exists false. split; [lia |]. split; [exact Hb | discriminate].
  - split; [| lia]. exists b. split; [exact Hh |]. split; [| discriminate].
    destruct e; try exact Hb; try congruence; discriminate Hp.
Qed.

Lemma pool_step_wf (N : Z) (p p' : Pool) :
  pool_step p p' -> pool_wf N p -> pool_wf N p'.
Proof.
  unfold pool_wf, tokens_held.
  destruct 1 as [p i t t' c' Hi Hstep]. simpl. intros (Hc & Hsum & Hall).
  assert (Ht : thread_wf t) by (eapply Forall_lookup_1; eassumption).
  destruct (thread_step_wf _ _ _ _ Hstep Ht) as (Ht' & Heq & Hnn).
  repeat split.
  - auto.
  - rewrite (total_insert held _ _ _ t' Hi). lia.
  - apply Forall_insert; assumption.
Qed.

Lemma pool_wf_steps (N : Z) (p p' : Pool) :
  rtc pool_step p p' -> pool_wf N p -> pool_wf N p'.
Proof. induction 1; eauto using pool_step_wf. Qed.

Lemma start_pool_wf {Planes : Type} (blank : Planes)
    (process : Planes -> Planes -> float32 -> Planes) (d : RIFEData)
    (workers : list (list (@Call Planes))) :
  0 <= semaphore d ->
  pool_wf (semaphore d) (start_pool blank process d workers).
Proof.
  intros HN. unfold pool_wf, start_pool, tokens_held. simpl.
  assert (Hinit : Forall (fun t => thread_wf t /\ held t = 0)
            (map (fun calls => {| todo := worker_program blank process d calls;
                                  held := 0; in_call := false |}) workers)).
  { apply Forall_map, Forall_forall. intros calls _. split; [| reflexivity].
    exists false. simpl.
    repeat split; [apply worker_program_bracketed | discriminate]. }
  repeat split.
  - exact HN.
  - rewrite total_zero; [lia |].
    eapply Forall_impl; [exact Hinit |]. intros t [_ H]; exact H.
  - eapply Forall_impl; [exact Hinit |]. intros t [H _]; exact H.
Qed.

(** A thread with work left moves unless it waits for a token that is not
    there; a thread that holds a token always moves. *)
Lemma thread_can_step (c : Z) (t : Thread) :
  thread_wf t -> todo t <> [] -> 0 < c \/ held t = 1 ->
  exists c' t', thread_step c t c' t'.
Proof.
  destruct t as [l h i]. unfold thread_wf. simpl.
  intros (b & Hh & Hb & Hi) Hl Hc.
  destruct i.
  - destruct (Hi eq_refl) as (q & rest & ->).
    eexists _, _. apply step_leave. exact 0.
  - destruct l as [| e rest]; [congruence |].
    destruct e; try (eexists _, _; apply step_other; [discriminate | discriminate | reflexivity]).
    + destruct Hb as [-> _]. destruct Hc as [Hc | Hc]; [| lia].
      eexists _, _. apply step_acquire. exact Hc.
    + eexists _, _. apply step_enter.
    + eexists _, _. apply step_release.
Qed.

Lemma holder_has_work (t : Thread) :
  thread_wf t -> held t = 1 -> todo t <> [].
Proof.
  intros (b & Hh & Hb & _) H1. destruct b; [| lia].
  destruct (todo t); [discriminate Hb | discriminate].
Qed.

Lemma exists_holder (ts : list Thread) :
  Forall thread_wf ts -> 0 < total held ts ->
  exists i t, ts !! i = Some t /\ held t = 1.
Proof.
  induction 1 as [| t ts Ht _ IH]; simpl; [lia |]. intros Hpos.
  destruct Ht as (b & Hh & _). destruct b.
  - exists 0%nat, t. split; [reflexivity | exact Hh].
  - destruct IH as (i & t' & Hi & H1); [lia |].
    exists (S i), t'. split; assumption.
Qed.

Lemma done_or_working (ts : list Thread) :
  Forall (fun t => todo t = []) ts \/
  exists i t, ts !! i = Some t /\ todo t <> [].
Proof.
  induction ts as [| t ts IH]; [left; constructor |].
  destruct (todo t) as [| e l] eqn:E.
  - destruct IH as [IH | (i & t' & Hi & Hw)].
    + left. constructor; assumption.
    + right. exists (S i), t'. split; assumption.
  - right. exists 0%nat, t. split; [reflexivity | congruence].
Qed.

(** X18. For an accepted configuration, at every moment of every interleaving
    the number of engine calls in flight is within the number of compute
    queues of the chosen device, and that device exists. *)
Theorem in_flight_within_queue_count (args : VSMap) (vi0 : VSVideoInfo)
    (env : Env) (d : RIFEData) {Planes : Type} (blank : Planes)
    (process : Planes -> Planes -> float32 -> Planes)
    (workers : list (list (@Call Planes))) (p : Pool) :
  rifeCreate args vi0 env = OutRIFE d ->
  rtc pool_step (start_pool blank process d workers) p ->
  0 <= gpuid (rife d) < get_gpu_count env /\
  in_flight p <= compute_queue_count env (gpuid (rife d)).
Proof.
  intros Hc Hsteps. pose proof (rifeCreate_accepted _ _ _ _ Hc) as A.
  pose proof (a_threads _ _ _ _ A) as Ht.
  split; [exact (a_gpu _ _ _ _ A) |].
  assert (Hok : pool_ok (semaphore d) p).
  { eapply pool_ok_steps; [exact Hsteps |]. apply start_pool_ok. lia. }
  destruct Hok as (Hc0 & Hsum & Hall).
  assert (Hle : in_flight p <= tokens_held p).
  { apply total_le. eapply Forall_impl; [exact Hall |].
    intros t (Hh & _ & Hi). destruct (in_call t); [specialize (Hi eq_refl) |]; lia. }
  lia.
Qed.

(** X19. The workers never deadlock: in every reachable state either all the
    work is done, or some thread can take a step. *)
Theorem workers_never_deadlock (args : VSMap) (vi0 : VSVideoInfo)
    (env : Env) (d : RIFEData) {Planes : Type} (blank : Planes)
    (process : Planes -> Planes -> float32 -> Planes)
    (workers : list (list (@Call Planes))) (p : Pool) :
  rifeCreate args vi0 env = OutRIFE d ->
  rtc pool_step (start_pool blank process d workers) p ->
  all_done p \/ exists p', pool_step p p'.
Proof.
  intros Hc Hsteps. pose proof (rifeCreate_accepted _ _ _ _ Hc) as A.
  pose proof (a_threads _ _ _ _ A) as Ht.
  assert (Hwf : pool_wf (semaphore d) p).
  { eapply pool_wf_steps; [exact Hsteps |]. apply start_pool_wf. lia. }
  destruct Hwf as (Hc0 & Hsum & Hall).
  destruct (done_or_working (threads p)) as [Hdone | (i & t & Hi & Hw)];
    [left; exact Hdone | right].
  destruct (Z.eq_dec (tokens p) 0) as [H0 | H0].
  - destruct (exists_holder (threads p) Hall) as (j & u & Hj & H1);
      [unfold tokens_held in Hsum; lia |].
    assert (Hu : thread_wf u) by (eapply Forall_lookup_1; eassumption).
    destruct (thread_can_step (tokens p) u Hu (holder_has_work u Hu H1))
      as (c' & u' & Hstep); [right; exact H1 |].
    eexists. eapply pool_step_thread; eassumption.
  - assert (Hu : thread_wf t) by (eapply Forall_lookup_1; eassumption).
    destruct (thread_can_step (tokens p) t Hu Hw) as (c' & t' & Hstep);
      [left; lia |].
    eexists. eapply pool_step_thread; eassumption.
Qed.

(* ===================================================================== *)
(** ** Edge cases of the comparison and the whole-multiplier layout       *)
(* ===================================================================== *)

Lemma SFcompare_nan (x y : spec_float) :
  SFeqb x x = false \/ SFeqb y y = false -> SFcompare x y = None.
Proof.
  assert (Hrefl : forall z, SFeqb z z = false -> z = S754_nan).
  { intros [s | s | | s m e]; unfold SFeqb; simpl; try reflexivity.
    - destruct s; discriminate.
    - destruct s; discriminate.
    - destruct s; rewrite Z.compare_refl, ?Pos.compare_cont_refl, ?Pos.compare_refl;
        simpl; try discriminate;
        rewrite ?Pos.compare_cont_refl, ?Pos.compare_refl; simpl; discriminate. }
  intros [H | H]; apply Hrefl in H; subst.
  - reflexivity.
  - destruct x as [s | s | | s m e]; reflexivity.
Qed.

Lemma float_leb_nan (x y : float) :
  PrimFloat.is_nan x = true \/ PrimFloat.is_nan y = true ->
  (x <=? y)%float = false.
Proof.
  unfold PrimFloat.is_nan. rewrite !FloatAxioms.eqb_spec, FloatAxioms.leb_spec.
  intros H. unfold SFleb. rewrite SFcompare_nan; [reflexivity |].
  destruct H as [H | H]; apply negb_true_iff in H; auto.
Qed.

(** X20. A comparison with a NaN never skips.  With skip-by-metric enabled, a
    score that is not a number, or a threshold that is not a number (the
    range check lets it through), leaves the decision to the scene-change
    flag alone: the candidate is synthesized unless the flag passes it. *)
Theorem nan_comparison_never_skips (args : VSMap) (vi0 : VSVideoInfo)
    (env : Env) (d : RIFEData) (n : Z) {Planes : Type} (blank : Planes)
    (process : Planes -> Planes -> float32 -> Planes)
    (host : Clip -> Z -> option (VSFrame Planes))
    (src0 src1 pf : VSFrame Planes) (score : float) :
  rifeCreate args vi0 env = OutRIFE d ->
  skip d = true ->
  canInterpolate d n = true ->
  host node (frameNum d n) = Some src0 ->
  host psnr (frameNum d n) = Some pf ->
  mapGetFloat (props pf) "psnr_y" 0 = inr score ->
  host node (int_add (frameNum d n) 1) = Some src1 ->
  PrimFloat.is_nan (skip_threshold d) = true \/ PrimFloat.is_nan score = true ->
  let r := run (rifeGetFrame blank process host n arAllFramesReady d) in
  if sceneChange d && mapGetBool (props src0) "_SceneChangeNext"
  then fst r = Some (Some (rescaleDuration d src0)) /\ engine_called (snd r) = false
  else fst r = Some (Some (rescaleDuration d (synthesized process d n src0 src1))) /\
       engine_called (snd r) = true.
Proof.
  intros Hc Hs Hcan H0 Hpf Hy H1 Hnan r.
  assert (Hm : skip d = true ->
               exists pf, host psnr (frameNum d n) = Some pf /\
                          mapGetFloat (props pf) "psnr_y" 0 = inr score)
    by (intros _; exists pf; split; assumption).
  pose proof (resume_candidate blank process host d n src0 score Hcan H0 Hm) as Hres.
  rewrite Hs, (float_leb_nan _ _ Hnan), read_sceneChange_and, orb_false_r in Hres.
  destruct (sceneChange d && mapGetBool (props src0) "_SceneChangeNext").
  - subst r. rewrite Hres. cbn [fst snd]. split; [reflexivity | apply skip_copy_log_quiet].
  - subst r. rewrite (Hres src1 H1). cbn [fst snd].
    split; [reflexivity | apply synthesis_log_engine].
Qed.

(** X21. With a whole multiplier ([divisor = 1]) the output is laid out in
    groups of [multiplier] frames: output index [k * multiplier + j] has
    source index [k] and blend position [j / multiplier], and it is a
    candidate for interpolation exactly when [j] is not zero and [k] is not
    the last source frame, so the last source frame fills its whole
    group. *)
Theorem whole_multiplier_layout (args : VSMap) (vi0 : VSVideoInfo) (env : Env)
    (d : RIFEData) (k j : Z) :
  rifeCreate args vi0 env = OutRIFE d ->
  numFrames vi0 <= INT_MAX ->
  divisor d = 1 ->
  0 <= k < numFrames vi0 ->
  0 <= j < multiplier d ->
  let n := k * multiplier d + j in
  0 <= n < numFrames (vi d) /\
  frameNum d n = k /\
  remainder d n = j /\
  (canInterpolate d n = true <-> j <> 0 /\ k < numFrames vi0 - 1).
Proof.
  intros Hc HS Hd Hk Hj n. pose proof (rifeCreate_validated _ _ _ _ Hc) as V.
  pose proof (v_multiplier _ _ V) as Hm. pose proof (v_length _ _ V) as Hlen.
  pose proof (v_frames _ _ V) as Hfr.
  assert (Hfit : numFrames vi0 * multiplier d <= INT_MAX).
  { rewrite Hd in Hlen.
    rewrite !int_div_pos in Hlen by (unfold INT_MIN, INT_MAX in *; lia).
    rewrite Z.quot_1_r, quot_nonneg_div in Hlen by (unfold INT_MAX; lia).
    pose proof (Z.mul_div_le INT_MAX (multiplier d) ltac:(lia)) as Hmd.
    clear - Hlen Hmd Hm Hfr. nia. }
  assert (Hcount : numFrames (vi d) = numFrames vi0 * multiplier d).
  { rewrite (stored_count_exact _ _ V Hfit), Hd. apply Z.div_1_r. }
  assert (Hn : 0 <= n < numFrames (vi d)).
  { rewrite Hcount. subst n. clear - Hk Hj Hm. nia. }
  assert (Hf : frameNum d n = k).
  { rewrite (frameNum_exact _ _ _ V Hn), Hd, Z.mul_1_r. subst n.
    replace (k * multiplier d + j) with (j + k * multiplier d) by lia.
    rewrite Z.div_add by lia. rewrite Z.div_small by lia. lia. }
  assert (Hr : remainder d n = j).
  { rewrite (remainder_exact _ _ _ V Hn), Hd, Z.mul_1_r. subst n.
    replace (k * multiplier d + j) with (j + k * multiplier d) by lia.
    rewrite Z.mod_add by lia. apply Z.mod_small. lia. }
  split; [exact Hn |]. split; [exact Hf |]. split; [exact Hr |].
  unfold canInterpolate. rewrite Hr, Hcount.
  unfold int_sub. rewrite wrap32_id by (unfold INT_MIN, INT_MAX in *; nia).
  rewrite andb_true_iff, negb_true_iff, Z.eqb_neq, Z.ltb_lt.
  subst n. clear - Hk Hj Hm. split; intros [H1 H2]; (split; [exact H1 | nia]).
Qed.

(* ===================================================================== *)
(** ** The further properties on the test vectors                         *)
(* ===================================================================== *)

Lemma tripled_accepted :
  rifeCreate (example_args 3 1 false false) (example_vi 3) example_env
  = OutRIFE tripled_data.
Proof. vm_compute. reflexivity. Qed.

Lemma v2_accepted :
  rifeCreate (example_args 2 1 false false) (example_vi 3) v2_env = OutRIFE v2_data.
Proof. vm_compute. reflexivity. Qed.

(** A multiplier of 1 is refused by a thrown error, which carries the
    prefix. *)
Lemma error_message_origin_witness :
  String.prefix "RIFE: " "RIFE: multiplier must be greater than 1" = true \/
  exists fn, In fn ["Text"; "Bicubic"; "DuplicateFrames"; "Trim"; "Metric"] /\
             invoke_error example_env fn
             = Some "RIFE: multiplier must be greater than 1".
Proof.
  apply (error_message_origin (example_args 1 1 false false) (example_vi 3) example_env).
  vm_compute. reflexivity.
Defined.

(** A key that is not declared changes nothing. *)
Lemma reads_only_declared_parameters_witness :
  let args := example_args 2 1 false false in
  let value := PInt [1] in
  rifeCreate args (example_vi 3) example_env
  = rifeCreate (<["comment" := value]> args) (example_vi 3) example_env.
Proof.
  apply reads_only_declared_parameters.
  intros key Hkey. vm_compute in Hkey.
  repeat (destruct Hkey as [<- | Hkey]; [vm_compute; reflexivity |]).
  destruct Hkey.
Defined.

(** The example plugin lies in [/usr/lib/vapoursynth]. *)
Lemma builtin_model_directory_witness :
  modeldir (rife (example_data false false))
  = "/usr/lib/vapoursynth" +:+ "/models" +:+ model_suffix 9 /\
  ifs_is_open example_env
    (("/usr/lib/vapoursynth" +:+ "/models" +:+ model_suffix 9) +:+ "/flownet.param")
  = true.
Proof.
  refine (proj1 (proj2 (builtin_model_directory (example_args 2 1 false false) _ _ _
                          (example_accepted false false) _))
            "/usr/lib/vapoursynth" "librife.so" _ _);
    vm_compute; reflexivity.
Defined.

(** Model 9 is the v4 model, but below [/opt/rife-v2] it runs as v2. *)
Lemma plugin_directory_decides_family_witness :
  rife_v2 (rife v2_data) = true /\ rife_v4 (rife v2_data) = false /\
  multiplier v2_data = 2 /\ divisor v2_data = 1.
Proof.
  apply (plugin_directory_decides_family _ _ _ _ v2_accepted); vm_compute; reflexivity.
Defined.

(** The tripling filter runs the v4 model. *)
Lemma custom_ratio_needs_v4_witness :
  let d := tripled_data in
  (multiplier d <> 2 \/ divisor d <> 1 ->
   contains (modeldir (rife d)) "rife-v4" = true /\
   contains (modeldir (rife d)) "rife-v2" = false /\
   contains (modeldir (rife d)) "rife-v3" = false /\
   rife_v4 (rife d) = true /\ tta_mode (rife d) = false) /\
  rife_v2 (rife d) && rife_v4 (rife d) = false /\
  num_threads (rife d) = 1.
Proof.
  exact (custom_ratio_needs_v4 _ _ _ _ tripled_accepted).
Defined.

(** Frame [B], fetched for output index 1, was requested for it. *)
Lemma resume_fetches_were_requested_witness :
  let d := example_data false false in
  requested 1 node (snd (run (rifeGetFrame "" example_process cut_host 1 arInitial d))).
Proof.
  apply (resume_fetches_were_requested "" example_process example_host cut_host
           (example_data false false) 1 1 node).
  vm_compute. right. left. reflexivity.
Defined.

Lemma fetched_frames_are_freed_witness :
  let d := example_data false false in
  let r := run (rifeGetFrame "" example_process example_host 1 arAllFramesReady d) in
  fetched 1 node (snd r) <-> In (EvFreeFrame (Some (1, node))) (snd r).
Proof.
  refine (fetched_frames_are_freed "" example_process example_host
            (example_data false false) 1 _ 1 node).
  vm_compute. discriminate.
Defined.

(** Output index 2 of the doubled clip is frame [B] itself. *)
Lemma aligned_frame_is_copy_witness :
  let d := example_data false false in
  let r := run (rifeGetFrame "" example_process example_host 2 arAllFramesReady d) in
  fst r = Some (Some (rescaleDuration d frame_B)) /\
  planes (rescaleDuration d frame_B) = planes frame_B /\
  engine_called (snd r) = false /\
  (forall k c, fetched k c (snd r) -> k = 2 * divisor d / multiplier d /\ c = node).
Proof.
  apply (aligned_frame_is_copy _ _ _ _ 2 "" example_process example_host frame_B
           (example_accepted false false)).
  - vm_compute. split; [discriminate | reflexivity].
  - exists 1. reflexivity.
  - reflexivity.
Defined.

(** Output index 1 of the doubled clip is blended half way. *)
Lemma engine_blend_range_witness :
  let d := example_data false false in
  one_half = timestep d 1 /\ arAllFramesReady = arAllFramesReady /\
  0 < remainder d 1 < multiplier d /\
  SFltb float32_zero one_half = true /\ SFleb one_half float32_one = true /\
  (multiplier d <= 2 ^ 24 -> SFltb one_half float32_one = true).
Proof.
  apply (engine_blend_range _ _ _ _ 1 "" example_process example_host
           arAllFramesReady one_half (example_accepted false false)).
  - vm_compute. split; [discriminate | reflexivity].
  - vm_compute. do 4 right. left. reflexivity.
Defined.

Lemma frameNum_monotone_witness :
  let d := tripled_data in
  0 <= frameNum d 2 <= frameNum d 7 /\
  (divisor d <= multiplier d -> frameNum d 7 - frameNum d 2 <= 7 - 2).
Proof.
  apply (frameNum_monotone _ _ _ _ 2 7 tripled_accepted); vm_compute;
    try split; (discriminate || reflexivity).
Defined.

Lemma output_count_witness :
  let d := tripled_data in
  let vi0 := example_vi 3 in
  numFrames (vi d) = (numFrames vi0 * multiplier d) / divisor d /\
  0 <= numFrames (vi d) <= INT_MAX /\
  (numFrames (vi d) = 0 <-> numFrames vi0 * multiplier d < divisor d) /\
  (divisor d <= multiplier d -> numFrames vi0 <= numFrames (vi d)) /\
  (divisor d = 1 -> numFrames (vi d) = numFrames vi0 * multiplier d).
Proof.
  apply (output_count _ _ _ _ tripled_accepted). vm_compute. discriminate.
Defined.

(** The last source frame of the tripled clip is used. *)
Lemma source_frames_used_witness :
  let d := tripled_data in
  exists n, 0 <= n < numFrames (vi d) /\ frameNum d n = 2.
Proof.
  apply (source_frames_used _ (example_vi 3) _ _ 2 tripled_accepted).
  - vm_compute. discriminate.
  - vm_compute. discriminate.
  - vm_compute. split; [discriminate | reflexivity].
  - right. vm_compute. discriminate.
Defined.

(** After the example script no filter is alive and the counter is back
    where it started. *)
Lemma gpu_counter_tracks_filters_witness :
  let '(st', live') := run_ops example_script no_instances 0 in
  numGPUInstances st' - live' = numGPUInstances no_instances - 0.
Proof.
  apply (gpu_counter_tracks_filters example_script no_instances 0).
  repeat constructor; vm_compute; reflexivity.
Defined.

Lemma create_then_free_restores_witness :
  let st := no_instances in
  let st1 := snd (rifeCreate_counted (example_args 2 1 false false) (example_vi 3)
                    example_env st) in
  let st2 := rifeFree st1 in
  numGPUInstances st1 = numGPUInstances st + 1 /\
  gpu_calls st1 = (gpu_calls st ++ [CreateGpuInstance])%list /\
  numGPUInstances st2 = numGPUInstances st /\
  gpu_calls st2
  = (gpu_calls st1
     ++ if numGPUInstances st =? 0 then [DestroyGpuInstance] else [])%list.
Proof.
  exact (create_then_free_restores _ _ _ no_instances _ (example_accepted false false)).
Defined.

(** With one filter alive, a creation refused for its format takes the
    counter to zero and tears the GPU runtime down. *)
Lemma early_rejection_decrements_witness :
  let st := {| numGPUInstances := 1; gpu_calls := [CreateGpuInstance] |} in
  let '(out, st') :=
    rifeCreate_counted (example_args 2 1 false false) integer_vi example_env st in
  (exists msg, out = OutError msg) /\
  numGPUInstances st' = numGPUInstances st - 1 /\
  (In DestroyGpuInstance (gpu_calls st')
   <-> In DestroyGpuInstance (gpu_calls st) \/ numGPUInstances st = 1).
Proof.
  apply (early_rejection_decrements (example_args 2 1 false false) integer_vi
           example_env).
  left. vm_compute. reflexivity.
Defined.

Lemma in_flight_within_queue_count_witness :
  let d := example_data false false in
  0 <= gpuid (rife d) < get_gpu_count example_env /\
  in_flight busy_pool <= compute_queue_count example_env (gpuid (rife d)).
Proof.
  exact (in_flight_within_queue_count _ _ _ _ "" example_process example_workers
           busy_pool (example_accepted false false) busy_pool_reachable).
Defined.

(** In [busy_pool] the second worker waits, and the first can go on. *)
Lemma workers_never_deadlock_witness :
  all_done busy_pool \/ exists p', pool_step busy_pool p'.
Proof.
  exact (workers_never_deadlock _ _ _ _ "" example_process example_workers
           busy_pool (example_accepted false false) busy_pool_reachable).
Defined.

(** A metric that is not a number: [A] and [B] are blended. *)
Lemma nan_comparison_never_skips_witness :
  let d := example_data false true in
  let r := run (rifeGetFrame "" example_process nan_host 1 arAllFramesReady d) in
  if sceneChange d && mapGetBool (props frame_A) "_SceneChangeNext"
  then fst r = Some (Some (rescaleDuration d frame_A)) /\ engine_called (snd r) = false
  else fst r = Some (Some (rescaleDuration d
                             (synthesized example_process d 1 frame_A frame_B))) /\
       engine_called (snd r) = true.
Proof.
  apply (nan_comparison_never_skips _ _ _ _ 1 "" example_process nan_host
           frame_A frame_B (metric nan) nan (example_accepted false true));
    try reflexivity.
  right. reflexivity.
Defined.

(** Output index 4 of the tripled clip: source frame 1, a third of the
    way to frame 2. *)
Lemma whole_multiplier_layout_witness :
  let d := tripled_data in
  let n := 1 * multiplier d + 1 in
  0 <= n < numFrames (vi d) /\
  frameNum d n = 1 /\
  remainder d n = 1 /\
  (canInterpolate d n = true <-> 1 <> 0 /\ 1 < numFrames (example_vi 3) - 1).
Proof.
  apply (whole_multiplier_layout _ (example_vi 3) _ _ 1 1 tripled_accepted);
    vm_compute; try split; (discriminate || reflexivity).
Defined.

(** Two frames retimed by 4/3 give two output frames, both taken from
    source frame 0: the last source frame is not used. *)
Example scenario_last_frame_unused :
  exists d,
    rifeCreate (example_args 4 3 false false) (example_vi 2) example_env = OutRIFE d /\
    numFrames (vi d) = 2 /\ frameNum d 0 = 0 /\ frameNum d 1 = 0.
Proof. eexists. split; [vm_compute; reflexivity |]. vm_compute. repeat split. Qed.

(** A filter is created, then a creation is refused for its format: the
    counter is back at zero and the GPU runtime is torn down while the
    first filter is still alive. *)
Example scenario_counter_out_of_step :
  let script :=
    [OpCreate (example_args 2 1 false false) (example_vi 3) example_env;
     OpCreate (example_args 2 1 false false) integer_vi example_env] in
  run_ops script no_instances 0
  = ({| numGPUInstances := 0;
        gpu_calls := [CreateGpuInstance; DestroyGpuInstance] |}, 1).
Proof. vm_compute. reflexivity. Qed.
